(** * Srikyz-TDS: the evaluation pipeline

    A shallow embedding of the task generator (task_templates.py), the
    ledger (db.py), the dispatchers (round1.py, round2.py), the result
    notifier (evaluator.py), the submission endpoint (api_server.py) and
    the check engine (evaluate.py), followed by the properties proved
    about them.

    Conventions.  A Python [str] is a [string]; an [int] is a [Z]; a
    [float] score is a [Q] (the scores the code computes are 0, 0.5, 1.0
    and a quotient k/n of small integers).  A function that can raise
    returns [Exc A]: [Raise e] carries [str(e)], the text of the
    exception.  What comes from outside the process (HTTP answers, the
    browser page, the digest functions, the generator behind [random])
    is a parameter: a field of a class or an argument. *)

From Stdlib Require Import ZArith QArith Lia Ascii.
From stdpp Require Import base option list strings pretty gmap.

Set Warnings "-register-all".

Local Open Scope string_scope.
Local Open Scope list_scope.

(** ** Python values and exceptions *)

Module Py.

(** The result of a call: a value, or an exception with its text. *)
Inductive Exc (A : Type) : Type :=
| Ok (a : A)
| Raise (e : string).
Arguments Ok {A} a.
Arguments Raise {A} e.

(** Sequencing: the first exception ends the computation.  These are
    the instances behind the notation [x ← m; k]. *)
#[export] Instance exc_ret : MRet Exc := fun A a => Ok a.
#[export] Instance exc_bind : MBind Exc := fun A B k m =>
  match m with
  | Ok a => k a
  | Raise e => Raise e
  end.

(** [try: m  except Exception as e: h e] *)
Definition try_except {A} (m : Exc A) (h : string -> Exc A) : Exc A :=
  match m with
  | Ok a => Ok a
  | Raise e => h e
  end.

(** A string holds the UTF-8 encoding of a text: a character is a byte
    that starts it, followed by the bytes [10xxxxxx] that continue it. *)
Definition is_continuation (a : Ascii.ascii) : bool :=
  let n := Ascii.nat_of_ascii a in
  (128 <=? n)%nat && (n <? 192)%nat.

(** [len(s)]: the number of characters. *)
Fixpoint len (s : string) : nat :=
  match s with
  | EmptyString => 0%nat
  | String a s' => if is_continuation a then len s' else S (len s')
  end.

(** [s[:n]] on a string: the first [n] characters. *)
Fixpoint str_take (n : nat) (s : string) : string :=
  match s with
  | EmptyString => EmptyString
  | String a s' =>
      if is_continuation a then String a (str_take n s')
      else match n with
           | S n' => String a (str_take n' s')
           | O => EmptyString
           end
  end.

(** [s.startswith(p)] *)
Fixpoint startswith (p s : string) : bool :=
  match p, s with
  | EmptyString, _ => true
  | String a p', String b s' => if Ascii.eqb a b then startswith p' s' else false
  | String _ _, EmptyString => false
  end.

(** [p in s] for strings: [p] starts at some position of [s]. *)
Fixpoint contains (p s : string) : bool :=
  startswith p s ||
  match s with
  | EmptyString => false
  | String _ s' => contains p s'
  end.

(** [s.replace(old, new)] for a non-empty [old]: every occurrence, left
    to right, without overlap.  [skip] counts the bytes of an
    occurrence still to pass over. *)
Fixpoint replace_from (old new : string) (skip : nat) (s : string) : string :=
  match s with
  | EmptyString => EmptyString
  | String a s' =>
      match skip with
      | S k => replace_from old new k s'
      | O =>
          if startswith old s
          then new +:+ replace_from old new (String.length old - 1) s'
          else String a (replace_from old new 0 s')
      end
  end.

Definition replace (old new s : string) : string := replace_from old new 0 s.

(** [s.split(c)] for a separator of one character: never empty. *)
Fixpoint split (c : Ascii.ascii) (s : string) : list string :=
  match s with
  | EmptyString => [EmptyString]
  | String a s' =>
      if Ascii.eqb a c then EmptyString :: split c s'
      else match split c s' with
           | h :: t => String a h :: t
           | [] => [String a EmptyString]
           end
  end.

(** [sep.join(l)] *)
Fixpoint join (sep : string) (l : list string) : string :=
  match l with
  | [] => EmptyString
  | [x] => x
  | x :: t => x +:+ sep +:+ join sep t
  end.

(** [l[:-1]] *)
Definition init {A} (l : list A) : list A := removelast l.

(** The double quote, which a string of this file cannot hold. *)
Definition dq : string := String (Ascii.ascii_of_nat 34) EmptyString.

(** The values found in the dictionaries of the catalog and in their
    JSON form: strings, integers and lists of them. *)
Inductive pyval : Type :=
| VStr (s : string)
| VInt (z : Z)
| VList (l : list pyval).

(** A [dict] with string keys, in insertion order, each key once. *)
Definition dict : Type := list (string * pyval).

(** [d.get(k)] *)
Fixpoint dict_get (d : dict) (k : string) : option pyval :=
  match d with
  | [] => None
  | (k', v) :: d' => if String.eqb k' k then Some v else dict_get d' k
  end.

(** [d.get(k, default)] *)
Definition dict_get_default (d : dict) (k : string) (default : pyval) : pyval :=
  match dict_get d k with
  | Some v => v
  | None => default
  end.

(** [d[k] = v]: the value of a present key is replaced in place, a new
    key goes to the end. *)
Fixpoint dict_set (d : dict) (k : string) (v : pyval) : dict :=
  match d with
  | [] => [(k, v)]
  | (k', v') :: d' =>
      if String.eqb k' k then (k', v) :: d' else (k', v') :: dict_set d' k v
  end.

(** A dictionary display [{k1: v1, k2: v2, ...}]: the items are
    entered from left to right, so a repeated key keeps its last
    value. *)
Definition dict_lit (items : list (string * pyval)) : dict :=
  foldl (fun d kv => dict_set d kv.1 kv.2) [] items.

(** What the interpreter provides and this file does not spell out:
    [repr] of a list and of a list of dictionaries (quoting and
    escaping included), and [s.lower()], the lower-case mapping of
    every cased letter. *)
Class Builtins : Type := {
  repr_list : list pyval -> string;
  repr_dicts : list dict -> string;
  lower : string -> string
}.

(** [str(z)] for an integer. *)
Definition str_of_Z (z : Z) : string := pretty z.
Definition str_of_nat (n : nat) : string := pretty n.

(** [str(v)] *)
Definition str `{Builtins} (v : pyval) : string :=
  match v with
  | VStr s => s
  | VInt z => str_of_Z z
  | VList l => repr_list l
  end.

(** [v[:n]]: a slice of a string or of a list; an integer is not
    subscriptable. *)
Definition slice_to (n : nat) (v : pyval) : Exc pyval :=
  match v with
  | VStr s => Ok (VStr (str_take n s))
  | VList l => Ok (VList (take n l))
  | VInt _ => Raise "'int' object is not subscriptable"
  end.

(** The characters of a string, each as a string. *)
Definition continues (s : string) : bool :=
  match s with
  | String b _ => is_continuation b
  | EmptyString => false
  end.

Fixpoint chars (s : string) : list pyval :=
  match s with
  | EmptyString => []
  | String a s' =>
      let rest := chars s' in
      match rest with
      | VStr c :: rest' =>
          if continues s' then VStr (String a c) :: rest'
          else VStr (String a EmptyString) :: rest
      | _ => VStr (String a EmptyString) :: rest
      end
  end.

(** [for x in v]: the items of a list, the characters of a string; an
    integer is not iterable. *)
Definition iter (v : pyval) : Exc (list pyval) :=
  match v with
  | VList l => Ok l
  | VStr s => Ok (chars s)
  | VInt _ => Raise "'int' object is not iterable"
  end.

(** [v.lower()]: only a string has the method. *)
Definition lower_of `{Builtins} (v : pyval) : Exc string :=
  match v with
  | VStr s => Ok (lower s)
  | VInt _ => Raise "'int' object has no attribute 'lower'"
  | VList _ => Raise "'list' object has no attribute 'lower'"
  end.

(** [count >= v] for an integer [count]. *)
Definition int_ge (count : Z) (v : pyval) : Exc bool :=
  match v with
  | VInt m => Ok (m <=? count)%Z
  | VStr _ => Raise "'>=' not supported between instances of 'int' and 'str'"
  | VList _ => Raise "'>=' not supported between instances of 'int' and 'list'"
  end.

(** ** hashlib and random *)

(** The digests, as bytes; [hexdigest] is defined below from them. *)
Class Hashlib : Type := {
  md5 : string -> list Byte.byte;
  sha256 : string -> list Byte.byte
}.

Definition hex_chars : list Ascii.ascii :=
  ["0"; "1"; "2"; "3"; "4"; "5"; "6"; "7";
   "8"; "9"; "a"; "b"; "c"; "d"; "e"; "f"]%char.

Definition hex_digit (n : nat) : Ascii.ascii := nth n hex_chars "0"%char.

(** [digest.hex()]: two lower-case hexadecimal digits for each byte. *)
Fixpoint hexdigest (bs : list Byte.byte) : string :=
  match bs with
  | [] => EmptyString
  | b :: bs' =>
      let n := N.to_nat (Byte.to_N b) in
      String (hex_digit (n / 16)) (String (hex_digit (n mod 16)) (hexdigest bs'))
  end.

(** The generator behind the module [random].  [seed a] is the state
    [random.seed(a)] leaves, whatever the state was before;
    [randbelow n g] is the number [_randbelow(n)] draws in state [g],
    with the state after. *)
Class Random : Type := {
  rng_state : Type;
  seed : string -> rng_state;
  randbelow : nat -> rng_state -> nat * rng_state
}.

(** [random.choice(seq)] in state [g]. *)
Definition choice `{Random} {A} (options : list A) (g : rng_state)
  : Exc A * rng_state :=
  match options with
  | [] => (Raise "Cannot choose from an empty sequence", g)
  | _ :: _ =>
      let '(i, g') := randbelow (length options) g in
      match options !! i with
      | Some v => (Ok v, g')
      | None => (Raise "list index out of range", g')
      end
  end.

End Py.

Export Py.

(** ** requests: what one POST can do *)

Module Requests.

(** A POST returns a response, or raises.  The exception classes are
    kept apart as far as the callers' [except] clauses tell them
    apart: [Timeout] and [ConnectionError] are subclasses of
    [RequestException]; [OtherException] is anything else. *)
Inductive outcome : Type :=
| Response (status_code : Z) (text : string)
| Timeout
| ConnectionError (e : string)
| RequestException (e : string)
| OtherException (e : string).

End Requests.

(** ** evaluator.py: the result notifier *)

Module Evaluator.
Import Requests.

(** [EvaluationNotifier.__init__] *)
Definition timeout : Z := 30.
Definition max_retries : nat := 7.
Definition base_delay : Z := 1.

(** The dictionary [notify] returns; an absent key is [None]. *)
Record notify_result : Type := {
  success : bool;
  status_code : option Z;
  response : option string;
  error : option string;
  attempts : nat
}.

(** What the run did besides returning: the arguments of the calls of
    [time.sleep], in order, and the number of POSTs made. *)
Record trace : Type := {
  sleeps : list Z;
  posts : nat
}.

Definition failure (st : option Z) (msg : string) (attempt : nat) : notify_result :=
  {| success := false; status_code := st; response := None;
     error := Some msg; attempts := attempt + 1 |}.

(** [delay = self.base_delay * (2 ** attempt)] *)
Definition delay (attempt : nat) : Z := (base_delay * 2 ^ Z.of_nat attempt)%Z.

(** The body of [for attempt in range(self.max_retries + 1)], over the
    attempts still to make.  [post n] is what the [n]-th POST of this
    call does (the payload and the URL are the same at every attempt).
    [slept] accumulates the sleeps so far. *)
Fixpoint notify_loop (post : nat -> outcome) (todo : list nat) (slept : list Z)
  : notify_result * trace :=
  match todo with
  | [] =>
      (* "Should never reach here, but just in case" *)
      ({| success := false; status_code := None; response := None;
          error := Some "Failed after all retry attempts";
          attempts := max_retries + 1 |},
       {| sleeps := slept; posts := max_retries + 1 |})
  | attempt :: rest =>
      let fail_with st msg :=
        (failure st msg attempt, {| sleeps := slept; posts := attempt + 1 |}) in
      let retry := notify_loop post rest (slept ++ [delay attempt]) in
      match post attempt with
      | Response st text =>
          if (st =? 200)%Z then
            ({| success := true; status_code := Some 200%Z;
                response := Some text; error := None;
                attempts := attempt + 1 |},
             {| sleeps := slept; posts := attempt + 1 |})
          else if (max_retries <=? attempt)%nat then
            fail_with (Some st)
              ("HTTP " +:+ str_of_Z st +:+ ": " +:+ str_take 200 text)
          else retry
      | Timeout =>
          if (max_retries <=? attempt)%nat then
            fail_with None "Request timed out after all retries"
          else retry
      | ConnectionError e =>
          if (max_retries <=? attempt)%nat then
            fail_with None ("Connection error: " +:+ e)
          else retry
      | RequestException e =>
          if (max_retries <=? attempt)%nat then fail_with None e else retry
      | OtherException e =>
          if (max_retries <=? attempt)%nat then
            fail_with None ("Unexpected error: " +:+ e)
          else retry
      end
  end.

(** [EvaluationNotifier.notify]: the arguments only build the payload,
    which [post] receives unchanged at every attempt. *)
Definition notify (post : nat -> outcome) : notify_result * trace :=
  notify_loop post (seq 0 (max_retries + 1)) [].

End Evaluator.

(** ** task_templates.py: the catalog and the generator *)

Module TaskTemplates.

(** One round of a template: the dictionary with the keys ['brief'],
    ['params'], ['attachments'] and ['checks'], the last three
    optional ([None]: the key is absent). *)
Record RoundConfig : Type := {
  brief : string;
  params : option (list (string * list pyval));
  attachments : option (list dict);
  checks : option (list dict)
}.

(** [class TaskTemplate] *)
Record TaskTemplate : Type := {
  template_id : string;
  name : string;
  round1 : RoundConfig;
  round2 : RoundConfig
}.

(** What [generate] returns. *)
Record content : Type := {
  c_brief : string;
  c_attachments : list dict;
  c_checks : list dict
}.

Section Generate.
Context `{Builtins} `{Hashlib} `{Random}.

(** The loop of [generate] over [config['params'].items()]: one
    [random.choice] and one [replace] for each parameter. *)
Fixpoint parametrize (ps : list (string * list pyval)) (b : string)
    (g : rng_state) : Exc string * rng_state :=
  match ps with
  | [] => (Ok b, g)
  | (key, options) :: rest =>
      match choice options g with
      | (Ok value, g') =>
          parametrize rest (replace ("{" +:+ key +:+ "}") (str value) b) g'
      | (Raise e, g') => (Raise e, g')
      end
  end.

(** [TaskTemplate.generate], run with the generator in state [g0]:
    the first statement reseeds it. *)
Definition generate (t : TaskTemplate) (round : Z) (email timestamp : string)
    (g0 : rng_state) : Exc content * rng_state :=
  let s := email +:+ "-" +:+ timestamp in
  let g := seed (hexdigest (md5 s)) in
  let config := if (round =? 1)%Z then round1 t else round2 t in
  let '(b, g') :=
    match params config with
    | Some ps => parametrize ps (brief config) g
    | None => (Ok (brief config), g)
    end in
  (b ← b;
   mret {| c_brief := b;
           c_attachments := default [] (attachments config);
           c_checks := default [] (checks config) |},
   g').

(** [generate_task_id] *)
Definition generate_task_id (tid b : string) (atts : list dict) : string :=
  let text := b +:+ repr_dicts atts in
  let hash_value := str_take 5 (hexdigest (sha256 text)) in
  tid +:+ "-" +:+ hash_value.

End Generate.

(** *** [TEMPLATES] *)

Definition image_viewer_round1 : RoundConfig := {|
  brief :=
    "Create a simple image viewer web application with the following features:
- Display {num_images} images in a grid layout
- Each image should be {size}px in size
- Clicking an image should show it in a modal/lightbox view
- Include next/previous buttons in the lightbox
- Use the provided image attachments
- Make it responsive and visually appealing
- Background color: {bg_color}";
  params := Some
      [ ("num_images", [VInt 3; VInt 4; VInt 5; VInt 6]);
       ("size", [VInt 150; VInt 200; VInt 250]);
       ("bg_color", [VStr "#f0f0f0"; VStr "#ffffff"; VStr "#e8e8e8"; VStr "#fafafa"]) ];
  attachments := Some [
      dict_lit [("name", VStr "image1.jpg"); ("type", VStr "image/jpeg"); ("url", VStr "https://picsum.photos/400/300?random=1")];
      dict_lit [("name", VStr "image2.jpg"); ("type", VStr "image/jpeg"); ("url", VStr "https://picsum.photos/400/300?random=2")];
      dict_lit [("name", VStr "image3.jpg"); ("type", VStr "image/jpeg"); ("url", VStr "https://picsum.photos/400/300?random=3")];
      dict_lit [("name", VStr "image4.jpg"); ("type", VStr "image/jpeg"); ("url", VStr "https://picsum.photos/400/300?random=4")] ];
  checks := Some [
      dict_lit [("type", VStr "element_exists"); ("selector", VStr "img"); ("min_count", VInt 3)];
      dict_lit [("type", VStr "element_exists"); ("selector", VStr ".modal, .lightbox, [data-lightbox]")];
      dict_lit [("type", VStr "click_interaction"); ("selector", VStr "img"); ("result", VStr "modal_opens")];
      dict_lit [("type", VStr "element_exists"); ("selector", VStr "button, .nav, .prev, .next")];
      dict_lit [("type", VStr "responsive_check"); ("breakpoints", VList [VInt 768; VInt 1024])] ]
|}.

Definition image_viewer_round2 : RoundConfig := {|
  brief :=
    ("Enhance your image viewer with these additional features:
- Add support for SVG images
- Implement zoom in/out functionality (buttons or mouse wheel)
- Add pan/drag capability when zoomed in
- Include a thumbnail strip at the bottom
- Add keyboard navigation (arrow keys)
- Add {animation_type} transition animations
- Include an image counter (e.g., " +:+ dq +:+ "3 / 6" +:+ dq +:+ ")");
  params := Some
      [ ("animation_type", [VStr "fade"; VStr "slide"; VStr "zoom"; VStr "flip"]) ];
  attachments := Some [
      dict_lit [("name", VStr "icon.svg"); ("type", VStr "image/svg+xml"); ("content", VStr ("<svg><circle cx=" +:+ dq +:+ "50" +:+ dq +:+ " cy=" +:+ dq +:+ "50" +:+ dq +:+ " r=" +:+ dq +:+ "40" +:+ dq +:+ " fill=" +:+ dq +:+ "blue" +:+ dq +:+ "/></svg>"))] ];
  checks := Some [
      dict_lit [("type", VStr "element_exists"); ("selector", VStr ("svg, [src$=" +:+ dq +:+ ".svg" +:+ dq +:+ "]"))];
      dict_lit [("type", VStr "element_exists"); ("selector", VStr ("[class*=" +:+ dq +:+ "zoom" +:+ dq +:+ "], button[title*=" +:+ dq +:+ "zoom" +:+ dq +:+ "]")); ("min_count", VInt 2)];
      dict_lit [("type", VStr "element_exists"); ("selector", VStr (".thumbnails, [class*=" +:+ dq +:+ "thumb" +:+ dq +:+ "]"))];
      dict_lit [("type", VStr "element_exists"); ("selector", VStr (".counter, [class*=" +:+ dq +:+ "count" +:+ dq +:+ "]"))];
      dict_lit [("type", VStr "keyboard_event"); ("key", VStr "ArrowRight"); ("result", VStr "image_changes")];
      dict_lit [("type", VStr "mouse_event"); ("action", VStr "wheel"); ("result", VStr "zoom_changes")];
      dict_lit [("type", VStr "animation_check"); ("selector", VStr ".modal img")] ]
|}.

Definition image_viewer : TaskTemplate :=
  {| template_id := "image-viewer"; name := "Image Viewer";
     round1 := image_viewer_round1; round2 := image_viewer_round2 |}.

Definition calculator_round1 : RoundConfig := {|
  brief :=
    "Create a calculator web application with:
- Basic operations: addition, subtraction, multiplication, division
- Display showing {display_digits} digits
- Number buttons (0-9) and operation buttons
- Clear (C) and equals (=) buttons
- {layout} button layout
- Error handling for division by zero
- Visual feedback on button clicks";
  params := Some
      [ ("display_digits", [VInt 8; VInt 10; VInt 12]);
       ("layout", [VStr "grid"; VStr "vertical"; VStr "compact"]) ];
  attachments := None;
  checks := Some [
      dict_lit [("type", VStr "element_exists"); ("selector", VStr "button"); ("min_count", VInt 15)];
      dict_lit [("type", VStr "element_exists"); ("selector", VStr ("input[type=" +:+ dq +:+ "text" +:+ dq +:+ "], .display, #display"))];
      dict_lit [("type", VStr "click_sequence"); ("buttons", VList [VStr "5"; VStr "+"; VStr "3"; VStr "="]); ("result", VStr "8")];
      dict_lit [("type", VStr "click_sequence"); ("buttons", VList [VStr "1"; VStr "0"; VStr "/"; VStr "2"; VStr "="]); ("result", VStr "5")];
      dict_lit [("type", VStr "click_sequence"); ("buttons", VList [VStr "5"; VStr "/"; VStr "0"; VStr "="]); ("result", VStr "Error|Infinity|NaN")];
      dict_lit [("type", VStr "button_exists"); ("text", VList [VStr "C"; VStr "Clear"; VStr "AC"])] ]
|}.

Definition calculator_round2 : RoundConfig := {|
  brief :=
    "Add advanced features to your calculator:
- Scientific functions: sin, cos, tan, sqrt, power
- Memory functions (M+, M-, MR, MC)
- Calculation history showing last {history_count} calculations
- Keyboard input support
- {feature} mode toggle
- Percentage calculation
- Parentheses support for complex expressions";
  params := Some
      [ ("history_count", [VInt 5; VInt 10; VInt 15]);
       ("feature", [VStr "dark"; VStr "scientific"; VStr "programmer"]) ];
  attachments := None;
  checks := Some [
      dict_lit [("type", VStr "element_exists"); ("selector", VStr "button"); ("min_count", VInt 25)];
      dict_lit [("type", VStr "button_exists"); ("text", VList [VStr "sin"; VStr "cos"; VStr "tan"; VStr "sqrt"])];
      dict_lit [("type", VStr "button_exists"); ("text", VList [VStr "M+"; VStr "M-"; VStr "MR"; VStr "MC"])];
      dict_lit [("type", VStr "element_exists"); ("selector", VStr (".history, [class*=" +:+ dq +:+ "history" +:+ dq +:+ "]"))];
      dict_lit [("type", VStr "keyboard_input"); ("keys", VStr "2*3"); ("result", VStr "6")];
      dict_lit [("type", VStr "click_sequence"); ("buttons", VList [VStr "5"; VStr "0"; VStr "%"]); ("result", VStr "0.5|50")];
      dict_lit [("type", VStr "parentheses_check"); ("expression", VStr "(2+3)*4"); ("result", VStr "20")] ]
|}.

Definition calculator : TaskTemplate :=
  {| template_id := "calculator"; name := "Calculator";
     round1 := calculator_round1; round2 := calculator_round2 |}.

Definition todo_list_round1 : RoundConfig := {|
  brief :=
    "Create a todo list application with:
- Input field to add new tasks
- List displaying all tasks
- Checkbox to mark tasks as complete
- Delete button for each task
- Show {counter_type} counter
- {storage} storage to persist tasks
- Completed tasks should have {completed_style}
- Add button with visual feedback";
  params := Some
      [ ("counter_type", [VStr "total"; VStr "remaining"; VStr "completed"]);
       ("storage", [VStr "localStorage"; VStr "sessionStorage"]);
       ("completed_style", [VStr "strikethrough"; VStr "gray color"; VStr "different opacity"]) ];
  attachments := None;
  checks := Some [
      dict_lit [("type", VStr "element_exists"); ("selector", VStr ("input[type=" +:+ dq +:+ "text" +:+ dq +:+ "], input[type=" +:+ dq +:+ "search" +:+ dq +:+ "]"))];
      dict_lit [("type", VStr "element_exists"); ("selector", VStr ("button, [type=" +:+ dq +:+ "submit" +:+ dq +:+ "]"))];
      dict_lit [("type", VStr "element_exists"); ("selector", VStr "ul, ol, .todo-list")];
      dict_lit [("type", VStr "add_todo"); ("text", VStr "Test Task"); ("result", VStr "task_appears")];
      dict_lit [("type", VStr "checkbox_toggle"); ("result", VStr "style_changes")];
      dict_lit [("type", VStr "delete_todo"); ("result", VStr "task_removed")];
      dict_lit [("type", VStr "storage_check"); ("type", VStr "localStorage|sessionStorage")];
      dict_lit [("type", VStr "element_exists"); ("selector", VStr (".counter, [class*=" +:+ dq +:+ "count" +:+ dq +:+ "]"))] ]
|}.

Definition todo_list_round2 : RoundConfig := {|
  brief :=
    "Enhance your todo list with:
- Categories or tags for tasks (minimum {num_categories} categories)
- Filter buttons (All, Active, Completed)
- Edit functionality for existing tasks
- Due date picker for tasks
- Priority levels (High, Medium, Low) with color coding
- Search/filter functionality
- Drag and drop to reorder tasks
- Export to JSON functionality";
  params := Some
      [ ("num_categories", [VInt 3; VInt 4; VInt 5]) ];
  attachments := None;
  checks := Some [
      dict_lit [("type", VStr "element_exists"); ("selector", VStr ("select, [class*=" +:+ dq +:+ "category" +:+ dq +:+ "], [class*=" +:+ dq +:+ "tag" +:+ dq +:+ "]"))];
      dict_lit [("type", VStr "button_exists"); ("text", VList [VStr "All"; VStr "Active"; VStr "Completed"])];
      dict_lit [("type", VStr "filter_check"); ("filter", VStr "Completed"); ("result", VStr "shows_only_completed")];
      dict_lit [("type", VStr "element_exists"); ("selector", VStr ("button[class*=" +:+ dq +:+ "edit" +:+ dq +:+ "], .edit-btn"))];
      dict_lit [("type", VStr "element_exists"); ("selector", VStr ("input[type=" +:+ dq +:+ "date" +:+ dq +:+ "], .date-picker"))];
      dict_lit [("type", VStr "element_exists"); ("selector", VStr ("[class*=" +:+ dq +:+ "priority" +:+ dq +:+ "], .high, .medium, .low"))];
      dict_lit [("type", VStr "search_functionality"); ("query", VStr "test"); ("result", VStr "filters_tasks")];
      dict_lit [("type", VStr "drag_drop_check"); ("result", VStr "order_changes")];
      dict_lit [("type", VStr "export_check"); ("format", VStr "json")] ]
|}.

Definition todo_list : TaskTemplate :=
  {| template_id := "todo-list"; name := "Todo List";
     round1 := todo_list_round1; round2 := todo_list_round2 |}.

Definition weather_dashboard_round1 : RoundConfig := {|
  brief :=
    "Create a weather dashboard with:
- Display current weather for {default_city}
- Show temperature in {temp_unit}
- Display weather condition icon/emoji
- Show humidity and wind speed
- {num_days}-day forecast
- Search box to change location
- Responsive card-based layout
- Use mock/sample data (no API required for now)";
  params := Some
      [ ("default_city", [VStr "London"; VStr "New York"; VStr "Tokyo"; VStr "Paris"]);
       ("temp_unit", [VStr "Celsius"; VStr "Fahrenheit"]);
       ("num_days", [VInt 3; VInt 5; VInt 7]) ];
  attachments := None;
  checks := Some [
      dict_lit [("type", VStr "element_exists"); ("selector", VStr (".temperature, [class*=" +:+ dq +:+ "temp" +:+ dq +:+ "]"))];
      dict_lit [("type", VStr "element_exists"); ("selector", VStr (".humidity, [class*=" +:+ dq +:+ "humidity" +:+ dq +:+ "]"))];
      dict_lit [("type", VStr "element_exists"); ("selector", VStr (".wind, [class*=" +:+ dq +:+ "wind" +:+ dq +:+ "]"))];
      dict_lit [("type", VStr "element_exists"); ("selector", VStr "img, .icon, .emoji")];
      dict_lit [("type", VStr "element_exists"); ("selector", VStr (".forecast, [class*=" +:+ dq +:+ "forecast" +:+ dq +:+ "]"))];
      dict_lit [("type", VStr "element_exists"); ("selector", VStr ("input[type=" +:+ dq +:+ "text" +:+ dq +:+ "], input[type=" +:+ dq +:+ "search" +:+ dq +:+ "]"))];
      dict_lit [("type", VStr "forecast_count"); ("min_count", VInt 3)] ]
|}.

Definition weather_dashboard_round2 : RoundConfig := {|
  brief :=
    ("Add these features to your weather dashboard:
- Hourly forecast (next {hourly_count} hours)
- Temperature chart/graph visualization
- Unit toggle (Celsius ↔ Fahrenheit)
- Save favorite locations (up to {fav_count} cities)
- Display sunrise and sunset times
- UV index indicator
- " +:+ dq +:+ "Feels like" +:+ dq +:+ " temperature
- Weather alerts section
- Auto-detect user location (with permission)");
  params := Some
      [ ("hourly_count", [VInt 12; VInt 24]);
       ("fav_count", [VInt 3; VInt 5]) ];
  attachments := None;
  checks := Some [
      dict_lit [("type", VStr "element_exists"); ("selector", VStr (".hourly, [class*=" +:+ dq +:+ "hourly" +:+ dq +:+ "]"))];
      dict_lit [("type", VStr "chart_exists"); ("type", VStr "line|bar|canvas")];
      dict_lit [("type", VStr "toggle_exists"); ("states", VList [VStr "°C"; VStr "°F"])];
      dict_lit [("type", VStr "element_exists"); ("selector", VStr (".favorites, [class*=" +:+ dq +:+ "favorite" +:+ dq +:+ "]"))];
      dict_lit [("type", VStr "element_exists"); ("selector", VStr (".sunrise, .sunset, [class*=" +:+ dq +:+ "sun" +:+ dq +:+ "]"))];
      dict_lit [("type", VStr "element_exists"); ("selector", VStr (".uv, [class*=" +:+ dq +:+ "uv-index" +:+ dq +:+ "]"))];
      dict_lit [("type", VStr "element_exists"); ("selector", VStr (".feels-like, [class*=" +:+ dq +:+ "feels" +:+ dq +:+ "]"))];
      dict_lit [("type", VStr "geolocation_check"); ("result", VStr "location_detected")] ]
|}.

Definition weather_dashboard : TaskTemplate :=
  {| template_id := "weather-dashboard"; name := "Weather Dashboard";
     round1 := weather_dashboard_round1; round2 := weather_dashboard_round2 |}.

Definition quiz_app_round1 : RoundConfig := {|
  brief :=
    ("Create a quiz application with:
- {num_questions} multiple choice questions
- {choices_per_question} choices per question
- " +:+ dq +:+ "Next" +:+ dq +:+ " button to proceed through questions
- Display question number (e.g., " +:+ dq +:+ "Question 3 of 10" +:+ dq +:+ ")
- Show final score at the end
- " +:+ dq +:+ "Restart Quiz" +:+ dq +:+ " button
- Visual feedback for selected answer
- {theme} color theme
- Questions provided in attachments");
  params := Some
      [ ("num_questions", [VInt 5; VInt 10]);
       ("choices_per_question", [VInt 4]);
       ("theme", [VStr "blue"; VStr "green"; VStr "purple"; VStr "orange"]) ];
  attachments := Some [
      dict_lit [("name", VStr "questions.json"); ("type", VStr "application/json"); ("content", VStr ("[
                        {" +:+ dq +:+ "question" +:+ dq +:+ ": " +:+ dq +:+ "What is 2+2?" +:+ dq +:+ ", " +:+ dq +:+ "choices" +:+ dq +:+ ": [" +:+ dq +:+ "3" +:+ dq +:+ ", " +:+ dq +:+ "4" +:+ dq +:+ ", " +:+ dq +:+ "5" +:+ dq +:+ ", " +:+ dq +:+ "6" +:+ dq +:+ "], " +:+ dq +:+ "correct" +:+ dq +:+ ": 1},
                        {" +:+ dq +:+ "question" +:+ dq +:+ ": " +:+ dq +:+ "Capital of France?" +:+ dq +:+ ", " +:+ dq +:+ "choices" +:+ dq +:+ ": [" +:+ dq +:+ "London" +:+ dq +:+ ", " +:+ dq +:+ "Berlin" +:+ dq +:+ ", " +:+ dq +:+ "Paris" +:+ dq +:+ ", " +:+ dq +:+ "Rome" +:+ dq +:+ "], " +:+ dq +:+ "correct" +:+ dq +:+ ": 2}
                    ]"))] ];
  checks := Some [
      dict_lit [("type", VStr "element_exists"); ("selector", VStr (".question, [class*=" +:+ dq +:+ "question" +:+ dq +:+ "]"))];
      dict_lit [("type", VStr "element_exists"); ("selector", VStr ("input[type=" +:+ dq +:+ "radio" +:+ dq +:+ "], button[class*=" +:+ dq +:+ "choice" +:+ dq +:+ "]")); ("min_count", VInt 4)];
      dict_lit [("type", VStr "button_exists"); ("text", VList [VStr "Next"; VStr "Continue"])];
      dict_lit [("type", VStr "element_exists"); ("selector", VStr (".progress, [class*=" +:+ dq +:+ "question-num" +:+ dq +:+ "]"))];
      dict_lit [("type", VStr "quiz_flow"); ("result", VStr "shows_score_at_end")];
      dict_lit [("type", VStr "button_exists"); ("text", VList [VStr "Restart"; VStr "Try Again"])];
      dict_lit [("type", VStr "selection_feedback"); ("result", VStr "visual_change")] ]
|}.

Definition quiz_app_round2 : RoundConfig := {|
  brief :=
    "Enhance your quiz app with:
- Timer for each question ({time_limit} seconds)
- Progress bar showing completion percentage
- Score breakdown (correct/incorrect/skipped)
- Review mode showing all answers after completion
- Highlight correct/wrong answers with {correct_color} and {wrong_color}
- Category selection (minimum {num_categories} categories)
- Leaderboard with top {leaderboard_size} scores (localStorage)
- Sound effects for correct/wrong answers
- Difficulty levels (Easy, Medium, Hard)";
  params := Some
      [ ("time_limit", [VInt 30; VInt 45; VInt 60]);
       ("correct_color", [VStr "green"; VStr "lightgreen"; VStr "#00ff00"]);
       ("wrong_color", [VStr "red"; VStr "lightcoral"; VStr "#ff0000"]);
       ("num_categories", [VInt 3; VInt 4]);
       ("leaderboard_size", [VInt 5; VInt 10]) ];
  attachments := None;
  checks := Some [
      dict_lit [("type", VStr "element_exists"); ("selector", VStr (".timer, [class*=" +:+ dq +:+ "timer" +:+ dq +:+ "]"))];
      dict_lit [("type", VStr "timer_countdown"); ("result", VStr "time_decreases")];
      dict_lit [("type", VStr "element_exists"); ("selector", VStr "progress, .progress-bar")];
      dict_lit [("type", VStr "element_exists"); ("selector", VStr ".score-breakdown, .statistics")];
      dict_lit [("type", VStr "review_mode_check"); ("result", VStr "shows_all_questions")];
      dict_lit [("type", VStr "answer_highlighting"); ("correct", VStr "green"); ("wrong", VStr "red")];
      dict_lit [("type", VStr "category_selection"); ("min_categories", VInt 3)];
      dict_lit [("type", VStr "element_exists"); ("selector", VStr (".leaderboard, [class*=" +:+ dq +:+ "leader" +:+ dq +:+ "]"))];
      dict_lit [("type", VStr "difficulty_selection"); ("levels", VList [VStr "Easy"; VStr "Medium"; VStr "Hard"])] ]
|}.

Definition quiz_app : TaskTemplate :=
  {| template_id := "quiz-app"; name := "Quiz Application";
     round1 := quiz_app_round1; round2 := quiz_app_round2 |}.

Definition TEMPLATES : list (string * TaskTemplate) :=
  [ ("image-viewer", image_viewer);
    ("calculator", calculator);
    ("todo-list", todo_list);
    ("weather-dashboard", weather_dashboard);
    ("quiz-app", quiz_app) ].

(** [get_template]: [TEMPLATES.get(template_id)] *)
Fixpoint lookup_template (ts : list (string * TaskTemplate)) (tid : string)
  : option TaskTemplate :=
  match ts with
  | [] => None
  | (k, t) :: ts' => if String.eqb k tid then Some t else lookup_template ts' tid
  end.

Definition get_template (tid : string) : option TaskTemplate :=
  lookup_template TEMPLATES tid.

(** [get_random_template]: reseed, then [random.choice] among the
    values of [TEMPLATES] in the order of the display. *)
Definition get_random_template `{Hashlib} `{Random} (s : string) (g0 : rng_state)
  : Exc TaskTemplate * rng_state :=
  choice (map snd TEMPLATES) (seed (hexdigest (md5 s))).

End TaskTemplates.

(** ** db.py: the ledger *)

Module Db.

(** A row of [tasks].  The columns [attachments] and [checks] hold
    [json.dumps] of the values; the row keeps the values themselves,
    which [json.loads] gives back. *)
Record TaskRow : Type := {
  task_timestamp : string;
  task_email : string;
  task_task : string;
  task_round : Z;
  task_nonce : string;
  task_brief : string;
  task_attachments : list dict;
  task_checks : list dict;
  task_evaluation_url : string;
  task_endpoint : string;
  task_statuscode : option Z;
  task_error : option string
}.

(** A row of [repos]. *)
Record RepoRow : Type := {
  repo_timestamp : string;
  repo_email : string;
  repo_task : string;
  repo_round : Z;
  repo_nonce : string;
  repo_repo_url : string;
  repo_commit_sha : string;
  repo_pages_url : string
}.

(** A row of [results]; [score], [reason] and [logs] may be NULL. *)
Record ResultRow : Type := {
  res_timestamp : string;
  res_email : string;
  res_task : string;
  res_round : Z;
  res_repo_url : string;
  res_commit_sha : string;
  res_pages_url : string;
  res_check : string;
  res_score : option Q;
  res_reason : option string;
  res_logs : option string
}.

(** The database: the three tables, each in the order of insertion
    (the order of [id], and of [created_at]). *)
Record Database : Type := {
  tasks : list TaskRow;
  repos : list RepoRow;
  results : list ResultRow
}.

Definition set_tasks (db : Database) (l : list TaskRow) : Database :=
  {| tasks := l; repos := repos db; results := results db |}.
Definition set_repos (db : Database) (l : list RepoRow) : Database :=
  {| tasks := tasks db; repos := l; results := results db |}.
Definition set_results (db : Database) (l : list ResultRow) : Database :=
  {| tasks := tasks db; repos := repos db; results := l |}.

(** The dictionary [insert_task] receives: the task built by the
    dispatcher with ['statuscode'] and ['error'] added. *)
Record task_data : Type := {
  td_timestamp : string;
  td_email : string;
  td_task : string;
  td_round : Z;
  td_nonce : string;
  td_brief : string;
  td_attachments : list dict;
  td_checks : list dict;
  td_evaluation_url : string;
  td_endpoint : string;
  td_secret : string;
  td_statuscode : option Z;
  td_error : option string
}.

(** The dictionary [insert_result] receives; [None] is an absent key. *)
Record result_data : Type := {
  rd_timestamp : option string;
  rd_email : option string;
  rd_task : option string;
  rd_round : option Z;
  rd_repo_url : option string;
  rd_commit_sha : option string;
  rd_pages_url : option string;
  rd_check : option string;
  rd_score : option Q;
  rd_reason : option string;
  rd_logs : option string
}.

(** *** tasks *)

Definition task_key (email task : string) (round : Z) (r : TaskRow) : bool :=
  String.eqb (task_email r) email && String.eqb (task_task r) task
  && (task_round r =? round)%Z.

(** [SELECT COUNT( * ) FROM tasks WHERE email = ? AND task = ? AND round = ?] *)
Definition task_exists (db : Database) (email task : string) (round : Z) : bool :=
  (0 <? length (filter (fun r => task_key email task round r = true) (tasks db)))%nat.

Definition nonce_used (db : Database) (nonce : string) : bool :=
  existsb (fun r => String.eqb (task_nonce r) nonce) (tasks db).

(** [insert_task]: the row goes in unless it breaks [UNIQUE] on
    [(email, task, round)] or on [nonce]; a row that breaks both is
    reported for the first.  The new [id] is returned. *)
Definition insert_task (db : Database) (t : task_data) : Exc (Z * Database) :=
  if task_exists db (td_email t) (td_task t) (td_round t) then
    Raise "UNIQUE constraint failed: tasks.email, tasks.task, tasks.round"
  else if nonce_used db (td_nonce t) then
    Raise "UNIQUE constraint failed: tasks.nonce"
  else
    Ok (Z.of_nat (S (length (tasks db))),
        set_tasks db (tasks db ++ [
          {| task_timestamp := td_timestamp t; task_email := td_email t;
             task_task := td_task t; task_round := td_round t;
             task_nonce := td_nonce t; task_brief := td_brief t;
             task_attachments := td_attachments t; task_checks := td_checks t;
             task_evaluation_url := td_evaluation_url t;
             task_endpoint := td_endpoint t;
             task_statuscode := td_statuscode t; task_error := td_error t |}])).

(** [SELECT * FROM tasks WHERE nonce = ?], first row. *)
Definition get_task_by_nonce (db : Database) (nonce : string) : option TaskRow :=
  find (fun r => String.eqb (task_nonce r) nonce) (tasks db).

(** *** repos *)

Definition repo_key (email task : string) (round : Z) (r : RepoRow) : bool :=
  String.eqb (repo_email r) email && String.eqb (repo_task r) task
  && (repo_round r =? round)%Z.

Definition repo_exists (db : Database) (email task : string) (round : Z) : bool :=
  (0 <? length (filter (fun r => repo_key email task round r = true) (repos db)))%nat.

(** [insert_repo]: [UNIQUE(email, task, round)]; the foreign key on
    [nonce] is declared but not enforced (no [PRAGMA foreign_keys]). *)
Definition insert_repo (db : Database) (r : RepoRow) : Exc (Z * Database) :=
  if repo_exists db (repo_email r) (repo_task r) (repo_round r) then
    Raise "UNIQUE constraint failed: repos.email, repos.task, repos.round"
  else
    Ok (Z.of_nat (S (length (repos db))), set_repos db (repos db ++ [r])).

(** [get_repos_to_evaluate(round)] *)
Definition get_repos_to_evaluate (db : Database) (round : option Z) : list RepoRow :=
  match round with
  | Some r => filter (fun x => repo_round x = r) (repos db)
  | None => repos db
  end.

(** *** results *)

Definition result_key (email task : string) (round : Z) (r : ResultRow) : bool :=
  String.eqb (res_email r) email && String.eqb (res_task r) task
  && (res_round r =? round)%Z.

(** [result_exists] *)
Definition result_exists (db : Database) (email task : string) (round : Z) : bool :=
  (0 <? length (filter (fun r => result_key email task round r = true) (results db)))%nat.

(** The engine's answer to the one point of the SQL texts that the
    embedding leaves open: the [INSERT] of [insert_result] names the
    column [check] bare, where [CREATE TABLE] quotes it.  [true]: the
    engine takes the bare word as the column; [false]: it rejects the
    statement. *)
Class Sqlite : Type := { bare_check_is_column : bool }.

(** [result_data[k]]: [KeyError] on an absent key. *)
Definition item {A} (k : string) (o : option A) : Exc A :=
  match o with
  | Some a => Ok a
  | None => Raise ("'" +:+ k +:+ "'")
  end.

(** [insert_result]; [now] is [datetime.utcnow().isoformat()], the
    default of ['timestamp'].  The tuple of parameters is built first,
    then the statement is executed. *)
Definition insert_result `{Sqlite} (now : string) (db : Database) (d : result_data)
  : Exc (Z * Database) :=
  email ← item "email" (rd_email d);
  task ← item "task" (rd_task d);
  round ← item "round" (rd_round d);
  repo_url ← item "repo_url" (rd_repo_url d);
  commit_sha ← item "commit_sha" (rd_commit_sha d);
  pages_url ← item "pages_url" (rd_pages_url d);
  check ← item "check" (rd_check d);
  if bare_check_is_column then
    Ok (Z.of_nat (S (length (results db))),
        set_results db (results db ++ [
          {| res_timestamp := default now (rd_timestamp d);
             res_email := email; res_task := task; res_round := round;
             res_repo_url := repo_url; res_commit_sha := commit_sha;
             res_pages_url := pages_url; res_check := check;
             res_score := rd_score d; res_reason := rd_reason d;
             res_logs := rd_logs d |}]))
  else Raise ("near " +:+ dq +:+ "check" +:+ dq +:+ ": syntax error").

(** [get_results(email, round)]: a filter is applied when its argument
    is given; for [email] the test is [if email:], which an empty
    string fails too.  The rows are given in the order of the table;
    the query sorts them on [created_at], which leaves the rows of one
    second in an order of its own: what is stated of the result below
    is stated of its rows, not of their order. *)
Definition get_results (db : Database) (email : option string) (round : option Z)
  : list ResultRow :=
  let by_email (r : ResultRow) : bool :=
    match email with
    | Some e => if String.eqb e EmptyString then true else String.eqb (res_email r) e
    | None => true
    end in
  let by_round (r : ResultRow) : bool :=
    match round with
    | Some n => (res_round r =? n)%Z
    | None => true
    end in
  filter (fun r => by_email r && by_round r = true) (results db).

(** [get_repos_without_results(round)]: the repos of the round that no
    row of [results] joins on [(email, task, round)]. *)
Definition get_repos_without_results (db : Database) (round : Z) : list RepoRow :=
  filter (fun r => ((repo_round r =? round)%Z
                    && negb (result_exists db (repo_email r) (repo_task r) (repo_round r)))
                   = true)
         (repos db).

End Db.

(** ** round1.py: generation and dispatch of the round-1 tasks *)

(** What the dispatchers read from outside: the clock, the UUID source
    and the participants' servers.  Each is indexed by the number of
    earlier calls, so a run is a function of its starting state. *)
Module World.

(** A value of [datetime.utcnow()], through the two renderings used. *)
Record datetime : Type := {
  isoformat : string;
  strftime_hour : string   (* [dt.strftime("%Y-%m-%d-%H")] *)
}.

(** The JSON body of a dispatch. *)
Record payload : Type := {
  p_email : string;
  p_task : string;
  p_round : Z;
  p_nonce : string;
  p_brief : string;
  p_attachments : list dict;
  p_checks : list dict;
  p_evaluation_url : string;
  p_secret : string
}.

Class Env : Type := {
  utcnow : nat -> datetime;
  uuid4 : nat -> string;
  http_post : nat -> string -> payload -> Requests.outcome
}.

End World.

Module Round1.
Import Requests World TaskTemplates Db.

Definition EVALUATION_URL : string := "http://localhost:8000/api/evaluation".
Definition REQUEST_TIMEOUT : Z := 300.
Definition MAX_RETRIES : nat := 3.
Definition RETRY_DELAYS : list Z := [60; 180; 600]%Z.

(** A line of submissions.csv. *)
Record submission : Type := {
  s_timestamp : string;
  s_email : string;
  s_endpoint : string;
  s_secret : string
}.

(** [generate_task], given the clock reading [dt] and the UUID [nonce]
    it draws, with the generator in state [g0]. *)
Definition generate_task `{Builtins} `{Hashlib} `{Random}
    (sub : submission) (round : Z) (dt : datetime) (nonce : string)
    (g0 : rng_state) : Exc task_data * rng_state :=
  let timestamp_hour := strftime_hour dt in
  let s := s_email sub +:+ "-" +:+ timestamp_hour in
  match get_random_template s g0 with
  | (Raise e, g1) => (Raise e, g1)
  | (Ok template, g1) =>
      match generate template round (s_email sub) timestamp_hour g1 with
      | (Raise e, g2) => (Raise e, g2)
      | (Ok task_content, g2) =>
          let task_id :=
            generate_task_id (template_id template) (c_brief task_content)
                             (c_attachments task_content) in
          (Ok {| td_timestamp := isoformat dt;
                 td_email := s_email sub;
                 td_task := task_id;
                 td_round := round;
                 td_nonce := nonce;
                 td_brief := c_brief task_content;
                 td_attachments := c_attachments task_content;
                 td_checks := c_checks task_content;
                 td_evaluation_url := EVALUATION_URL;
                 td_endpoint := s_endpoint sub;
                 td_secret := s_secret sub;
                 td_statuscode := None;
                 td_error := None |}, g2)
      end
  end.

Definition payload_of (task : task_data) : payload :=
  {| p_email := td_email task; p_task := td_task task;
     p_round := td_round task; p_nonce := td_nonce task;
     p_brief := td_brief task; p_attachments := td_attachments task;
     p_checks := td_checks task; p_evaluation_url := td_evaluation_url task;
     p_secret := td_secret task |}.

(** What a call of [post_task_to_student] did besides returning. *)
Record trace : Type := {
  sleeps : list Z;
  posts : nat
}.

(** [time.sleep(RETRY_DELAYS[attempt])] *)
Definition retry_delay (attempt : nat) : Exc Z :=
  match RETRY_DELAYS !! attempt with
  | Some d => Ok d
  | None => Raise "list index out of range"
  end.

(** The body of [for attempt in range(MAX_RETRIES)]; [post n] is what
    the [n]-th POST of this call does.  The result is the pair
    [(status_code, error_message)], or the exception that leaves the
    function. *)
Fixpoint post_loop (post : nat -> outcome) (todo : list nat) (slept : list Z)
  : Exc (Z * option string) * trace :=
  match todo with
  | [] => (Ok (0%Z, Some "Failed after all retries"),
           {| sleeps := slept; posts := MAX_RETRIES |})
  | attempt :: rest =>
      let done r := (r, {| sleeps := slept; posts := attempt + 1 |}) in
      let wait_or (final : Z * option string) :=
        if (attempt <? MAX_RETRIES - 1)%nat then
          match retry_delay attempt with
          | Ok d => post_loop post rest (slept ++ [d])
          | Raise e => done (Raise e)
          end
        else done (Ok final) in
      match post attempt with
      | Response status_code text =>
          if (status_code =? 200)%Z then done (Ok (status_code, None))
          else
            wait_or (status_code,
                     Some ("HTTP " +:+ str_of_Z status_code +:+ ": "
                           +:+ str_take 200 text))
      | Timeout =>
          wait_or (0%Z, Some ("Timeout after " +:+ str_of_Z REQUEST_TIMEOUT +:+ "s"))
      | ConnectionError e | RequestException e =>
          wait_or (0%Z, Some ("Request error: " +:+ e))
      | OtherException e => done (Raise e)
      end
  end.

(** [post_task_to_student] *)
Definition post_task_to_student (post : nat -> outcome)
  : Exc (Z * option string) * trace :=
  post_loop post (seq 0 MAX_RETRIES) [].

(** The state a batch runs in. *)
Record state `{Random} : Type := {
  db : Database;
  rng : rng_state;
  clock : nat;       (* readings of the clock so far *)
  uuids : nat;       (* UUIDs drawn so far *)
  net : nat;         (* POSTs made so far *)
  slept : list Z     (* the sleeps so far *)
}.

(** The counters of [process_submissions]. *)
Record counts : Type := {
  processed : nat;
  skipped : nat;
  failed : nat
}.

Section Batch.
Context `{Builtins} `{Hashlib} `{Random} `{Env}.

(** What one turn of the loop of [process_submissions] does. *)
Inductive turn : Type :=
| Next (st : state) (c : counts)      (* on to the next submission *)
| Abort (e : string) (st : state).    (* an exception leaves the loop *)

Definition process_one (sub : submission) (round : Z) (st : state) (c : counts)
  : turn :=
  let dt := utcnow (clock st) in
  let nonce := uuid4 (uuids st) in
  let st1 g := {| db := db st; rng := g; clock := S (clock st);
                  uuids := S (uuids st); net := net st; slept := slept st |} in
  match generate_task sub round dt nonce (rng st) with
  | (Raise e, g) => Abort e (st1 g)
  | (Ok task, g) =>
      if task_exists (db st) (s_email sub) (td_task task) round then
        Next (st1 g) {| processed := processed c; skipped := S (skipped c);
                        failed := failed c |}
      else
        let '(r, tr) :=
          post_task_to_student
            (fun n => http_post (net st + n) (td_endpoint task) (payload_of task)) in
        let st2 d sl :=
          {| db := d; rng := g; clock := S (clock st); uuids := S (uuids st);
             net := net st + posts tr; slept := slept st ++ sleeps tr ++ sl |} in
        match r with
        | Raise e => Abort e (st2 (db st) [])
        | Ok (status_code, error) =>
            let task' :=
              {| td_timestamp := td_timestamp task; td_email := td_email task;
                 td_task := td_task task; td_round := td_round task;
                 td_nonce := td_nonce task; td_brief := td_brief task;
                 td_attachments := td_attachments task;
                 td_checks := td_checks task;
                 td_evaluation_url := td_evaluation_url task;
                 td_endpoint := td_endpoint task; td_secret := td_secret task;
                 td_statuscode := Some status_code; td_error := error |} in
            match insert_task (db st) task' with
            | Raise e => Abort e (st2 (db st) [])
            | Ok (_, d) =>
                Next (st2 d [1%Z])
                     (if (status_code =? 200)%Z
                      then {| processed := S (processed c); skipped := skipped c;
                              failed := failed c |}
                      else {| processed := processed c; skipped := skipped c;
                              failed := S (failed c) |})
            end
        end
  end.

(** The loop of [process_submissions]: the counters at the end, or
    the exception that ended it, with the state reached. *)
Fixpoint process_loop (subs : list submission) (round : Z) (st : state)
    (c : counts) : Exc counts * state :=
  match subs with
  | [] => (Ok c, st)
  | sub :: rest =>
      match process_one sub round st c with
      | Next st' c' => process_loop rest round st' c'
      | Abort e st' => (Raise e, st')
      end
  end.

Definition process_submissions (subs : list submission) (round : Z) (st : state)
  : Exc counts * state :=
  process_loop subs round st {| processed := 0; skipped := 0; failed := 0 |}.

End Batch.

End Round1.

(** ** round2.py: template lineage, dispatch and eligibility *)

Module Round2.
Import Requests TaskTemplates Db.

Definition REQUEST_TIMEOUT : Z := 300.
Definition MAX_RETRIES : nat := 3.
Definition RETRY_DELAYS : list Z := [60; 180; 600]%Z.

(** [get_template_from_task_id] *)
Definition get_template_from_task_id (task_id : string) : option TaskTemplate :=
  let parts := split "-" task_id in
  if (2 <=? length parts)%nat then
    let tid := join "-" (init parts) in
    get_template tid
  else None.

Record trace : Type := {
  sleeps : list Z;
  posts : nat
}.

Definition retry_delay (attempt : nat) : Exc Z :=
  match RETRY_DELAYS !! attempt with
  | Some d => Ok d
  | None => Raise "list index out of range"
  end.

(** The body of [for attempt in range(MAX_RETRIES)] of this module's
    own [post_task_to_student]. *)
Fixpoint post_loop (post : nat -> outcome) (todo : list nat) (slept : list Z)
  : Exc (Z * option string) * trace :=
  match todo with
  | [] => (Ok (0%Z, Some "Failed after all retries"),
           {| sleeps := slept; posts := MAX_RETRIES |})
  | attempt :: rest =>
      let done r := (r, {| sleeps := slept; posts := attempt + 1 |}) in
      let wait_or (final : Z * option string) :=
        if (attempt <? MAX_RETRIES - 1)%nat then
          match retry_delay attempt with
          | Ok d => post_loop post rest (slept ++ [d])
          | Raise e => done (Raise e)
          end
        else done (Ok final) in
      match post attempt with
      | Response status_code text =>
          if (status_code =? 200)%Z then done (Ok (status_code, None))
          else
            wait_or (status_code,
                     Some ("HTTP " +:+ str_of_Z status_code +:+ ": "
                           +:+ str_take 200 text))
      | Timeout =>
          wait_or (0%Z, Some ("Timeout after " +:+ str_of_Z REQUEST_TIMEOUT +:+ "s"))
      | ConnectionError e | RequestException e =>
          wait_or (0%Z, Some ("Request error: " +:+ e))
      | OtherException e => done (Raise e)
      end
  end.

Definition post_task_to_student (post : nat -> outcome)
  : Exc (Z * option string) * trace :=
  post_loop post (seq 0 MAX_RETRIES) [].

(** [result['check'] in critical_checks and result['score'] == 0]; a
    NULL score is [None], which is not equal to 0. *)
Definition critical_checks : list string := ["mit_license"; "page_load"].

Definition critical_failure (r : ResultRow) : bool :=
  existsb (String.eqb (res_check r)) critical_checks
  && match res_score r with
     | Some q => Qeq_bool q 0
     | None => false
     end.

(** [should_generate_round2] *)
Definition should_generate_round2 (repo : RepoRow) (db : Database) : bool :=
  let email := repo_email repo in
  if task_exists db email (repo_task repo) 2 then false
  else if repo_exists db email (repo_task repo) 2 then false
  else
    let rs := get_results db (Some email) (Some 1%Z) in
    match rs with
    | [] => true
    | _ :: _ => negb (existsb critical_failure rs)
    end.

End Round2.

(** ** api_server.py: the submission endpoint *)

Module ApiServer.
Import Db.

(** [class EvaluationRequest], after validation. *)
Record EvaluationRequest : Type := {
  email : string;
  task : string;
  round : Z;
  nonce : string;
  repo_url : string;
  commit_sha : string;
  pages_url : string
}.

(** What the endpoint answers: the JSON of a success, with the id of
    the new row, or an [HTTPException]. *)
Inductive answer : Type :=
| Success (repo_id : Z)
| HTTPException (status_code : Z) (detail : string).

(** [evaluation_endpoint], with the database before and after; [now]
    is the clock reading for the row's timestamp. *)
Definition evaluation_endpoint (now : string) (request : EvaluationRequest)
    (db : Database) : answer * Database :=
  match get_task_by_nonce db (nonce request) with
  | None => (HTTPException 400 "Invalid nonce. Task not found.", db)
  | Some t =>
      if negb (String.eqb (task_email t) (email request)) then
        (HTTPException 400 "Email does not match the task record.", db)
      else if negb (String.eqb (task_task t) (task request)) then
        (HTTPException 400 "Task ID does not match the task record.", db)
      else if negb (task_round t =? round request)%Z then
        (HTTPException 400 "Round number does not match the task record.", db)
      else if repo_exists db (email request) (task request) (round request) then
        (HTTPException 400
           "Repository has already been submitted for this task and round.", db)
      else
        let repo_data :=
          {| repo_timestamp := now; repo_email := email request;
             repo_task := task request; repo_round := round request;
             repo_nonce := nonce request; repo_repo_url := repo_url request;
             repo_commit_sha := commit_sha request;
             repo_pages_url := pages_url request |} in
        match insert_repo db repo_data with
        | Ok (repo_id, db') => (Success repo_id, db')
        | Raise e => (HTTPException 500 ("Internal server error: " +:+ e), db)
        end
  end.

End ApiServer.

(** ** round2.py: generation and dispatch of the round-2 tasks *)

Module Round2Batch.
Import Requests World TaskTemplates Db Round2.

Definition EVALUATION_URL : string := "http://localhost:8000/api/evaluation".

(** The columns of [tasks], in the order of [CREATE TABLE]: the keys
    of [dict(row)] for a row read from that table. *)
Definition TASK_COLUMNS : list string :=
  ["id"; "timestamp"; "email"; "task"; "round"; "nonce"; "brief";
   "attachments"; "checks"; "evaluation_url"; "endpoint"; "statuscode";
   "error"; "created_at"].

(** The columns declared [TEXT NOT NULL], with the text a row holds. *)
Definition text_columns (row : TaskRow) : list (string * string) :=
  [("timestamp", task_timestamp row); ("email", task_email row);
   ("task", task_task row); ("nonce", task_nonce row);
   ("brief", task_brief row);
   ("evaluation_url", task_evaluation_url row);
   ("endpoint", task_endpoint row)].

(** [original_task[k]] where the dispatcher goes on to use the value
    as a string: [KeyError] when [k] is no column of the table.  The
    columns that hold no text are set apart; the dispatcher reads none
    of them. *)
Definition getitem (row : TaskRow) (k : string) : Exc string :=
  if existsb (String.eqb k) TASK_COLUMNS then
    match find (fun kv => String.eqb kv.1 k) (text_columns row) with
    | Some kv => Ok kv.2
    | None => Raise ("column " +:+ k +:+ " holds no text")
    end
  else Raise ("'" +:+ k +:+ "'").

Section Batch.
Context `{Builtins} `{Hashlib} `{Random} `{Env}.

(** [generate_round2_task]: [None] or the task, or the exception that
    leaves it; the clock is read on entry, a UUID is drawn once the
    content is there. *)
Definition generate_round2_task (repo : RepoRow) (st : Round1.state)
  : Exc (option task_data) * Round1.state :=
  let dt := utcnow (Round1.clock st) in
  let timestamp_hour := strftime_hour dt in
  let st1 g u :=
    {| Round1.db := Round1.db st; Round1.rng := g;
       Round1.clock := S (Round1.clock st); Round1.uuids := u;
       Round1.net := Round1.net st; Round1.slept := Round1.slept st |} in
  match get_template_from_task_id (repo_task repo) with
  | None => (Ok None, st1 (Round1.rng st) (Round1.uuids st))
  | Some template =>
      match generate template 2 (repo_email repo) timestamp_hour (Round1.rng st) with
      | (Raise e, g) => (Raise e, st1 g (Round1.uuids st))
      | (Ok task_content, g) =>
          let task_id :=
            generate_task_id (template_id template) (c_brief task_content)
                             (c_attachments task_content) in
          let nonce := uuid4 (Round1.uuids st) in
          let st2 := st1 g (S (Round1.uuids st)) in
          match get_task_by_nonce (Round1.db st) (repo_nonce repo) with
          | None => (Ok None, st2)
          | Some original_task =>
              (endpoint ← getitem original_task "endpoint";
               secret ← getitem original_task "secret";
               mret (Some {| td_timestamp := isoformat dt;
                             td_email := repo_email repo;
                             td_task := task_id;
                             td_round := 2;
                             td_nonce := nonce;
                             td_brief := c_brief task_content;
                             td_attachments := c_attachments task_content;
                             td_checks := c_checks task_content;
                             td_evaluation_url := EVALUATION_URL;
                             td_endpoint := endpoint;
                             td_secret := secret;
                             td_statuscode := None;
                             td_error := None |}),
               st2)
          end
      end
  end.

(** What one turn of the loop of [process_repos] does. *)
Inductive turn : Type :=
| Next (st : Round1.state) (c : Round1.counts)
| Abort (e : string) (st : Round1.state).

Definition process_one (repo : RepoRow) (st : Round1.state) (c : Round1.counts)
  : turn :=
  if negb (should_generate_round2 repo (Round1.db st)) then
    Next st {| Round1.processed := Round1.processed c;
               Round1.skipped := S (Round1.skipped c);
               Round1.failed := Round1.failed c |}
  else
    match generate_round2_task repo st with
    | (Raise e, st1) => Abort e st1
    | (Ok None, st1) =>
        Next st1 {| Round1.processed := Round1.processed c;
                    Round1.skipped := Round1.skipped c;
                    Round1.failed := S (Round1.failed c) |}
    | (Ok (Some task), st1) =>
        let '(r, tr) :=
          post_task_to_student
            (fun n => http_post (Round1.net st1 + n) (td_endpoint task)
                                (Round1.payload_of task)) in
        let st2 d sl :=
          {| Round1.db := d; Round1.rng := Round1.rng st1;
             Round1.clock := Round1.clock st1; Round1.uuids := Round1.uuids st1;
             Round1.net := Round1.net st1 + posts tr;
             Round1.slept := Round1.slept st1 ++ sleeps tr ++ sl |} in
        match r with
        | Raise e => Abort e (st2 (Round1.db st1) [])
        | Ok (status_code, error) =>
            let task' :=
              {| td_timestamp := td_timestamp task; td_email := td_email task;
                 td_task := td_task task; td_round := td_round task;
                 td_nonce := td_nonce task; td_brief := td_brief task;
                 td_attachments := td_attachments task;
                 td_checks := td_checks task;
                 td_evaluation_url := td_evaluation_url task;
                 td_endpoint := td_endpoint task; td_secret := td_secret task;
                 td_statuscode := Some status_code; td_error := error |} in
            match insert_task (Round1.db st1) task' with
            | Raise e => Abort e (st2 (Round1.db st1) [])
            | Ok (_, d) =>
                Next (st2 d [1%Z])
                     (if (status_code =? 200)%Z
                      then {| Round1.processed := S (Round1.processed c);
                              Round1.skipped := Round1.skipped c;
                              Round1.failed := Round1.failed c |}
                      else {| Round1.processed := Round1.processed c;
                              Round1.skipped := Round1.skipped c;
                              Round1.failed := S (Round1.failed c) |})
            end
        end
    end.

(** The loop of [process_repos]: the counters at the end, or the
    exception that ended it, with the state reached. *)
Fixpoint process_loop (repos : list RepoRow) (st : Round1.state)
    (c : Round1.counts) : Exc Round1.counts * Round1.state :=
  match repos with
  | [] => (Ok c, st)
  | repo :: rest =>
      match process_one repo st c with
      | Next st' c' => process_loop rest st' c'
      | Abort e st' => (Raise e, st')
      end
  end.

(** [process_repos]: the list of round-1 repos is read once, before
    the loop. *)
Definition process_repos (st : Round1.state) : Exc Round1.counts * Round1.state :=
  process_loop (get_repos_to_evaluate (Round1.db st) (Some 1%Z)) st
    {| Round1.processed := 0; Round1.skipped := 0; Round1.failed := 0 |}.

End Batch.

End Round2Batch.

(** ** evaluate.py: the check engine and the evaluation loop *)

Module Evaluate.
Import Db.

(** The dictionary [_create_result] builds.  Its entry ['timestamp'],
    the clock reading at that moment, is left out. *)
Record result : Type := {
  r_email : string;
  r_task : string;
  r_round : Z;
  r_repo_url : string;
  r_commit_sha : string;
  r_pages_url : string;
  r_check : string;
  r_score : Q;
  r_reason : string;
  r_logs : string
}.

Definition _create_result (repo : RepoRow) (check : string) (score : Q)
    (reason logs : string) : result :=
  {| r_email := repo_email repo; r_task := repo_task repo;
     r_round := repo_round repo; r_repo_url := repo_repo_url repo;
     r_commit_sha := repo_commit_sha repo; r_pages_url := repo_pages_url repo;
     r_check := check; r_score := score; r_reason := reason; r_logs := logs |}.

(** [check_type == name] *)
Definition is_type (check_type : pyval) (name : string) : bool :=
  match check_type with
  | VStr s => String.eqb s name
  | _ => false
  end.

(** *** The interactive backend *)

(** How [page.goto] ends. *)
Inductive goto_outcome : Type :=
| GotoOk
| GotoTimeout
| GotoError (e : string).

(** The browser.  [page] is the state of the page, which every call
    may change, also when it raises; the calls are those the checks
    make.  [query_selector_all] gives the number of elements found and
    [bounding_box] the width of the box, or [None]. *)
Class Playwright : Type := {
  page : Type;
  element : Type;
  PLAYWRIGHT_AVAILABLE : bool;
  launch : Exc page;
  goto : string -> page -> goto_outcome * page;
  query_selector_all : pyval -> page -> Exc nat * page;
  query_selector : pyval -> page -> Exc (option element) * page;
  click : element -> page -> Exc unit * page;
  wait_for_timeout : Z -> page -> Exc unit * page;
  is_visible : element -> page -> Exc bool * page;
  set_viewport_size : pyval -> Z -> page -> Exc unit * page;
  bounding_box : element -> page -> Exc (option Q) * page
}.

Section Interactive.
Context `{Builtins} `{Playwright}.

(** A computation on the page that may raise. *)
Definition M (A : Type) : Type := page -> Exc A * page.

#[local] Instance M_ret : MRet M := fun A a p => (Ok a, p).
#[local] Instance M_bind : MBind M := fun A B k m p =>
  match m p with
  | (Ok a, p') => k a p'
  | (Raise e, p') => (Raise e, p')
  end.

(** A step that does not touch the page. *)
Definition lift {A} (x : Exc A) : M A := fun p => (x, p).

(** [try: m  except Exception as e: h e] on the page. *)
Definition try_M {A} (m : M A) (h : string -> M A) : M A := fun p =>
  match m p with
  | (Ok a, p') => (Ok a, p')
  | (Raise e, p') => h e p'
  end.

Definition found_reason (count : nat) (min_count : pyval) : string :=
  "Found " +:+ str_of_nat count +:+ " elements (expected >="
  +:+ str min_count +:+ ")".

(** The body of the [try] of [_check_element_exists]. *)
Definition try_element_exists (check : dict) (repo : RepoRow) : M result :=
  let selector := dict_get_default check "selector" (VStr EmptyString) in
  let min_count := dict_get_default check "min_count" (VInt 1) in
  count ← query_selector_all selector;
  enough ← lift (int_ge (Z.of_nat count) min_count);
  sel ← lift (slice_to 20 selector);
  mret (_create_result repo ("element_" +:+ str sel)
          (if enough : bool then 1%Q else 0%Q)
          (found_reason count min_count) EmptyString).

Definition _check_element_exists (check : dict) (repo : RepoRow) : M result :=
  let selector := dict_get_default check "selector" (VStr EmptyString) in
  try_M (try_element_exists check repo)
    (fun e =>
       sel ← lift (slice_to 20 selector);
       mret (_create_result repo ("element_" +:+ str sel) 0
               ("Error: " +:+ e) EmptyString)).

Definition button_selector (text : pyval) : string :=
  "button:has-text(" +:+ dq +:+ str text +:+ dq +:+ "), [type=" +:+ dq
  +:+ "button" +:+ dq +:+ "]:has-text(" +:+ dq +:+ str text +:+ dq +:+ ")".

Definition no_button (repo : RepoRow) (text_options : pyval) : result :=
  _create_result repo "button_check" 0
    ("No button found with text: " +:+ str text_options) EmptyString.

(** [for text in text_options] of [_check_button_exists]. *)
Fixpoint button_loop (texts : list pyval) (text_options : pyval)
    (repo : RepoRow) : M result :=
  match texts with
  | [] => mret (no_button repo text_options)
  | text :: rest =>
      el ← query_selector (VStr (button_selector text));
      match el with
      | Some _ =>
          t ← lift (slice_to 20 text);
          mret (_create_result repo ("button_" +:+ str t) 1
                  ("Button with text " +:+ dq +:+ str text +:+ dq +:+ " found")
                  EmptyString)
      | None => button_loop rest text_options repo
      end
  end.

(** [if isinstance(text_options, str): text_options = [text_options]] *)
Definition as_options (v : pyval) : pyval :=
  match v with
  | VStr s => VList [VStr s]
  | _ => v
  end.

(** The body of the [try] of [_check_button_exists]. *)
Definition try_button_exists (check : dict) (repo : RepoRow) : M result :=
  let text_options := as_options (dict_get_default check "text" (VList [])) in
  texts ← lift (iter text_options);
  button_loop texts text_options repo.

Definition _check_button_exists (check : dict) (repo : RepoRow) : M result :=
  try_M (try_button_exists check repo)
    (fun e =>
       mret (_create_result repo "button_check" 0 ("Error: " +:+ e) EmptyString)).

Definition modal_selector : string :=
  ".modal, .lightbox, [data-lightbox], [role=" +:+ dq +:+ "dialog" +:+ dq +:+ "]".

(** The body of the [try] of [_check_click_interaction]. *)
Definition try_click_interaction (check : dict) (repo : RepoRow) : M result :=
  let selector := dict_get_default check "selector" (VStr EmptyString) in
  let expected_result := dict_get_default check "result" (VStr EmptyString) in
  let unclear :=
    _create_result repo "click_interaction" (1 # 2)%Q
      "Click registered but expected result unclear" EmptyString in
  el ← query_selector selector;
  match el with
  | None =>
      mret (_create_result repo "click_interaction" 0
              ("Element not found: " +:+ str selector) EmptyString)
  | Some e =>
      _ ← click e;
      _ ← wait_for_timeout 500;
      low ← lift (lower_of expected_result);
      if contains "modal" low then
        modal ← query_selector (VStr modal_selector);
        match modal with
        | Some m =>
            visible ← is_visible m;
            if visible : bool then
              mret (_create_result repo "click_interaction" 1
                      "Modal/lightbox opened on click" EmptyString)
            else mret unclear
        | None => mret unclear
        end
      else mret unclear
  end.

Definition _check_click_interaction (check : dict) (repo : RepoRow) : M result :=
  try_M (try_click_interaction check repo)
    (fun e =>
       mret (_create_result repo "click_interaction" 0
               ("Error: " +:+ e) EmptyString)).

(** [for width in breakpoints] of [_check_responsive]: the list
    [scores] at the end. *)
Fixpoint responsive_loop (widths : list pyval) (scores : list Q) : M (list Q) :=
  match widths with
  | [] => mret scores
  | width :: rest =>
      _ ← set_viewport_size width 800;
      _ ← wait_for_timeout 500;
      body ← query_selector (VStr "body");
      match body with
      | Some b =>
          box ← bounding_box b;
          match box with
          | Some w =>
              if Qlt_le_dec 0 w then responsive_loop rest (scores ++ [1%Q])
              else responsive_loop rest (scores ++ [0%Q])
          | None => responsive_loop rest (scores ++ [0%Q])
          end
      | None => responsive_loop rest scores
      end
  end.

Definition sum_scores (scores : list Q) : Q := foldr Qplus 0%Q scores.

(** [sum(scores) / len(scores) if scores else 0] *)
Definition avg_score (scores : list Q) : Q :=
  match scores with
  | [] => 0%Q
  | _ :: _ => (sum_scores scores / inject_Z (Z.of_nat (length scores)))%Q
  end.

(** [len([s for s in scores if s > 0])] *)
Definition positive (s : Q) : bool := if Qlt_le_dec 0 s then true else false.

Definition positive_count (scores : list Q) : nat :=
  length (filter (fun s => positive s = true) scores).

(** The body of the [try] of [_check_responsive]. *)
Definition try_responsive (check : dict) (repo : RepoRow) : M result :=
  let breakpoints :=
    dict_get_default check "breakpoints" (VList [VInt 768; VInt 1024]) in
  widths ← lift (iter breakpoints);
  scores ← responsive_loop widths [];
  mret (_create_result repo "responsive_design" (avg_score scores)
          ("Responsive at " +:+ str_of_nat (positive_count scores) +:+ "/"
           +:+ str_of_nat (length widths) +:+ " breakpoints")
          EmptyString).

Definition _check_responsive (check : dict) (repo : RepoRow) : M result :=
  try_M (try_responsive check repo)
    (fun e =>
       mret (_create_result repo "responsive_design" 0
               ("Error: " +:+ e) EmptyString)).

(** The body of the [try] of [_run_single_check]: the dispatch on
    the type. *)
Definition dispatch (check_type : pyval) (check : dict) (repo : RepoRow)
  : M (option result) :=
  if is_type check_type "element_exists" then
    r ← _check_element_exists check repo; mret (Some r)
  else if is_type check_type "button_exists" then
    r ← _check_button_exists check repo; mret (Some r)
  else if is_type check_type "click_interaction" then
    r ← _check_click_interaction check repo; mret (Some r)
  else if is_type check_type "responsive_check" then
    r ← _check_responsive check repo; mret (Some r)
  else mret None.

Definition _run_single_check (check : dict) (repo : RepoRow) : M (option result) :=
  let check_type := dict_get_default check "type" (VStr EmptyString) in
  try_M (dispatch check_type check repo)
    (fun e =>
       mret (Some (_create_result repo ("check_" +:+ str check_type) 0
                     ("Error: " +:+ e) EmptyString))).

(** [for check in checks] of [run_playwright_checks]: the list
    [results] at the end, and the exception if one left the loop. *)
Fixpoint check_loop (checks : list dict) (repo : RepoRow) (results : list result)
    (p : page) : Exc unit * list result * page :=
  match checks with
  | [] => (Ok (), results, p)
  | check :: rest =>
      match _run_single_check check repo p with
      | (Ok (Some r), p') => check_loop rest repo (results ++ [r]) p'
      | (Ok None, p') => check_loop rest repo results p'
      | (Raise e, p') => (Raise e, results, p')
      end
  end.

End Interactive.

(** *** The static backend *)

(** The parsed page, through the two queries the checks make:
    [soup.select(selector)], as the number of elements, and the texts
    [b.get_text() or ''] of [soup.find_all(['button', 'input'])]. *)
Record soup : Type := {
  select : pyval -> Exc nat;
  button_texts : list string
}.

(** [requests.get(pages_url, timeout=20)] followed by the parse: the
    status and the parsed page, or the exception. *)
Class Http : Type := { http_get : string -> Exc (Z * soup) }.

Section Static.
Context `{Builtins}.

(** [for b in btns] with its test [text.lower() in b_text.lower()]. *)
Fixpoint any_button (text : pyval) (btns : list string) : Exc bool :=
  match btns with
  | [] => Ok false
  | b_text :: rest =>
      t ← lower_of text;
      if contains t (lower b_text) then Ok true else any_button text rest
  end.

(** [for text in text_options]: the flag [found] at the end. *)
Fixpoint find_text (texts : list pyval) (btns : list string) : Exc bool :=
  match texts with
  | [] => Ok false
  | text :: rest =>
      found ← any_button text btns;
      if found : bool then Ok true else find_text rest btns
  end.

(** The body of the [try] of [_http_run_single_check]. *)
Definition http_dispatch (s : soup) (check_type : pyval) (check : dict)
    (repo : RepoRow) : Exc (option result) :=
  if is_type check_type "element_exists" then
    let selector := dict_get_default check "selector" (VStr EmptyString) in
    count ← select s selector;
    let min_count := dict_get_default check "min_count" (VInt 1) in
    enough ← int_ge (Z.of_nat count) min_count;
    sel ← slice_to 20 selector;
    mret (Some (_create_result repo ("element_" +:+ str sel)
                  (if enough : bool then 1%Q else 0%Q)
                  (found_reason count min_count) EmptyString))
  else if is_type check_type "button_exists" then
    let text_options :=
      as_options (dict_get_default check "text" (VList [])) in
    texts ← iter text_options;
    found ← find_text texts (button_texts s);
    mret (Some (_create_result repo "button_check"
                  (if found : bool then 1%Q else 0%Q)
                  (if found : bool
                   then "Button with text " +:+ str text_options +:+ " found"
                   else "No button found with text: " +:+ str text_options)
                  EmptyString))
  else if is_type check_type "responsive_check" then
    mret (Some (_create_result repo "responsive_design" (1 # 2)%Q
                  "Responsive check skipped (HTTP fallback)" EmptyString))
  else if is_type check_type "click_interaction" then
    mret (Some (_create_result repo "click_interaction" (1 # 2)%Q
                  "Click interaction skipped (no JS in HTTP fallback)"
                  EmptyString))
  else mret None.

Definition _http_run_single_check (s : soup) (check : dict) (repo : RepoRow)
  : Exc (option result) :=
  let check_type := dict_get_default check "type" (VStr EmptyString) in
  try_except (http_dispatch s check_type check repo)
    (fun e =>
       Ok (Some (_create_result repo ("http_check_" +:+ str check_type) 0
                   ("Error: " +:+ e) EmptyString))).

(** [for check in checks] of [_http_fallback_checks]. *)
Fixpoint http_loop (s : soup) (checks : list dict) (repo : RepoRow)
    (results : list result) : Exc unit * list result :=
  match checks with
  | [] => (Ok (), results)
  | check :: rest =>
      match _http_run_single_check s check repo with
      | Ok (Some r) => http_loop s rest repo (results ++ [r])
      | Ok None => http_loop s rest repo results
      | Raise e => (Raise e, results)
      end
  end.

Definition http_fallback_error (repo : RepoRow) (e : string) : result :=
  _create_result repo "http_fallback" 0 ("Error: " +:+ e) EmptyString.

Definition _http_fallback_checks `{Http} (pages_url : string)
    (checks : list dict) (repo : RepoRow) : list result :=
  match http_get pages_url with
  | Raise e => [http_fallback_error repo e]
  | Ok (status_code, s) =>
      if negb (status_code =? 200)%Z then
        [_create_result repo "page_load" 0
           ("HTTP " +:+ str_of_Z status_code) EmptyString]
      else
        match http_loop s checks repo [] with
        | (Ok _, results) => results
        | (Raise e, results) => results ++ [http_fallback_error repo e]
        end
  end.

End Static.

(** *** The engine *)

Section Engine.
Context `{Builtins} `{Playwright} `{Http}.

Definition page_load_failed (repo : RepoRow) (why : string) : result :=
  _create_result repo "page_load" 0 ("Page failed to load: " +:+ why) EmptyString.

(** [run_playwright_checks]: the interactive backend when it is
    there and starts, the static one otherwise. *)
Definition run_playwright_checks (db : Database) (repo : RepoRow)
    (pages_url : string) : list result :=
  match get_task_by_nonce db (repo_nonce repo) with
  | None => []
  | Some task =>
      let checks := task_checks task in
      if PLAYWRIGHT_AVAILABLE then
        match launch with
        | Raise _ => _http_fallback_checks pages_url checks repo
        | Ok p0 =>
            match goto pages_url p0 with
            | (GotoTimeout, _) => [page_load_failed repo "timeout"]
            | (GotoError e, _) => [page_load_failed repo e]
            | (GotoOk, p1) =>
                match check_loop checks repo [] p1 with
                | (Ok _, results, _) => results
                | (Raise e, results, _) => results ++ [page_load_failed repo e]
                end
            end
        end
      else _http_fallback_checks pages_url checks repo
  end.

End Engine.

(** *** The evaluation loop *)

Section Main.
Context `{Sqlite}.

(** [evaluator.evaluate_repo(repo)], with the requests it makes to
    the repository host and to the page, is a parameter of the loop:
    the dictionaries it returns, or the exception. *)
Variable evaluate_repo : RepoRow -> Database -> Exc (list result_data).

(** The clock reading [insert_result] falls back on. *)
Variable now : string.

(** [for result in results: db.insert_result(result)]: every insert
    is committed, so the rows before a failing one stay. *)
Fixpoint save_results (rs : list result_data) (db : Database) : Exc unit * Database :=
  match rs with
  | [] => (Ok (), db)
  | r :: rest =>
      match insert_result now db r with
      | Ok (_, db') => save_results rest db'
      | Raise e => (Raise e, db)
      end
  end.

Record tally : Type := {
  evaluated : nat;
  failed : nat
}.

(** The body of [for repo in repos] of [main], with its [try]. *)
Definition evaluate_one (repo : RepoRow) (db : Database) (t : tally)
  : Database * tally :=
  if result_exists db (repo_email repo) (repo_task repo) (repo_round repo) then
    (db, t)
  else
    match evaluate_repo repo db with
    | Raise _ => (db, {| evaluated := evaluated t; failed := S (failed t) |})
    | Ok rs =>
        match save_results rs db with
        | (Ok _, db') =>
            (db', {| evaluated := S (evaluated t); failed := failed t |})
        | (Raise _, db') =>
            (db', {| evaluated := evaluated t; failed := S (failed t) |})
        end
    end.

Fixpoint evaluate_all (repos : list RepoRow) (db : Database) (t : tally)
  : Database * tally :=
  match repos with
  | [] => (db, t)
  | repo :: rest =>
      let '(db', t') := evaluate_one repo db t in
      evaluate_all rest db' t'
  end.

(** [main]; [round_filter] is the argument of [--round], if given.
    The test [if round_filter:] fails for 0 as for [None]. *)
Definition main (round_filter : option Z) (db : Database) : Database * tally :=
  let repos :=
    match round_filter with
    | Some r =>
        if (r =? 0)%Z then get_repos_to_evaluate db None
        else get_repos_without_results db r
    | None => get_repos_to_evaluate db None
    end in
  evaluate_all repos db {| evaluated := 0; failed := 0 |}.

End Main.

End Evaluate.

(** ** evaluate.py: the checks of a repository *)

Module EvaluateRepo.
Import Db Evaluate.

(** [requests.get(url, timeout=30)] on the repository host: the status
    and the text of the response, or [str] of the exception raised. *)
Class Web : Type := { get : string -> Exc (Z * string) }.

(** The dictionary that [check_mit_license], [evaluate_readme] and
    [evaluate_code_quality] return: the keys ['check'], ['score'],
    ['reason'] and ['logs'], and no other. *)
Record verdict : Type := {
  v_check : string;
  v_score : Q;
  v_reason : string;
  v_logs : string
}.

(** [l[-2:]] *)
Definition last_two {A} (l : list A) : list A := drop (length l - 2) l.

Definition license_url (repo_url commit_sha : string) : string :=
  let owner_repo := join "/" (last_two (split "/" repo_url)) in
  "https://raw.githubusercontent.com/" +:+ owner_repo +:+ "/" +:+ commit_sha
  +:+ "/LICENSE".

(** [check_mit_license], with its [try]. *)
Definition check_mit_license `{Builtins} `{Web} (repo_url commit_sha : string) : verdict :=
  match get (license_url repo_url commit_sha) with
  | Ok (status_code, text) =>
      if (status_code =? 200)%Z then
        let content := lower text in
        if contains "mit license" content || contains "mit" content then
          {| v_check := "mit_license"; v_score := 1;
             v_reason := "MIT LICENSE file found in root folder";
             v_logs := EmptyString |}
        else
          {| v_check := "mit_license"; v_score := 0;
             v_reason := "LICENSE file exists but is not MIT";
             v_logs := str_take 200 content |}
      else
        {| v_check := "mit_license"; v_score := 0;
           v_reason := "No LICENSE file found: HTTP " +:+ str_of_Z status_code;
           v_logs := EmptyString |}
  | Raise e =>
      {| v_check := "mit_license"; v_score := 0;
         v_reason := "Error: " +:+ e; v_logs := EmptyString |}
  end.

(** A dictionary of [_create_result] as [insert_result] receives it;
    [timestamp] is its entry ['timestamp']. *)
Definition full (timestamp : string) (r : result) : result_data :=
  {| rd_timestamp := Some timestamp; rd_email := Some (r_email r);
     rd_task := Some (r_task r); rd_round := Some (r_round r);
     rd_repo_url := Some (r_repo_url r);
     rd_commit_sha := Some (r_commit_sha r);
     rd_pages_url := Some (r_pages_url r); rd_check := Some (r_check r);
     rd_score := Some (r_score r); rd_reason := Some (r_reason r);
     rd_logs := Some (r_logs r) |}.

(** A dictionary of four keys as [insert_result] receives it. *)
Definition bare (v : verdict) : result_data :=
  {| rd_timestamp := None; rd_email := None; rd_task := None;
     rd_round := None; rd_repo_url := None; rd_commit_sha := None;
     rd_pages_url := None; rd_check := Some (v_check v);
     rd_score := Some (v_score v); rd_reason := Some (v_reason v);
     rd_logs := Some (v_logs v) |}.

Section Repo.
Context `{Builtins} `{Playwright} `{Http} `{Web}.

(** What [check_repo_creation_time] finds once the task is there:
    whether the repository was created after the task was sent (score
    1.0 or 0), and the reason it gives; an exception on the way gives
    score 0 and its text. *)
Variable created_after_task : TaskRow -> RepoRow -> bool * string.

(** [evaluate_readme] and [evaluate_code_quality]: every [return] of
    theirs gives a dictionary of the four keys, the [except] clauses
    included; the score and the texts are whatever they arrive at. *)
Variable evaluate_readme : string -> string -> verdict.
Variable evaluate_code_quality : string -> string -> verdict.

(** The clock reading of the [n]-th call of [_create_result] for a
    repository. *)
Variable stamp : nat -> string.

(** [check_repo_creation_time] *)
Definition check_repo_creation_time (repo : RepoRow) (db : Database) : result :=
  match get_task_by_nonce db (repo_nonce repo) with
  | None =>
      _create_result repo "repo_creation_time" 0 "Task not found in database"
                     EmptyString
  | Some task =>
      let '(after, reason) := created_after_task task repo in
      _create_result repo "repo_creation_time" (if after then 1 else 0) reason
                     EmptyString
  end.

(** [evaluate_repo]: each of the first four checks returns a
    dictionary, which is not empty and so is appended; the results of
    the page checks follow. *)
Definition evaluate_repo (repo : RepoRow) (db : Database)
  : Exc (list result_data) :=
  let repo_url := repo_repo_url repo in
  let commit_sha := repo_commit_sha repo in
  let pages_url := repo_pages_url repo in
  Ok (full (stamp 0) (check_repo_creation_time repo db)
      :: bare (check_mit_license repo_url commit_sha)
      :: bare (evaluate_readme repo_url commit_sha)
      :: bare (evaluate_code_quality repo_url commit_sha)
      :: imap (fun i r => full (stamp (S i)) r)
              (run_playwright_checks db repo pages_url)).

End Repo.

End EvaluateRepo.

(** ** secret_manager.py: the registered secrets *)

Module SecretManager.

(** [self.secrets]: email to hashed secret.  The file that
    [_save_secrets] writes after each change is a copy of it; a failure
    to write is logged and changes nothing here. *)
Definition secrets : Type := gmap string string.

Section Manager.
Context `{Hashlib}.

(** [_hash_secret] *)
Definition _hash_secret (secret email : string) : string :=
  let salted := email +:+ ":" +:+ secret in
  hexdigest (sha256 salted).

(** [register_secret] *)
Definition register_secret (email secret : string) (s : secrets) : bool * secrets :=
  if String.eqb email EmptyString || String.eqb secret EmptyString then (false, s)
  else if (len secret <? 8)%nat then (false, s)
  else
    let hashed := _hash_secret secret email in
    (true, <[email := hashed]> s).

(** [verify_secret] *)
Definition verify_secret (email secret : string) (s : secrets) : bool :=
  match s !! email with
  | None => false
  | Some stored =>
      let hashed := _hash_secret secret email in
      String.eqb hashed stored
  end.

End Manager.

End SecretManager.

(** ** request_validator.py: the validation of build requests *)

Module RequestValidator.

(** The request dictionary; [None] is an absent key.  The values have
    the types that [BuildRequest] of api_server.py gives them. *)
Record request_data : Type := {
  email : option string;
  secret : option string;
  task : option string;
  round : option Z;
  nonce : option string;
  brief : option string;
  checks : option (list string);
  evaluation_url : option string
}.

(** [self.stored_secrets]: task id to secret. *)
Definition stored_secrets : Type := gmap string string.

(** [(is_valid, error_message)] *)
Definition verdict : Type := (bool * string)%type.

Section Validator.

(** [EMAIL_PATTERN.match]: whether the regular expression matches. *)
Variable EMAIL_PATTERN : string -> bool.

(** A turn of the loop over [REQUIRED_FIELDS], for the field [field]
    with entry [o]; the fields are taken in the order of the list. *)
Definition required {A} (field : string) (o : option A) (s : stored_secrets)
    (k : A -> verdict * stored_secrets) : verdict * stored_secrets :=
  match o with
  | None => ((false, "Missing required field: " +:+ field), s)
  | Some a => k a
  end.

(** [validate_request], with [self.stored_secrets] before and after. *)
Definition validate_request (request : request_data) (s : stored_secrets)
  : verdict * stored_secrets :=
  required "email" (email request) s (fun email =>
  required "secret" (secret request) s (fun secret =>
  required "task" (task request) s (fun task_id =>
  required "round" (round request) s (fun round_num =>
  required "nonce" (nonce request) s (fun nonce =>
  required "brief" (brief request) s (fun brief =>
  required "checks" (checks request) s (fun checks =>
  required "evaluation_url" (evaluation_url request) s (fun eval_url =>
    if negb (EMAIL_PATTERN email) then ((false, "Invalid email format"), s)
    else if String.eqb secret EmptyString || (len secret <? 8)%nat then
      ((false, "Secret must be at least 8 characters long"), s)
    else
      let s' := <[task_id := secret]> s in
      if String.eqb task_id EmptyString || (len task_id <? 3)%nat then
        ((false, "Invalid task ID"), s')
      else if (round_num <? 1)%Z then
        ((false, "Round must be a positive integer"), s')
      else if String.eqb nonce EmptyString then
        ((false, "Nonce cannot be empty"), s')
      else if String.eqb brief EmptyString || (len brief <? 10)%nat then
        ((false, "Brief must be at least 10 characters long"), s')
      else if (length checks =? 0)%nat then
        ((false, "Checks must be a non-empty list"), s')
      else if negb (startswith "http://" eval_url)
              && negb (startswith "https://" eval_url) then
        ((false, "Evaluation URL must start with http:// or https://"), s')
      else ((true, EmptyString), s')
  )))))))).

(** [validate_revision_request] *)
Definition validate_revision_request (request : request_data) (s : stored_secrets)
  : Exc verdict * stored_secrets :=
  let '((is_valid, error_msg), s1) := validate_request request s in
  if negb is_valid then (Ok (false, error_msg), s1)
  else
    (task_id ← Db.item "task" (task request);
     provided_secret ← Db.item "secret" (secret request);
     match s1 !! task_id with
     | None =>
         mret (false, "No stored secret found for this task. Was the initial build completed?")
     | Some stored_secret =>
         if String.eqb stored_secret EmptyString then
           mret (false, "No stored secret found for this task. Was the initial build completed?")
         else if negb (String.eqb provided_secret stored_secret) then
           mret (false, "Secret verification failed")
         else mret (true, EmptyString)
     end,
     s1).

End Validator.

(** What [BuildRequest] of api_server.py admits, the format of the
    email apart: the [Field] constraints and [validate_url]. *)
Definition BuildRequest (request : request_data) : bool :=
  match email request, secret request, task request, round request,
        nonce request, brief request, checks request, evaluation_url request with
  | Some _, Some secret, Some task, Some round, Some nonce, Some brief,
    Some checks, Some evaluation_url =>
      (8 <=? len secret)%nat && (3 <=? len task)%nat
      && (1 <=? round)%Z && (1 <=? len nonce)%nat
      && (10 <=? len brief)%nat && (1 <=? length checks)%nat
      && (startswith "http://" evaluation_url
          || startswith "https://" evaluation_url)
  | _, _, _, _, _, _, _, _ => false
  end.

End RequestValidator.

(** ** Sample instances

    Small instances of the outside world, on which the definitions above
    can be evaluated. *)

Module Sample.
Import Requests World TaskTemplates Db Evaluate.

(** Lower case for the letters A to Z, which is what [s.lower()]
    does on the texts of the samples. *)
Definition lower_letter (a : Ascii.ascii) : Ascii.ascii :=
  let n := Ascii.nat_of_ascii a in
  if (65 <=? n)%nat && (n <=? 90)%nat then Ascii.ascii_of_nat (n + 32) else a.

Fixpoint lower_letters (s : string) : string :=
  match s with
  | EmptyString => EmptyString
  | String a s' => String (lower_letter a) (lower_letters s')
  end.

#[export] Instance builtins : Builtins :=
  {| repr_list := fun l => "[" +:+ str_of_nat (length l) +:+ " items]";
     repr_dicts := fun l => "[" +:+ str_of_nat (length l) +:+ " dicts]";
     lower := lower_letters |}.

(** Digests that do not depend on the text: enough to run the code. *)
#[export] Instance hashlib : Hashlib :=
  {| md5 := fun _ => [Byte.x0f; Byte.x1e];
     sha256 := fun _ => [Byte.xab; Byte.x12; Byte.xcd; Byte.x34] |}.

(** A counter as generator: the seed is the length of the text, a draw
    below [n] is the counter modulo [n]. *)
#[export] Instance random : Random :=
  {| rng_state := nat;
     seed := fun a => String.length a;
     randbelow := fun n g => (g mod n, S g) |}.

(** Every participant server answers 500. *)
#[export] Instance env : Env :=
  {| utcnow := fun _ => {| isoformat := "2025-10-16T14:05:00";
                           strftime_hour := "2025-10-16-14" |};
     uuid4 := fun n => "uuid-" +:+ str_of_nat n;
     http_post := fun _ _ _ => Response 500 "down" |}.

(** The engine rejects the bare word [check]. *)
#[export] Instance sqlite : Sqlite := {| bare_check_is_column := false |}.

(** A page with one element for every selector that is a string, and
    an error for any other selector; the state is the viewport width. *)
#[export] Instance playwright : Playwright :=
  {| page := Z;
     element := unit;
     PLAYWRIGHT_AVAILABLE := true;
     launch := Ok 1280%Z;
     goto := fun _ p => (GotoOk, p);
     query_selector_all := fun sel p =>
       match sel with
       | VStr _ => (Ok 1%nat, p)
       | _ => (Raise "selector: expected string", p)
       end;
     query_selector := fun sel p =>
       match sel with
       | VStr _ => (Ok (Some ()), p)
       | _ => (Raise "selector: expected string", p)
       end;
     click := fun _ p => (Ok (), p);
     wait_for_timeout := fun _ p => (Ok (), p);
     is_visible := fun _ p => (Ok true, p);
     set_viewport_size := fun w _ p =>
       match w with
       | VInt z => (Ok (), z)
       | _ => (Raise "viewport_size.width: expected integer", p)
       end;
     bounding_box := fun _ p => (Ok (Some (inject_Z p)), p) |}.

(** The sample page as loaded, at the default width. *)
Definition loaded : @page playwright := 1280%Z.

Definition page_soup : soup :=
  {| select := fun sel =>
       match sel with
       | VStr _ => Ok 1%nat
       | _ => Raise "selector: expected string"
       end;
     button_texts := ["Clear"; "="] |}.

#[export] Instance http : Http := {| http_get := fun _ => Ok (200%Z, page_soup) |}.

(** Two states of the sample generator. *)
Definition fresh_rng : @rng_state random := 0%nat.
Definition used_rng : @rng_state random := 41%nat.

Definition participant : Round1.submission :=
  {| Round1.s_timestamp := "2025-10-16T13:59:00"; Round1.s_email := "a@x.com";
     Round1.s_endpoint := "http://participant/endpoint";
     Round1.s_secret := "s3cret-value" |}.

Definition empty_db : Database := {| tasks := []; repos := []; results := [] |}.

Definition start : Round1.state :=
  {| Round1.db := empty_db; Round1.rng := fresh_rng; Round1.clock := 0;
     Round1.uuids := 0; Round1.net := 0; Round1.slept := [] |}.

(** A round-1 task of the calculator template and a submission for it. *)
Definition calc_task : TaskRow :=
  {| task_timestamp := "2025-10-16T14:05:00"; task_email := "a@x.com";
     task_task := "calculator-ab12c"; task_round := 1; task_nonce := "uuid-0";
     task_brief := brief calculator_round1; task_attachments := [];
     task_checks := default [] (checks calculator_round1);
     task_evaluation_url := Round1.EVALUATION_URL;
     task_endpoint := "http://participant/endpoint";
     task_statuscode := Some 200%Z; task_error := None |}.

Definition calc_repo : RepoRow :=
  {| repo_timestamp := "2025-10-16T15:00:00"; repo_email := "a@x.com";
     repo_task := "calculator-ab12c"; repo_round := 1; repo_nonce := "uuid-0";
     repo_repo_url := "https://github.com/a/calculator-ab12c";
     repo_commit_sha := "0123abc";
     repo_pages_url := "https://a.github.io/calculator-ab12c/" |}.

Definition calc_result (check : string) (score : Q) : ResultRow :=
  {| res_timestamp := "2025-10-16T16:00:00"; res_email := "a@x.com";
     res_task := "calculator-ab12c"; res_round := 1;
     res_repo_url := repo_repo_url calc_repo;
     res_commit_sha := repo_commit_sha calc_repo;
     res_pages_url := repo_pages_url calc_repo;
     res_check := check; res_score := Some score;
     res_reason := Some "recorded"; res_logs := Some EmptyString |}.

Definition graded_db : Database :=
  {| tasks := [calc_task]; repos := [calc_repo];
     results := [calc_result "mit_license" 0] |}.

End Sample.

(** * Properties *)

(** The total of a list of sleeps. *)
Definition sum_Z (l : list Z) : Z := foldr Z.add 0%Z l.

(** ** The notifier *)

Section NotifierProperties.
Import Requests Evaluator.

(** A successful run ended on a POST that got status 200. *)
Lemma notify_loop_success post todo slept :
  success (fst (notify_loop post todo slept)) = true ->
  exists i text,
    i ∈ todo /\ post i = Response 200 text /\
    attempts (fst (notify_loop post todo slept)) = (i + 1)%nat /\
    status_code (fst (notify_loop post todo slept)) = Some 200%Z.
Proof.
  revert slept. induction todo as [|a todo IH]; intros slept; cbn [notify_loop].
  - discriminate.
  - pose proof (IH (slept ++ [delay a])) as Hrec.
    assert (Hin : forall i, i ∈ todo -> i ∈ a :: todo) by (intros; by right).
    destruct (post a) as [st text| |e|e|e] eqn:Hp;
      try (destruct (max_retries <=? a)%nat;
           [discriminate | intros H; destruct (Hrec H) as (i & t & ? & ?); eauto 6]).
    destruct (st =? 200)%Z eqn:Hst.
    + apply Z.eqb_eq in Hst. subst st. intros _. exists a, text.
      repeat split; [by left | done].
    + destruct (max_retries <=? a)%nat;
        [discriminate | intros H; destruct (Hrec H) as (i & t & ? & ?); eauto 6].
Qed.

(** The run against an endpoint that always answers 500, from attempt
    [a] on. *)
Lemma notify_loop_500 (post : nat -> outcome) :
  (forall n, exists text, post n = Response 500 text) ->
  forall k a slept,
    (a + k = 8)%nat -> (0 < k)%nat ->
    posts (snd (notify_loop post (seq a k) slept)) = 8%nat /\
    attempts (fst (notify_loop post (seq a k) slept)) = 8%nat /\
    sleeps (snd (notify_loop post (seq a k) slept))
      = slept ++ map delay (seq a (k - 1)) /\
    success (fst (notify_loop post (seq a k) slept)) = false.
Proof.
  intros H. induction k as [|k IH]; intros a slept Hak Hk; [lia|].
  cbn [seq notify_loop]. destruct (H a) as [t ->].
  change (500 =? 200)%Z with false. cbv iota.
  destruct (max_retries <=? a)%nat eqn:E.
  - apply Nat.leb_le in E. unfold max_retries in E.
    assert (k = 0%nat) by lia. subst k.
    assert (a = 7%nat) by lia. subst a.
    cbn. rewrite app_nil_r. done.
  - apply Nat.leb_gt in E. unfold max_retries in E.
    destruct (IH (S a) (slept ++ [delay a])) as (Hp & Ha & Hs & Hf); [lia..|].
    repeat split; try done.
    rewrite Hs, <- app_assoc. f_equal.
    destruct k as [|k]; [lia|]. cbn. by rewrite Nat.sub_0_r.
Qed.

(** An attempt that gets status 200 ends the run at once. *)
Lemma notify_loop_200 (post : nat -> outcome) a rest slept text :
  post a = Response 200 text ->
  notify_loop post (a :: rest) slept
  = ({| success := true; status_code := Some 200%Z; response := Some text;
        error := None; attempts := a + 1 |},
     {| sleeps := slept; posts := a + 1 |}).
Proof. intros H. cbn [notify_loop]. rewrite H. reflexivity. Qed.

(** C3.  If every POST gets HTTP 500, [notify] makes exactly 8
    attempts, sleeps 1, 2, 4, 8, 16, 32 and 64 seconds between them
    (127 seconds in all, none after the last attempt) and returns
    [success = False]; if the first POST gets HTTP 200 it returns
    [success = True] with [attempts = 1] and does not sleep; and a
    result with [success = True] comes only from a POST that got
    status 200. *)
Theorem notify_retry_bound (post : nat -> outcome) :
  ((forall n, exists text, post n = Response 500 text) ->
     posts (snd (notify post)) = 8%nat /\
     attempts (fst (notify post)) = 8%nat /\
     sleeps (snd (notify post)) = [1; 2; 4; 8; 16; 32; 64]%Z /\
     (1 <= sum_Z (sleeps (snd (notify post))) <= 127)%Z /\
     success (fst (notify post)) = false) /\
  ((exists text, post 0%nat = Response 200 text) ->
     success (fst (notify post)) = true /\
     attempts (fst (notify post)) = 1%nat /\
     posts (snd (notify post)) = 1%nat /\
     sleeps (snd (notify post)) = []) /\
  (success (fst (notify post)) = true ->
     exists i text,
       (i < 8)%nat /\ post i = Response 200 text /\
       attempts (fst (notify post)) = (i + 1)%nat /\
       status_code (fst (notify post)) = Some 200%Z).
Proof.
  split; [|split].
  - intros H. unfold notify.
    destruct (notify_loop_500 post H 8 0 []) as (Hp & Ha & Hs & Hf); [done|lia|].
    change (seq 0 (max_retries + 1)) with (seq 0 8).
    rewrite Hp, Ha, Hs, Hf.
    assert (Hl : [] ++ map delay (seq 0 (8 - 1)) = [1; 2; 4; 8; 16; 32; 64]%Z)
      by (vm_compute; reflexivity).
    rewrite Hl. repeat split; cbn; lia.
  - intros [text H]. unfold notify.
    change (seq 0 (max_retries + 1)) with (0%nat :: seq 1 7).
    rewrite (notify_loop_200 post 0 (seq 1 7) [] text H). cbn. done.
  - intros H. unfold notify in *.
    destruct (notify_loop_success _ _ _ H) as (i & text & Hi & Hp & Ha & Hs).
    exists i, text. repeat split; try done.
    apply elem_of_seq in Hi. cbn in Hi. lia.
Qed.

(** The theorem at an endpoint that always answers 500 and at one that
    answers 200 at once. *)
Lemma notify_retry_bound_witness :
  success (fst (notify (fun _ => Response 500 "Internal Server Error"))) = false /\
  attempts (fst (notify (fun _ => Response 200 "ok"))) = 1%nat.
Proof.
  split.
  - apply (proj1 (notify_retry_bound (fun _ => Response 500 "Internal Server Error"))).
    intros n. exists "Internal Server Error". reflexivity.
  - apply (proj1 (proj2 (notify_retry_bound (fun _ => Response 200 "ok")))).
    exists "ok". reflexivity.
Defined.

End NotifierProperties.
(** ** Dispatch: the retry loop of [post_task_to_student] *)

Section DispatchProperties.
Import Requests World TaskTemplates Db.

(** An outcome the loop retries: a status other than 200, a timeout, a
    connection error or another exception of [requests]. *)
Definition retried (o : outcome) : Prop :=
  match o with
  | Response st _ => st <> 200%Z
  | Timeout | ConnectionError _ | RequestException _ => True
  | OtherException _ => False
  end.

Local Ltac run_posts post :=
  repeat (cbn [Round1.post_loop Round2.post_loop Nat.ltb Nat.leb
               Round1.MAX_RETRIES Round2.MAX_RETRIES Nat.sub Nat.add];
          match goal with
          | |- context [match post ?n with _ => _ end] =>
              let st := fresh "st" in
              destruct (post n) as [st ?| | | |]; [destruct (st =? 200)%Z| | | |]
          end).

(** C9.  Whatever the POSTs do, a run of the retry loop of round1.py,
    and of round2.py, sleeps at most twice, for 60 and then 180
    seconds: the list of its sleeps is a prefix of [60; 180], so 600
    is never slept and the sleeps add up to at most 240 seconds. *)
Theorem dispatch_sleeps_at_most_twice (post : nat -> outcome) :
  let s1 := Round1.sleeps (snd (Round1.post_task_to_student post)) in
  let s2 := Round2.sleeps (snd (Round2.post_task_to_student post)) in
  (s1 `prefix_of` [60; 180]%Z /\ (length s1 <= 2)%nat /\
   (600%Z ∉ s1) /\ (sum_Z s1 <= 240)%Z) /\
  (s2 `prefix_of` [60; 180]%Z /\ (length s2 <= 2)%nat /\
   (600%Z ∉ s2) /\ (sum_Z s2 <= 240)%Z).
Proof.
  assert (Hpre : forall s : list Z,
             s = [] \/ s = [60%Z] \/ s = [60; 180]%Z ->
             s `prefix_of` [60; 180]%Z /\ (length s <= 2)%nat /\
             (600%Z ∉ s) /\ (sum_Z s <= 240)%Z).
  { intros s [-> | [-> | ->]]; (split; [|split; [|split]]);
      try (cbn; lia); try (by eexists);
      rewrite ?elem_of_cons, elem_of_nil; intuition lia. }
  cbn zeta. split; apply Hpre.
  - unfold Round1.post_task_to_student. cbn [seq Round1.MAX_RETRIES].
    run_posts post; cbn; auto.
  - unfold Round2.post_task_to_student. cbn [seq Round2.MAX_RETRIES].
    run_posts post; cbn; auto.
Qed.

(** What the loop returns when the last attempt ends in [o]. *)
Definition exhausted (o : outcome) (r : Exc (Z * option string)) : Prop :=
  match o with
  | Response st text =>
      r = Ok (st, Some ("HTTP " +:+ str_of_Z st +:+ ": " +:+ str_take 200 text))
  | Timeout =>
      r = Ok (0%Z, Some ("Timeout after " +:+ str_of_Z Round1.REQUEST_TIMEOUT +:+ "s"))
  | ConnectionError e | RequestException e =>
      r = Ok (0%Z, Some ("Request error: " +:+ e))
  | OtherException _ => False
  end.

Local Ltac retried_at H post n :=
  let Hn := fresh "Hn" in
  assert (Hn : retried (post n)) by (apply H; lia);
  let st := fresh "st" in
  destruct (post n) as [st ?| | | |] eqn:?; cbn in Hn; try contradiction;
  [apply Z.eqb_neq in Hn; rewrite Hn | | | ];
  cbn [Round1.post_loop Nat.ltb Nat.leb Round1.MAX_RETRIES Nat.sub Nat.add
       Round1.retry_delay Round1.RETRY_DELAYS lookup list_lookup].

Lemma post_first_200 (post : nat -> outcome) (i : nat) (text : string) :
  (i < 3)%nat -> post i = Response 200 text ->
  (forall j, (j < i)%nat -> retried (post j)) ->
  fst (Round1.post_task_to_student post) = Ok (200%Z, None) /\
  Round1.posts (snd (Round1.post_task_to_student post)) = (i + 1)%nat.
Proof.
  intros Hi Hp Hr. unfold Round1.post_task_to_student.
  cbn [seq Round1.MAX_RETRIES Round1.post_loop].
  destruct i as [|[|[|i]]]; [| | |lia].
  - rewrite Hp. cbn. done.
  - retried_at Hr post 0%nat; rewrite Hp; cbn; done.
  - retried_at Hr post 0%nat; retried_at Hr post 1%nat; rewrite Hp; cbn; done.
Qed.

Lemma post_exhausted (post : nat -> outcome) :
  (forall j, (j < 3)%nat -> retried (post j)) ->
  Round1.posts (snd (Round1.post_task_to_student post)) = 3%nat /\
  exhausted (post 2%nat) (fst (Round1.post_task_to_student post)).
Proof.
  intros Hr. unfold Round1.post_task_to_student.
  cbn [seq Round1.MAX_RETRIES Round1.post_loop].
  retried_at Hr post 0%nat; retried_at Hr post 1%nat;
    retried_at Hr post 2%nat; cbn; done.
Qed.

Lemma post_at_most_3 (post : nat -> outcome) :
  (Round1.posts (snd (Round1.post_task_to_student post)) <= 3)%nat.
Proof.
  unfold Round1.post_task_to_student. cbn [seq Round1.MAX_RETRIES].
  run_posts post; cbn; lia.
Qed.

Section Batch.
Context `{Builtins} `{Hashlib} `{Random} `{Env}.
Import Round1.

(** The row [insert_task] writes for [task] with the outcome. *)
Definition row_of (task : task_data) (code : Z) (err : option string) : TaskRow :=
  {| task_timestamp := td_timestamp task; task_email := td_email task;
     task_task := td_task task; task_round := td_round task;
     task_nonce := td_nonce task; task_brief := td_brief task;
     task_attachments := td_attachments task; task_checks := td_checks task;
     task_evaluation_url := td_evaluation_url task;
     task_endpoint := td_endpoint task;
     task_statuscode := Some code; task_error := err |}.

(** A turn whose dispatch fails writes the row with the outcome and
    goes on to the next submission. *)
Lemma failed_dispatch_goes_on sub rest round (st : state) c task g code err tr :
  generate_task sub round (utcnow (clock st)) (uuid4 (uuids st)) (rng st)
    = (Ok task, g) ->
  task_exists (db st) (s_email sub) (td_task task) round = false ->
  nonce_used (db st) (td_nonce task) = false ->
  post_task_to_student
    (fun n => http_post (net st + n) (td_endpoint task) (payload_of task))
    = (Ok (code, err), tr) ->
  code <> 200%Z ->
  exists st' c',
    process_one sub round st c = Next st' c' /\
    tasks (db st') = tasks (db st) ++ [row_of task code err] /\
    Round1.failed c' = S (Round1.failed c) /\
    process_loop (sub :: rest) round st c = process_loop rest round st' c'.
Proof.
  intros Hg Hex Hn Hp Hc.
  assert (Hsub : td_email task = s_email sub /\ td_round task = round).
  { unfold generate_task in Hg.
    destruct (get_random_template _ _) as [[t|e] g1]; [|discriminate].
    destruct (generate _ _ _ _ _) as [[tc|e] g2]; [|discriminate].
    injection Hg as <- _. cbn. split; reflexivity. }
  destruct Hsub as [He Hro].
  cbn [process_loop]. unfold process_one. rewrite Hg, Hex, Hp.
  unfold insert_task. cbn [td_nonce td_email td_task td_round].
  rewrite Hn, He, Hro, Hex. apply Z.eqb_neq in Hc. rewrite Hc.
  eexists _, _. split; [reflexivity|]. cbn. unfold row_of. rewrite He, Hro. done.
Qed.

End Batch.

(** C6.  A dispatch makes at most 3 POSTs; it returns [(200, None)] at
    the first response with status 200; when the three attempts are
    used up it returns the status of the last response, or 0 after a
    timeout or a connection error, with an error text; and a turn of
    the batch loop whose dispatch failed writes that outcome on the
    task row and goes on with the remaining submissions. *)
Theorem dispatch_outcome `{Builtins} `{Hashlib} `{Random} `{Env} :
  (forall post, (Round1.posts (snd (Round1.post_task_to_student post)) <= 3)%nat) /\
  (forall post i text,
      (i < 3)%nat -> post i = Response 200 text ->
      (forall j, (j < i)%nat -> retried (post j)) ->
      fst (Round1.post_task_to_student post) = Ok (200%Z, None) /\
      Round1.posts (snd (Round1.post_task_to_student post)) = (i + 1)%nat) /\
  (forall post,
      (forall j, (j < 3)%nat -> retried (post j)) ->
      Round1.posts (snd (Round1.post_task_to_student post)) = 3%nat /\
      exhausted (post 2%nat) (fst (Round1.post_task_to_student post))) /\
  (forall sub rest round (st : Round1.state) c task g code err tr,
      Round1.generate_task sub round (utcnow (Round1.clock st))
          (uuid4 (Round1.uuids st)) (Round1.rng st) = (Ok task, g) ->
      task_exists (Round1.db st) (Round1.s_email sub) (td_task task) round = false ->
      nonce_used (Round1.db st) (td_nonce task) = false ->
      Round1.post_task_to_student
        (fun n => http_post (Round1.net st + n) (td_endpoint task)
                    (Round1.payload_of task))
        = (Ok (code, err), tr) ->
      code <> 200%Z ->
      exists st' c',
        Round1.process_one sub round st c = Round1.Next st' c' /\
        tasks (Round1.db st') = tasks (Round1.db st) ++ [row_of task code err] /\
        Round1.failed c' = S (Round1.failed c) /\
        Round1.process_loop (sub :: rest) round st c
          = Round1.process_loop rest round st' c').
Proof.
  split; [exact post_at_most_3|].
  split; [exact post_first_200|].
  split; [exact post_exhausted|].
  intros. eapply failed_dispatch_goes_on; eauto.
Qed.

End DispatchProperties.

Section DispatchSample.
Import Requests Sample.

(** The theorem at a server that always answers 500: the dispatch is
    used up, and the turn of the sample participant goes on with one
    failure counted. *)
Lemma dispatch_outcome_witness :
  exhausted (Response 500 "down")
    (fst (Round1.post_task_to_student (fun _ => Response 500 "down"))) /\
  exists st' c',
    Round1.process_one Sample.participant 1 Sample.start
      {| Round1.processed := 0; Round1.skipped := 0; Round1.failed := 0 |}
    = Round1.Next st' c' /\
    Round1.failed c' = 1%nat.
Proof.
  pose proof (@dispatch_outcome Sample.builtins Sample.hashlib Sample.random
                Sample.env) as (_ & _ & H3 & H4).
  split.
  - apply (H3 (fun _ => Response 500 "down")). intros j _. cbn. lia.
  - edestruct (H4 Sample.participant [] 1%Z Sample.start
                 {| Round1.processed := 0; Round1.skipped := 0; Round1.failed := 0 |})
      as (st' & c' & E1 & _ & E3 & _).
    + lazy. reflexivity.
    + lazy. reflexivity.
    + lazy. reflexivity.
    + lazy. reflexivity.
    + cbn. lia.
    + exists st', c'. split; [exact E1 | exact E3].
Defined.

End DispatchSample.
(** ** The generator and the template lineage *)

Section StringFacts.

(** [c in s] for a character. *)
Fixpoint has_char (c : ascii) (s : string) : bool :=
  match s with
  | EmptyString => false
  | String a s' => Ascii.eqb a c || has_char c s'
  end.

Lemma split_nonempty c s : split c s <> [].
Proof.
  destruct s as [|a s]; cbn [split]; [done|].
  destruct (Ascii.eqb a c); [done|]. by destruct (split c s).
Qed.

(** A string without the separator is not split. *)
Lemma split_no_sep c s : has_char c s = false -> split c s = [s].
Proof.
  induction s as [|a s IH]; cbn [split has_char]; [done|].
  intros [Ha Hs]%orb_false_iff. rewrite Ha, (IH Hs). done.
Qed.

(** The last separator of [s ++ c ++ h], where [h] has none, is the
    one written: the parts are those of [s], then [h]. *)
Lemma split_app_sep c s h :
  has_char c h = false ->
  split c (s +:+ String c h) = split c s ++ [h].
Proof.
  intros Hh. induction s as [|a s IH].
  - change (EmptyString +:+ String c h) with (String c h). cbn [split].
    rewrite Ascii.eqb_refl, (split_no_sep _ _ Hh). done.
  - change (String a s +:+ String c h) with (String a (s +:+ String c h)).
    cbn [split]. rewrite IH. destruct (Ascii.eqb a c); [done|].
    pose proof (split_nonempty c s). by destruct (split c s).
Qed.

(** Joining the parts with the separator gives the string back. *)
Lemma join_split c s : join (String c EmptyString) (split c s) = s.
Proof.
  induction s as [|a s IH]; cbn [split join]; [done|].
  pose proof (split_nonempty c s) as Hne.
  destruct (Ascii.eqb a c) eqn:E.
  - apply Ascii.eqb_eq in E. subst a.
    destruct (split c s) as [|h t] eqn:Hs; [done|].
    cbn [join]. cbn. by rewrite <- IH.
  - destruct (split c s) as [|h t] eqn:Hs; [done|].
    rewrite <- IH. destruct t; done.
Qed.

Lemma has_char_take c n s : has_char c s = false -> has_char c (str_take n s) = false.
Proof.
  revert n. induction s as [|a s IH]; intros n; cbn [str_take has_char]; [done|].
  intros [Ha Hs]%orb_false_iff.
  destruct (is_continuation a); [|destruct n as [|n]; [done|]];
    cbn [has_char]; rewrite Ha; by apply IH.
Qed.

Lemma hex_digit_no_dash n : Ascii.eqb (hex_digit n) "-" = false.
Proof.
  unfold hex_digit.
  assert (Hall : Forall (fun a => Ascii.eqb a "-" = false) hex_chars)
    by (repeat constructor).
  destruct (nth_in_or_default n hex_chars "0"%char) as [Hin | ->]; [|done].
  rewrite Forall_forall in Hall. apply Hall. by apply list_elem_of_In.
Qed.

(** A hexadecimal digest holds no ['-']. *)
Lemma hexdigest_no_dash bs : has_char "-" (hexdigest bs) = false.
Proof.
  induction bs as [|b bs IH]; cbn [hexdigest has_char]; [done|].
  by rewrite !hex_digit_no_dash, IH.
Qed.

End StringFacts.

Section TemplateProperties.
Context `{Builtins} `{Hashlib}.
Import TaskTemplates.

(** A template found under an id carries that id. *)
Lemma get_template_id tid t : get_template tid = Some t -> template_id t = tid.
Proof.
  unfold get_template, TEMPLATES. cbn [lookup_template].
  repeat (destruct (String.eqb _ tid) eqn:E;
          [apply String.eqb_eq in E; subst tid; intros [= <-]; reflexivity | clear E]).
  discriminate.
Qed.

(** The id is read back from any task id made of it, in the catalog or
    not. *)
Lemma template_id_read_back tid b atts :
  Round2.get_template_from_task_id (generate_task_id tid b atts) = get_template tid.
Proof.
  unfold Round2.get_template_from_task_id, generate_task_id.
  change (tid +:+ "-" +:+ ?h) with (tid +:+ String "-" h).
  rewrite split_app_sep by apply has_char_take, hexdigest_no_dash.
  unfold init. rewrite removelast_last, length_app, join_split.
  pose proof (split_nonempty "-" tid).
  destruct (split "-" tid); [done|]. cbn [length]. 
  replace (2 <=? S (length l) + length [str_take 5 (hexdigest (sha256 (b +:+ repr_dicts atts)))])%nat
    with true; [done|].
  symmetry. apply Nat.leb_le. cbn. lia.
Qed.

(** C7.  For a template id of the catalog, and any brief and
    attachments, splitting the generated task id at its last ['-'] finds
    the template of that id: the five characters after it are
    hexadecimal digits, so the id may itself hold ['-']. *)
Theorem template_round_trip (tid b : string) (atts : list dict) (t : TaskTemplate) :
  get_template tid = Some t ->
  Round2.get_template_from_task_id (generate_task_id tid b atts) = Some t /\
  template_id t = tid.
Proof.
  intros Ht. split.
  - by rewrite template_id_read_back.
  - by apply get_template_id.
Qed.

End TemplateProperties.

Section TemplateSample.
Import TaskTemplates Sample.

(** The round trip for ['image-viewer'], an id with a ['-'] in it. *)
Lemma template_round_trip_witness :
  Round2.get_template_from_task_id
    (generate_task_id "image-viewer" (brief image_viewer_round1)
       (default [] (attachments image_viewer_round1)))
  = Some image_viewer /\
  template_id image_viewer = "image-viewer".
Proof.
  apply (template_round_trip "image-viewer" (brief image_viewer_round1)
           (default [] (attachments image_viewer_round1)) image_viewer).
  reflexivity.
Defined.

End TemplateSample.

Section GeneratorProperties.
Context `{Builtins} `{Hashlib} `{Random}.
Import World TaskTemplates Db Round1.

(** The draw of the template does not depend on the state the generator
    was in: [get_random_template] reseeds it. *)
Lemma get_random_template_reseeds s (g1 g2 : rng_state) :
  get_random_template s g1 = get_random_template s g2.
Proof. reflexivity. Qed.

(** Nor does the content [generate] makes. *)
Lemma generate_reseeds t round email timestamp (g1 g2 : rng_state) :
  generate t round email timestamp g1 = generate t round email timestamp g2.
Proof. reflexivity. Qed.

(** Two tasks agree on what the generator decides. *)
Definition same_content (r1 r2 : Exc task_data) : Prop :=
  match r1, r2 with
  | Ok t1, Ok t2 =>
      td_brief t1 = td_brief t2 /\ td_attachments t1 = td_attachments t2 /\
      td_checks t1 = td_checks t2 /\ td_task t1 = td_task t2
  | Raise e1, Raise e2 => e1 = e2
  | _, _ => False
  end.

(** C2.  Two runs of the round-1 task generation for the same email in
    the same hour make the same brief, attachments, checks and task id,
    whatever the state of the generator before each run, the minute of
    the clock, the other fields of the submission and the nonces drawn
    (which need not agree); they also leave the generator in the same
    state. *)
Theorem generate_task_deterministic
    (sub1 sub2 : submission) (dt1 dt2 : datetime) (nonce1 nonce2 : string)
    (g1 g2 : rng_state) :
  s_email sub1 = s_email sub2 ->
  strftime_hour dt1 = strftime_hour dt2 ->
  same_content (fst (generate_task sub1 1 dt1 nonce1 g1))
               (fst (generate_task sub2 1 dt2 nonce2 g2)) /\
  snd (generate_task sub1 1 dt1 nonce1 g1) = snd (generate_task sub2 1 dt2 nonce2 g2).
Proof.
  intros He Hh. unfold generate_task. rewrite He, Hh.
  rewrite (get_random_template_reseeds _ g1 g2).
  destruct (get_random_template _ g2) as [[t|e] g]; [|done].
  destruct (generate t 1 (s_email sub2) (strftime_hour dt2) g) as [[tc|e] g']; done.
Qed.

End GeneratorProperties.

Section GeneratorSample.
Import World TaskTemplates Db Round1 Sample.

(** Two runs for a@x.com in the hour 2025-10-16-14, from different
    generator states, at different minutes, with different nonces. *)
Lemma generate_task_deterministic_witness :
  same_content
    (fst (generate_task participant 1 (utcnow 0) "uuid-0" fresh_rng))
    (fst (generate_task participant 1
            {| isoformat := "2025-10-16T14:59:59"; strftime_hour := "2025-10-16-14" |}
            "uuid-1" used_rng)).
Proof.
  apply (generate_task_deterministic participant participant (utcnow 0)
           {| isoformat := "2025-10-16T14:59:59"; strftime_hour := "2025-10-16-14" |}
           "uuid-0" "uuid-1" fresh_rng used_rng);
    reflexivity.
Defined.

(** The sample run does return a task, drawn from the quiz template. *)
Example generate_task_sample :
  match fst (generate_task participant 1 (utcnow 0) "uuid-0" fresh_rng) with
  | Ok t => td_task t = "quiz-app-ab12c"
  | Raise _ => False
  end.
Proof. vm_compute. reflexivity. Qed.

End GeneratorSample.

(** ** The submission endpoint *)

Section EndpointProperties.
Import Db ApiServer.

(** The task the nonce of a request resolves to differs from it in the
    email, the task id or the round. *)
Definition mismatch (t : TaskRow) (request : EvaluationRequest) : Prop :=
  task_email t <> email request \/ task_task t <> task request \/
  task_round t <> round request.

(** C4.  A request whose nonce resolves to no task, or to a task with
    another email, task id or round, is answered with an HTTP 400 and
    leaves the database as it was: no row is inserted into [repos]. *)
Theorem submission_integrity (now : string) (request : EvaluationRequest)
    (db : Database) :
  (get_task_by_nonce db (nonce request) = None \/
   exists t, get_task_by_nonce db (nonce request) = Some t /\ mismatch t request) ->
  exists detail,
    evaluation_endpoint now request db = (HTTPException 400 detail, db) /\
    repos (snd (evaluation_endpoint now request db)) = repos db.
Proof.
  unfold evaluation_endpoint.
  intros [-> | (t & -> & Hm)]; [eexists; split; reflexivity|].
  destruct (String.eqb (task_email t) (email request)) eqn:E1; cbn [negb];
    [|eexists; split; reflexivity].
  destruct (String.eqb (task_task t) (task request)) eqn:E2; cbn [negb];
    [|eexists; split; reflexivity].
  destruct (task_round t =? round request)%Z eqn:E3; cbn [negb];
    [|eexists; split; reflexivity].
  apply String.eqb_eq in E1, E2. apply Z.eqb_eq in E3.
  destruct Hm as [Hm | [Hm | Hm]]; contradiction.
Qed.

End EndpointProperties.

Section EndpointSample.
Import Db ApiServer Sample.

(** Another participant sends the nonce of the task of a@x.com. *)
Definition spoofed : EvaluationRequest :=
  {| email := "mallory@x.com"; task := "calculator-ab12c"; round := 1;
     nonce := "uuid-0"; repo_url := "https://github.com/m/calc";
     commit_sha := "fedcba9"; pages_url := "https://m.github.io/calc/" |}.

Lemma submission_integrity_witness :
  exists detail,
    evaluation_endpoint "2025-10-16T17:00:00" spoofed graded_db
      = (HTTPException 400 detail, graded_db) /\
    repos (snd (evaluation_endpoint "2025-10-16T17:00:00" spoofed graded_db))
      = repos graded_db.
Proof.
  apply (submission_integrity "2025-10-16T17:00:00" spoofed graded_db).
  right. exists calc_task. split; [reflexivity|].
  left. cbn. discriminate.
Defined.

End EndpointSample.

(** ** The evaluation loop *)

Section LoopProperties.
Context `{Db.Sqlite}.
Import Db Evaluate.
Variable evaluate_repo : RepoRow -> Database -> Exc (list result_data).
Variable now : string.

(** The repo has been evaluated: some row of [results] has its key. *)
Definition evaluated_in (db : Database) (repo : RepoRow) : Prop :=
  result_exists db (repo_email repo) (repo_task repo) (repo_round repo) = true.

Lemma evaluate_one_guard db repo t :
  evaluated_in db repo -> evaluate_one evaluate_repo now repo db t = (db, t).
Proof. unfold evaluated_in, evaluate_one. by intros ->. Qed.

Lemma evaluate_all_guard db repos t :
  Forall (evaluated_in db) repos ->
  evaluate_all evaluate_repo now repos db t = (db, t).
Proof.
  induction 1 as [|repo repos Hr _ IH]; cbn [evaluate_all]; [done|].
  by rewrite evaluate_one_guard.
Qed.

(** With [--round], the repos to evaluate are already those without a
    result. *)
Lemma without_results_nil db round :
  Forall (evaluated_in db) (repos db) -> get_repos_without_results db round = [].
Proof.
  unfold get_repos_without_results, evaluated_in.
  induction 1 as [|repo l Hr _ IH]; [done|].
  rewrite filter_cons_False, IH; [done|].
  rewrite Hr, andb_false_r. done.
Qed.

(** C5.  A repo for which a row of [results] exists is skipped by the
    evaluation loop: its turn leaves the database and the counters as
    they were; so does a pass over any list of such repos, and so does
    [main], with or without [--round], once every repo has a result. *)
Theorem single_evaluation (db : Database) :
  (forall repo t,
      evaluated_in db repo -> evaluate_one evaluate_repo now repo db t = (db, t)) /\
  (forall repos t,
      Forall (evaluated_in db) repos ->
      evaluate_all evaluate_repo now repos db t = (db, t)) /\
  (forall round_filter,
      Forall (evaluated_in db) (repos db) ->
      main evaluate_repo now round_filter db = (db, {| evaluated := 0; failed := 0 |})).
Proof.
  split; [|split].
  - intros. by apply evaluate_one_guard.
  - intros. by apply evaluate_all_guard.
  - intros rf Hall. unfold main.
    destruct rf as [r|]; [destruct (r =? 0)%Z|].
    + by apply evaluate_all_guard.
    + by rewrite without_results_nil.
    + by apply evaluate_all_guard.
Qed.

End LoopProperties.

Section LoopSample.
Import Db Evaluate Sample.

(** An evaluator that would report a failed page load for every repo. *)
Definition reporting (repo : RepoRow) (_ : Database) : Exc (list result_data) :=
  Ok [ {| rd_timestamp := Some "2025-10-16T18:00:00";
          rd_email := Some (repo_email repo); rd_task := Some (repo_task repo);
          rd_round := Some (repo_round repo);
          rd_repo_url := Some (repo_repo_url repo);
          rd_commit_sha := Some (repo_commit_sha repo);
          rd_pages_url := Some (repo_pages_url repo);
          rd_check := Some "page_load"; rd_score := Some 0%Q;
          rd_reason := Some "Page failed to load: timeout";
          rd_logs := Some EmptyString |} ].

(** The graded sample database is left alone by a second pass. *)
Lemma single_evaluation_witness :
  main reporting "2025-10-16T18:00:00" None graded_db
  = (graded_db, {| evaluated := 0; failed := 0 |}).
Proof.
  apply (proj2 (proj2 (single_evaluation reporting "2025-10-16T18:00:00" graded_db))).
  repeat constructor.
Defined.

End LoopSample.

(** ** Eligibility for round 2 *)

Section EligibilityProperties.
Import Db Round2.

(** A round-1 result of [email]. *)
Definition round1_result_of (email : string) (r : ResultRow) : Prop :=
  res_email r = email /\ res_round r = 1%Z.

(** A result named ['mit_license'] or ['page_load'] with score 0. *)
Definition failed_critical (r : ResultRow) : Prop :=
  (res_check r = "mit_license" \/ res_check r = "page_load") /\
  exists q, res_score r = Some q /\ (q == 0)%Q.

Lemma critical_failure_iff r : critical_failure r = true <-> failed_critical r.
Proof.
  unfold critical_failure, failed_critical, critical_checks. cbn [existsb].
  rewrite andb_true_iff, !orb_true_iff, !String.eqb_eq. split.
  - intros [Hc Hs]. split.
    { destruct Hc as [Hc | [Hc | Hc]]; [by left | by right | discriminate]. }
    destruct (res_score r) as [q|]; [|discriminate].
    exists q. split; [done|]. by apply Qeq_bool_iff.
  - intros [Hc (q & Hq & H0)]. split.
    { destruct Hc; [by left | right; by left]. }
    rewrite Hq. by apply Qeq_bool_iff.
Qed.

(** With a non-empty email, [get_results] filters on it. *)
Lemma get_results_of db email r :
  email <> EmptyString ->
  r ∈ get_results db (Some email) (Some 1%Z) <->
  r ∈ results db /\ round1_result_of email r.
Proof.
  intros He. unfold get_results, round1_result_of.
  rewrite list_elem_of_filter.
  destruct (String.eqb email EmptyString) eqn:E;
    [apply String.eqb_eq in E; contradiction|].
  rewrite andb_true_iff, String.eqb_eq, Z.eqb_eq. tauto.
Qed.

Lemma existsb_elem_of {A} (f : A -> bool) (l : list A) :
  existsb f l = true <-> exists x, x ∈ l /\ f x = true.
Proof.
  rewrite existsb_exists. split; intros (x & Hx & Hf); exists x;
    (split; [by apply list_elem_of_In | done]).
Qed.

(** The decision once no round-2 task and no round-2 repo stands in the
    way; it holds for any email, empty or not. *)
Lemma should_generate_round2_false repo db :
  task_exists db (repo_email repo) (repo_task repo) 2 = false ->
  repo_exists db (repo_email repo) (repo_task repo) 2 = false ->
  should_generate_round2 repo db = false <->
  exists r, r ∈ get_results db (Some (repo_email repo)) (Some 1%Z) /\
            critical_failure r = true.
Proof.
  intros Ht Hr. unfold should_generate_round2. rewrite Ht, Hr.
  destruct (get_results db _ _) as [|r0 rs] eqn:E.
  - split; [discriminate|]. intros (r & Hr' & _). by apply elem_of_nil in Hr'.
  - rewrite negb_false_iff. apply existsb_elem_of.
Qed.

(** Whatever the email, a blocking result is a round-1 result of the
    ledger. *)
Lemma blocking_result_in_ledger db email r :
  r ∈ get_results db (Some email) (Some 1%Z) ->
  r ∈ results db /\ res_round r = 1%Z.
Proof.
  unfold get_results. rewrite list_elem_of_filter.
  intros [[_ Hr]%andb_true_iff Hin]. split; [done | by apply Z.eqb_eq].
Qed.

(** A record of [repos] as the code receives it.  The only writer of
    the table is the endpoint, which stores the email of its request,
    an [EmailStr]: an address that passed validation, so not the empty
    string. *)
Definition repo_record (repo : RepoRow) : Prop := repo_email repo <> EmptyString.

(** C10.  For a round-1 repo record with no round-2 task and no
    round-2 repo for its (email, task): when the ledger has no round-1
    result for that email the decision is [True]; round 2 is blocked
    only when some round-1 result named ['mit_license'] or
    ['page_load'] has score 0, and this holds of any row, a record or
    not; for a record the blocking result is one of its own email, and
    the decision is [False] exactly when there is such a result. *)
Theorem round2_eligibility (repo : RepoRow) (db : Database) :
  task_exists db (repo_email repo) (repo_task repo) 2 = false ->
  repo_exists db (repo_email repo) (repo_task repo) 2 = false ->
  (repo_record repo ->
   (forall r, r ∈ results db -> ~ round1_result_of (repo_email repo) r) ->
   should_generate_round2 repo db = true) /\
  (should_generate_round2 repo db = false ->
   exists r, r ∈ results db /\ res_round r = 1%Z /\ failed_critical r) /\
  (repo_record repo ->
   (should_generate_round2 repo db = false <->
    exists r, r ∈ results db /\ round1_result_of (repo_email repo) r /\
              failed_critical r)).
Proof.
  intros Ht Hr.
  pose proof (should_generate_round2_false repo db Ht Hr) as Hf.
  assert (Hiff : repo_record repo ->
                 (should_generate_round2 repo db = false <->
                  exists r, r ∈ results db /\ round1_result_of (repo_email repo) r /\
                            failed_critical r)).
  { intros He. rewrite Hf. split.
    - intros (r & Hin & Hc). exists r.
      apply get_results_of in Hin as [Hin Hof]; [|done].
      by rewrite <- critical_failure_iff.
    - intros (r & Hin & Hof & Hc). exists r. split.
      + by apply get_results_of.
      + by apply critical_failure_iff. }
  split; [|split; [|exact Hiff]].
  - intros He Hnone. destruct (should_generate_round2 repo db) eqn:E; [done|].
    destruct (proj1 (Hiff He) eq_refl) as (r & Hin & Hof & _).
    by destruct (Hnone r Hin).
  - intros (r & Hin & Hc)%Hf. apply blocking_result_in_ledger in Hin as [Hin Hr1].
    exists r. by rewrite <- critical_failure_iff.
Qed.

End EligibilityProperties.

Section EligibilitySample.
Import Db Round2 Sample.

(** A repo of b@x.com, whose ledger holds results of a@x.com only. *)
Definition other_repo : RepoRow :=
  {| repo_timestamp := "2025-10-16T15:30:00"; repo_email := "b@x.com";
     repo_task := "todo-list-ab12c"; repo_round := 1; repo_nonce := "uuid-1";
     repo_repo_url := "https://github.com/b/todo-list-ab12c";
     repo_commit_sha := "89abcde";
     repo_pages_url := "https://b.github.io/todo-list-ab12c/" |}.

Lemma round2_eligibility_witness :
  should_generate_round2 other_repo graded_db = true /\
  should_generate_round2 calc_repo graded_db = false.
Proof.
  split.
  - apply (round2_eligibility other_repo graded_db); [done..|].
    intros r [->|[]%elem_of_nil]%elem_of_cons [Hm _]. discriminate Hm.
  - apply (proj2 (proj2 (round2_eligibility calc_repo graded_db eq_refl eq_refl)));
      [done|].
    exists (calc_result "mit_license" 0). split; [by left|].
    split; [done|]. split; [by left|]. by exists 0%Q.
Defined.

End EligibilitySample.

(** ** The check engine *)

Section EngineProperties.
Context `{Builtins} `{Evaluate.Playwright}.
Import Db Evaluate.
#[local] Existing Instances M_ret M_bind.

(** A score on the scale of the results. *)
Definition score_ok (r : result) : Prop := (0 <= r_score r <= 1)%Q.

(** The types of check the engine knows. *)
Definition supported (check : dict) : bool :=
  let check_type := dict_get_default check "type" (VStr EmptyString) in
  is_type check_type "element_exists" || is_type check_type "button_exists"
  || is_type check_type "click_interaction" || is_type check_type "responsive_check".

(** The types the static backend cannot run. *)
Definition needs_browser (check : dict) : bool :=
  let check_type := dict_get_default check "type" (VStr EmptyString) in
  is_type check_type "responsive_check" || is_type check_type "click_interaction".

(** What a computation on the page returns, when it returns. *)
Definition returns {A} (m : M A) (Q : A -> Prop) : Prop :=
  forall p a p', m p = (Ok a, p') -> Q a.

Lemma returns_ret {A} (a : A) (Q : A -> Prop) : Q a -> returns (mret a) Q.
Proof. intros Ha p a' p' [= <- _]. exact Ha. Qed.

Lemma returns_bind {A B} (m : M A) (k : A -> M B) (Q : B -> Prop) :
  (forall a, returns (k a) Q) -> returns (m ≫= k) Q.
Proof.
  intros Hk p b p'. unfold mbind, M_bind.
  destruct (m p) as [[a|e] p1]; [|discriminate]. apply Hk.
Qed.

Lemma returns_bind_with {A B} (m : M A) (k : A -> M B) (P : A -> Prop)
    (Q : B -> Prop) :
  returns m P -> (forall a, P a -> returns (k a) Q) -> returns (m ≫= k) Q.
Proof.
  intros Hm Hk p b p'. unfold mbind, M_bind.
  destruct (m p) as [[a|e] p1] eqn:E; [|discriminate]. apply Hk. by eapply Hm.
Qed.

Lemma returns_try {A} (m : M A) (h : string -> M A) (Q : A -> Prop) :
  returns m Q -> (forall e, returns (h e) Q) -> returns (try_M m h) Q.
Proof.
  intros Hm Hh p a p'. unfold try_M.
  destruct (m p) as [[a'|e] p1] eqn:E.
  - intros [= <- <-]. by eapply Hm.
  - apply Hh.
Qed.

Lemma score_ok_literal repo check (q : Q) reason logs :
  (0 <= q <= 1)%Q -> score_ok (_create_result repo check q reason logs).
Proof. done. Qed.

Local Ltac literal_score :=
  apply returns_ret, score_ok_literal; split; unfold Qle; cbn; lia.

Local Ltac step :=
  first [ apply returns_bind; intros ?
        | apply returns_try; [|intros ?]
        | literal_score ].

Lemma element_exists_score check repo :
  returns (_check_element_exists check repo) score_ok.
Proof.
  unfold _check_element_exists. repeat step.
  match goal with |- context [if ?b then _ else _] => destruct b end; literal_score.
Qed.

Lemma button_loop_score texts text_options repo :
  returns (button_loop texts text_options repo) score_ok.
Proof.
  induction texts as [|text rest IH]; cbn [button_loop]; [literal_score|].
  step. destruct a; [repeat step | exact IH].
Qed.

Lemma button_exists_score check repo :
  returns (_check_button_exists check repo) score_ok.
Proof.
  unfold _check_button_exists. step; [|literal_score].
  step. apply button_loop_score.
Qed.

Lemma click_interaction_score check repo :
  returns (_check_click_interaction check repo) score_ok.
Proof.
  unfold _check_click_interaction. step; [|literal_score].
  step. destruct a; [|literal_score].
  do 3 step. destruct (contains _ _); [|literal_score].
  step. destruct a2; [|literal_score].
  step. destruct a2; literal_score.
Qed.

(** Every score the responsive loop appends is 0 or 1. *)
Definition unit_score (q : Q) : Prop := q = 0%Q \/ q = 1%Q.

Lemma responsive_loop_scores widths scores :
  Forall unit_score scores ->
  returns (responsive_loop widths scores) (Forall unit_score).
Proof.
  revert scores. induction widths as [|w rest IH]; intros scores Hs;
    cbn [responsive_loop].
  - by apply returns_ret.
  - do 3 step. destruct a1 as [b|]; [|by apply IH].
    step. destruct a1 as [wd|].
    + destruct (Qlt_le_dec 0 wd); apply IH, Forall_app; (split; [done|]);
        apply Forall_singleton; [by right | by left].
    + apply IH, Forall_app. split; [done|]. apply Forall_singleton. by left.
Qed.

Lemma sum_scores_bounds scores :
  Forall unit_score scores ->
  (0 <= sum_scores scores <= inject_Z (Z.of_nat (length scores)))%Q.
Proof.
  induction 1 as [|q l Hq _ IH]; [done|].
  cbn [sum_scores foldr length]. fold (sum_scores l).
  rewrite Nat2Z.inj_succ, <- Z.add_1_l, inject_Z_plus.
  destruct IH as [IH0 IH1]. destruct Hq as [-> | ->].
  - split.
    + rewrite Qplus_0_l. done.
    + rewrite Qplus_0_l. eapply Qle_trans; [exact IH1|].
      rewrite <- (Qplus_0_l (inject_Z (Z.of_nat (length l)))) at 1.
      apply Qplus_le_compat; [done | apply Qle_refl].
  - split.
    + change 0%Q with (0 + 0)%Q. apply Qplus_le_compat; done.
    + apply Qplus_le_compat; [apply Qle_refl | done].
Qed.

(** The average of such scores is between 0 and 1. *)
Lemma avg_score_bounds scores :
  Forall unit_score scores -> (0 <= avg_score scores <= 1)%Q.
Proof.
  intros Hs. destruct scores as [|q l]; [done|].
  pose proof (sum_scores_bounds _ Hs) as [Hlo Hhi].
  unfold avg_score.
  assert (Hpos : (0 < inject_Z (Z.of_nat (length (q :: l))))%Q).
  { change 0%Q with (inject_Z 0). rewrite <- Zlt_Qlt. cbn [length]. lia. }
  split.
  - apply Qle_shift_div_l; [done|]. by rewrite Qmult_0_l.
  - apply Qle_shift_div_r; [done|]. by rewrite Qmult_1_l.
Qed.

Lemma responsive_score check repo :
  returns (_check_responsive check repo) score_ok.
Proof.
  unfold _check_responsive. step; [|literal_score].
  step. eapply returns_bind_with; [apply responsive_loop_scores; constructor|].
  intros scores Hs. apply returns_ret, score_ok_literal, avg_score_bounds, Hs.
Qed.

(** *** One check *)

Lemma is_type_true v name : is_type v name = true -> v = VStr name.
Proof.
  destruct v as [s| |]; cbn; try discriminate.
  by intros ->%String.eqb_eq.
Qed.

Local Ltac decide_types :=
  repeat match goal with
    | |- context [is_type (VStr ?a) ?b] =>
        let v := eval vm_compute in (is_type (VStr a) b) in
        change (is_type (VStr a) b) with v
    end;
  cbn [orb andb].

(** What one check gives: a result with a score on the scale for a type
    the engine knows, nothing for any other. *)
Definition one_result (check : dict) (o : option result) : Prop :=
  if supported check then exists r, o = Some r /\ score_ok r else o = None.

Lemma returns_some (m : M result) :
  returns m score_ok ->
  returns (r ← m; mret (Some r)) (fun o => exists r, o = Some r /\ score_ok r).
Proof.
  intros Hm. eapply returns_bind_with; [exact Hm|].
  intros r Hr. apply returns_ret. eauto.
Qed.

Lemma dispatch_returns check repo :
  returns (dispatch (dict_get_default check "type" (VStr EmptyString)) check repo)
          (one_result check).
Proof.
  unfold dispatch, one_result, supported.
  destruct (is_type _ "element_exists") eqn:E1;
    [apply returns_some, element_exists_score|].
  destruct (is_type _ "button_exists") eqn:E2;
    [apply returns_some, button_exists_score|].
  destruct (is_type _ "click_interaction") eqn:E3;
    [apply returns_some, click_interaction_score|].
  destruct (is_type _ "responsive_check") eqn:E4;
    [apply returns_some, responsive_score|].
  by apply returns_ret.
Qed.

Lemma dispatch_unsupported check repo :
  supported check = false ->
  dispatch (dict_get_default check "type" (VStr EmptyString)) check repo = mret None.
Proof.
  unfold supported, dispatch.
  intros [[[-> ->]%orb_false_iff ->]%orb_false_iff ->]%orb_false_iff. done.
Qed.

(** [_run_single_check] never raises. *)
Lemma run_single_check_total check repo p :
  exists o p', _run_single_check check repo p = (Ok o, p').
Proof.
  unfold _run_single_check, try_M.
  destruct (dispatch _ check repo p) as [[o|e] p1]; eauto.
Qed.

(** An exception that leaves the dispatch becomes a result with score
    0 and the text of the exception. *)
Lemma run_single_check_catches check repo p e p' :
  dispatch (dict_get_default check "type" (VStr EmptyString)) check repo p
    = (Raise e, p') ->
  exists r,
    _run_single_check check repo p = (Ok (Some r), p') /\
    r_score r = 0%Q /\ r_reason r = "Error: " +:+ e.
Proof.
  intros Hd. unfold _run_single_check, try_M. rewrite Hd.
  eexists. split; [reflexivity|]. done.
Qed.

Lemma run_single_check_spec check repo p o p' :
  _run_single_check check repo p = (Ok o, p') -> one_result check o.
Proof.
  unfold _run_single_check, try_M.
  destruct (dispatch _ check repo p) as [[o1|e] p1] eqn:Hd.
  - intros [= <- <-]. by eapply dispatch_returns.
  - intros [= <- <-]. unfold one_result.
    destruct (supported check) eqn:Hs.
    + eexists. split; [reflexivity|]. split; unfold Qle; cbn; lia.
    + rewrite dispatch_unsupported in Hd by done. discriminate.
Qed.

Lemma run_single_check_unsupported check repo p :
  supported check = false -> _run_single_check check repo p = (Ok None, p).
Proof.
  intros Hs. unfold _run_single_check, try_M.
  by rewrite dispatch_unsupported.
Qed.

(** *** The loop over the checks *)

(** The number of checks of a type the engine knows. *)
Definition supported_count (checks : list dict) : nat :=
  length (filter (fun c => supported c = true) checks).

Lemma supported_count_cons c checks :
  supported_count (c :: checks)
  = ((if supported c then 1 else 0) + supported_count checks)%nat.
Proof.
  unfold supported_count. rewrite filter_cons.
  destruct (supported c); by case_decide.
Qed.

(** The loop never raises; it keeps the results it had and adds one
    for each check of a known type, in order. *)
Lemma check_loop_spec checks repo acc p :
  exists rs p',
    check_loop checks repo acc p = (Ok (), acc ++ rs, p') /\
    length rs = supported_count checks /\ Forall score_ok rs.
Proof.
  revert acc p. induction checks as [|c checks IH]; intros acc p; cbn [check_loop].
  - exists [], p. by rewrite app_nil_r.
  - destruct (run_single_check_total c repo p) as (o & p1 & Ho). rewrite Ho.
    apply run_single_check_spec in Ho. unfold one_result in Ho.
    rewrite supported_count_cons.
    destruct (supported c).
    + destruct Ho as (r & -> & Hr).
      destruct (IH (acc ++ [r]) p1) as (rs & p' & -> & Hl & Hs).
      exists (r :: rs), p'. rewrite <- app_assoc. cbn. by rewrite Hl; auto.
    + subst o. destruct (IH acc p1) as (rs & p' & -> & Hl & Hs).
      exists rs, p'. done.
Qed.

End EngineProperties.

Section StaticProperties.
Context `{Builtins}.
Import Db Evaluate.

Local Ltac decide_types :=
  repeat match goal with
    | |- context [is_type (VStr ?a) ?b] =>
        let v := eval vm_compute in (is_type (VStr a) b) in
        change (is_type (VStr a) b) with v
    end;
  cbn [orb andb].

Local Ltac cases :=
  unfold mbind, exc_bind, mret, exc_ret, try_except;
  repeat match goal with
    | |- context [match ?x with _ => _ end] =>
        lazymatch x with
        | context [match _ with _ => _ end] => fail
        | _ => destruct x
        end
    end.

Local Ltac scored :=
  eexists; split; [reflexivity|]; split;
  [ eexists; split; [reflexivity | split; unfold Qle; cbn; lia]
  | first [ discriminate | intros _; eexists; split; reflexivity ] ].

(** The static backend: one check never raises, gives one result on
    the scale for a type the engine knows and none for another, and
    gives the score 0.5 for a type that needs the browser. *)
Lemma http_run_single_check_spec s check repo :
  exists o,
    _http_run_single_check s check repo = Ok o /\
    one_result check o /\
    (needs_browser check = true -> exists r, o = Some r /\ r_score r = (1 # 2)%Q).
Proof.
  unfold _http_run_single_check, http_dispatch, one_result, supported, needs_browser.
  remember (dict_get_default check "type" (VStr EmptyString)) as ty eqn:Hty.
  clear Hty.
  destruct (is_type ty "element_exists") eqn:E1;
    [apply is_type_true in E1; subst ty; decide_types; cases; scored|].
  destruct (is_type ty "button_exists") eqn:E2;
    [apply is_type_true in E2; subst ty; decide_types; cases; scored|].
  destruct (is_type ty "responsive_check") eqn:E3;
    [apply is_type_true in E3; subst ty; decide_types; cases; scored|].
  destruct (is_type ty "click_interaction") eqn:E4;
    [apply is_type_true in E4; subst ty; decide_types; cases; scored|].
  cbn. eexists. split; [reflexivity|]. split; [reflexivity | discriminate].
Qed.

Lemma http_loop_spec s checks repo acc :
  exists rs,
    http_loop s checks repo acc = (Ok (), acc ++ rs) /\
    length rs = supported_count checks /\ Forall score_ok rs.
Proof.
  revert acc. induction checks as [|c checks IH]; intros acc; cbn [http_loop].
  - exists []. by rewrite app_nil_r.
  - destruct (http_run_single_check_spec s c repo) as (o & -> & Ho & _).
    unfold one_result in Ho. rewrite supported_count_cons.
    destruct (supported c).
    + destruct Ho as (r & -> & Hr).
      destruct (IH (acc ++ [r])) as (rs & -> & Hl & Hs).
      exists (r :: rs). rewrite <- app_assoc. cbn. by rewrite Hl; auto.
    + subst o. destruct (IH acc) as (rs & -> & Hl & Hs). by exists rs.
Qed.

End StaticProperties.

Section BackendProperties.
Context `{Builtins} `{Evaluate.Playwright} `{Evaluate.Http}.
Import Db Evaluate.

(** The engine on a page that loads, under each backend: as many
    results as checks of a known type, each with a score on the scale. *)
Lemma run_playwright_checks_interactive db repo url task p0 p1 :
  get_task_by_nonce db (repo_nonce repo) = Some task ->
  PLAYWRIGHT_AVAILABLE = true -> launch = Ok p0 -> goto url p0 = (GotoOk, p1) ->
  length (run_playwright_checks db repo url) = supported_count (task_checks task) /\
  Forall score_ok (run_playwright_checks db repo url).
Proof.
  intros Ht Ha Hl Hg. unfold run_playwright_checks. rewrite Ht, Ha, Hl, Hg.
  destruct (check_loop_spec (task_checks task) repo [] p1) as (rs & p' & -> & ? & ?).
  done.
Qed.

Lemma run_playwright_checks_static db repo url task s :
  get_task_by_nonce db (repo_nonce repo) = Some task ->
  (PLAYWRIGHT_AVAILABLE = false \/ exists e, launch = Raise e) ->
  http_get url = Ok (200%Z, s) ->
  length (run_playwright_checks db repo url) = supported_count (task_checks task) /\
  Forall score_ok (run_playwright_checks db repo url).
Proof.
  intros Ht Hb Hg. unfold run_playwright_checks. rewrite Ht.
  assert (Hf : length (_http_fallback_checks url (task_checks task) repo)
               = supported_count (task_checks task) /\
               Forall score_ok (_http_fallback_checks url (task_checks task) repo)).
  { unfold _http_fallback_checks. rewrite Hg. cbn [negb Z.eqb Pos.eqb].
    destruct (http_loop_spec s (task_checks task) repo []) as (rs & -> & ? & ?).
    done. }
  destruct Hb as [-> | [e He]]; [done|].
  rewrite He. by destruct PLAYWRIGHT_AVAILABLE.
Qed.

(** C1, amended.  For every repo and list of checks, each backend gives
    exactly one result for each check whose type is [element_exists],
    [button_exists], [click_interaction] or [responsive_check], and none
    for a check of any other type; every result has its score between
    0 and 1; under the static backend a check of type [responsive_check]
    or [click_interaction] gets the score 0.5; and on a page that loads
    the engine returns these results, whichever backend runs. *)
Theorem one_result_per_known_check (repo : RepoRow) (checks : list dict) :
  (forall p, exists rs p',
      check_loop checks repo [] p = (Ok (), rs, p') /\
      length rs = supported_count checks /\ Forall score_ok rs) /\
  (forall s, exists rs,
      http_loop s checks repo [] = (Ok (), rs) /\
      length rs = supported_count checks /\ Forall score_ok rs) /\
  (forall s check,
      needs_browser check = true ->
      exists r, _http_run_single_check s check repo = Ok (Some r) /\
                r_score r = (1 # 2)%Q) /\
  (forall check,
      supported check = false ->
      (forall p, _run_single_check check repo p = (Ok None, p)) /\
      (forall s, _http_run_single_check s check repo = Ok None)) /\
  (forall db url task,
      get_task_by_nonce db (repo_nonce repo) = Some task ->
      (forall p0 p1,
          PLAYWRIGHT_AVAILABLE = true -> launch = Ok p0 ->
          goto url p0 = (GotoOk, p1) ->
          length (run_playwright_checks db repo url)
            = supported_count (task_checks task) /\
          Forall score_ok (run_playwright_checks db repo url)) /\
      (forall s,
          (PLAYWRIGHT_AVAILABLE = false \/ exists e, launch = Raise e) ->
          http_get url = Ok (200%Z, s) ->
          length (run_playwright_checks db repo url)
            = supported_count (task_checks task) /\
          Forall score_ok (run_playwright_checks db repo url))).
Proof.
  split; [|split; [|split; [|split]]].
  - intros p. destruct (check_loop_spec checks repo [] p) as (rs & p' & ? & ? & ?).
    by exists rs, p'.
  - intros s. destruct (http_loop_spec s checks repo []) as (rs & ? & ? & ?).
    by exists rs.
  - intros s check Hn.
    destruct (http_run_single_check_spec s check repo) as (o & Ho & _ & Hb).
    destruct (Hb Hn) as (r & -> & Hr). by exists r.
  - intros check Hs. split.
    + intros p. by apply run_single_check_unsupported.
    + intros s.
      destruct (http_run_single_check_spec s check repo) as (o & Ho & Hone & _).
      unfold one_result in Hone. rewrite Hs in Hone. by subst o.
  - intros db url task Ht. split.
    + intros. by eapply run_playwright_checks_interactive.
    + intros. by eapply run_playwright_checks_static.
Qed.

(** *** Exceptions inside a check *)

(** An exception inside [_check_element_exists] is caught there, unless
    the selector cannot be sliced for the name of the result: the
    handler then raises in turn, and [_run_single_check] catches that.
    Either way the check ends in a result with score 0 whose reason
    carries the text of the exception caught last. *)
Lemma element_exists_catches check repo p e p' :
  dict_get_default check "type" (VStr EmptyString) = VStr "element_exists" ->
  try_element_exists check repo p = (Raise e, p') ->
  exists r,
    _run_single_check check repo p = (Ok (Some r), p') /\
    r_score r = 0%Q /\
    r_reason r =
      "Error: " +:+
      match slice_to 20 (dict_get_default check "selector" (VStr EmptyString)) with
      | Ok _ => e
      | Raise e2 => e2
      end.
Proof.
  intros Hty Hb. unfold _run_single_check, dispatch. rewrite Hty.
  change (is_type (VStr "element_exists") "element_exists") with true.
  cbv iota. unfold _check_element_exists.
  unfold try_M, mbind, M_bind, mret, M_ret, lift. rewrite Hb.
  destruct (slice_to 20 _) as [sel|e2]; eexists; (split; [reflexivity|]); done.
Qed.

Lemma button_exists_catches check repo p e p' :
  dict_get_default check "type" (VStr EmptyString) = VStr "button_exists" ->
  try_button_exists check repo p = (Raise e, p') ->
  exists r,
    _run_single_check check repo p = (Ok (Some r), p') /\
    r_check r = "button_check" /\ r_score r = 0%Q /\
    r_reason r = "Error: " +:+ e.
Proof.
  intros Hty Hb. unfold _run_single_check, dispatch. rewrite Hty.
  change (is_type (VStr "button_exists") "element_exists") with false.
  change (is_type (VStr "button_exists") "button_exists") with true.
  cbv iota. unfold _check_button_exists.
  unfold try_M, mbind, M_bind, mret, M_ret. rewrite Hb.
  eexists. split; [reflexivity|]. done.
Qed.

Lemma click_interaction_catches check repo p e p' :
  dict_get_default check "type" (VStr EmptyString) = VStr "click_interaction" ->
  try_click_interaction check repo p = (Raise e, p') ->
  exists r,
    _run_single_check check repo p = (Ok (Some r), p') /\
    r_check r = "click_interaction" /\ r_score r = 0%Q /\
    r_reason r = "Error: " +:+ e.
Proof.
  intros Hty Hb. unfold _run_single_check, dispatch. rewrite Hty.
  change (is_type (VStr "click_interaction") "element_exists") with false.
  change (is_type (VStr "click_interaction") "button_exists") with false.
  change (is_type (VStr "click_interaction") "click_interaction") with true.
  cbv iota. unfold _check_click_interaction.
  unfold try_M, mbind, M_bind, mret, M_ret. rewrite Hb.
  eexists. split; [reflexivity|]. done.
Qed.

Lemma responsive_catches check repo p e p' :
  dict_get_default check "type" (VStr EmptyString) = VStr "responsive_check" ->
  try_responsive check repo p = (Raise e, p') ->
  exists r,
    _run_single_check check repo p = (Ok (Some r), p') /\
    r_check r = "responsive_design" /\ r_score r = 0%Q /\
    r_reason r = "Error: " +:+ e.
Proof.
  intros Hty Hb. unfold _run_single_check, dispatch. rewrite Hty.
  change (is_type (VStr "responsive_check") "element_exists") with false.
  change (is_type (VStr "responsive_check") "button_exists") with false.
  change (is_type (VStr "responsive_check") "click_interaction") with false.
  change (is_type (VStr "responsive_check") "responsive_check") with true.
  cbv iota. unfold _check_responsive.
  unfold try_M, mbind, M_bind, mret, M_ret. rewrite Hb.
  eexists. split; [reflexivity|]. done.
Qed.

(** The loop takes what a check gave, a result or nothing, and goes on
    with the rest from the page as the check left it. *)
Lemma check_loop_goes_on check rest repo acc p :
  exists o p',
    _run_single_check check repo p = (Ok o, p') /\
    check_loop (check :: rest) repo acc p
    = check_loop rest repo (acc ++ option_list o) p'.
Proof.
  destruct (run_single_check_total check repo p) as (o & p' & Ho).
  exists o, p'. split; [exact Ho|]. cbn [check_loop]. rewrite Ho.
  destruct o as [r|]; cbn [option_list]; [done | by rewrite app_nil_r].
Qed.

(** The static backend does the same at [_http_run_single_check]. *)
Lemma http_check_catches s check repo e :
  http_dispatch s (dict_get_default check "type" (VStr EmptyString)) check repo
    = Raise e ->
  exists r,
    _http_run_single_check s check repo = Ok (Some r) /\
    r_score r = 0%Q /\ r_reason r = "Error: " +:+ e.
Proof.
  intros Hd. unfold _http_run_single_check, try_except. rewrite Hd.
  eexists. split; [reflexivity|]. done.
Qed.

Lemma http_loop_goes_on s check rest repo acc :
  exists o,
    _http_run_single_check s check repo = Ok o /\
    http_loop s (check :: rest) repo acc
    = http_loop s rest repo (acc ++ option_list o).
Proof.
  destruct (http_run_single_check_spec s check repo) as (o & Ho & _).
  exists o. split; [exact Ho|]. cbn [http_loop]. rewrite Ho.
  destruct o as [r|]; cbn [option_list]; [done | by rewrite app_nil_r].
Qed.

(** C8.  [_run_single_check] never raises.  An exception raised
    while a check is evaluated is caught at that check and turned into
    a result with score 0 whose reason is ["Error: "] followed by the
    text of the exception: by the handler of the check itself for an
    exception inside [_check_element_exists], [_check_button_exists],
    [_check_click_interaction] or [_check_responsive], and by the handler
    of [_run_single_check] for one that leaves the dispatch (as when the
    handler of [_check_element_exists] raises in turn, on a selector it
    cannot slice).  The loop then goes on with the remaining checks, in
    order, from the page as that check left it: the loop itself never
    raises, and gives one result for each check of a known type.  The
    static backend catches at [_http_run_single_check] in the same way,
    and its loop goes on likewise. *)
Theorem check_errors_are_isolated (repo : RepoRow) :
  (forall check p, exists o p', _run_single_check check repo p = (Ok o, p')) /\
  (forall check p e p',
      dispatch (dict_get_default check "type" (VStr EmptyString)) check repo p
        = (Raise e, p') ->
      exists r,
        _run_single_check check repo p = (Ok (Some r), p') /\
        r_score r = 0%Q /\ r_reason r = "Error: " +:+ e) /\
  (forall check p e p',
      dict_get_default check "type" (VStr EmptyString) = VStr "element_exists" ->
      try_element_exists check repo p = (Raise e, p') ->
      exists r,
        _run_single_check check repo p = (Ok (Some r), p') /\
        r_score r = 0%Q /\
        r_reason r =
          "Error: " +:+
          match slice_to 20 (dict_get_default check "selector" (VStr EmptyString)) with
          | Ok _ => e
          | Raise e2 => e2
          end) /\
  (forall check p e p',
      dict_get_default check "type" (VStr EmptyString) = VStr "button_exists" ->
      try_button_exists check repo p = (Raise e, p') ->
      exists r,
        _run_single_check check repo p = (Ok (Some r), p') /\
        r_check r = "button_check" /\ r_score r = 0%Q /\
        r_reason r = "Error: " +:+ e) /\
  (forall check p e p',
      dict_get_default check "type" (VStr EmptyString) = VStr "click_interaction" ->
      try_click_interaction check repo p = (Raise e, p') ->
      exists r,
        _run_single_check check repo p = (Ok (Some r), p') /\
        r_check r = "click_interaction" /\ r_score r = 0%Q /\
        r_reason r = "Error: " +:+ e) /\
  (forall check p e p',
      dict_get_default check "type" (VStr EmptyString) = VStr "responsive_check" ->
      try_responsive check repo p = (Raise e, p') ->
      exists r,
        _run_single_check check repo p = (Ok (Some r), p') /\
        r_check r = "responsive_design" /\ r_score r = 0%Q /\
        r_reason r = "Error: " +:+ e) /\
  (forall check p e p' sel,
      dict_get check "type" = Some (VStr "element_exists") ->
      dict_get check "selector" = Some (VStr sel) ->
      query_selector_all (VStr sel) p = (Raise e, p') ->
      exists r,
        _run_single_check check repo p = (Ok (Some r), p') /\
        r_score r = 0%Q /\ r_reason r = "Error: " +:+ e) /\
  (forall check rest acc p, exists o p',
      _run_single_check check repo p = (Ok o, p') /\
      check_loop (check :: rest) repo acc p
      = check_loop rest repo (acc ++ option_list o) p') /\
  (forall checks acc p, exists rs p',
      check_loop checks repo acc p = (Ok (), acc ++ rs, p') /\
      length rs = supported_count checks) /\
  (forall s check e,
      http_dispatch s (dict_get_default check "type" (VStr EmptyString)) check repo
        = Raise e ->
      exists r,
        _http_run_single_check s check repo = Ok (Some r) /\
        r_score r = 0%Q /\ r_reason r = "Error: " +:+ e) /\
  (forall s check rest acc, exists o,
      _http_run_single_check s check repo = Ok o /\
      http_loop s (check :: rest) repo acc
      = http_loop s rest repo (acc ++ option_list o)).
Proof.
  repeat apply conj.
  - intros. apply run_single_check_total.
  - intros. by apply run_single_check_catches.
  - intros. by apply element_exists_catches.
  - intros. by apply button_exists_catches.
  - intros. by apply click_interaction_catches.
  - intros. by apply responsive_catches.
  - intros check p e p' sel Hty Hsel Hq.
    assert (Ht : dict_get_default check "type" (VStr EmptyString)
                 = VStr "element_exists")
      by (unfold dict_get_default; by rewrite Hty).
    assert (Hb : try_element_exists check repo p = (Raise e, p')).
    { unfold try_element_exists, dict_get_default. rewrite Hsel.
      unfold mbind, M_bind. by rewrite Hq. }
    destruct (element_exists_catches check repo p e p' Ht Hb) as (r & Hr & Hs & Hm).
    exists r. split; [exact Hr|]. split; [exact Hs|].
    rewrite Hm. unfold dict_get_default. by rewrite Hsel.
  - intros. apply check_loop_goes_on.
  - intros checks acc p.
    destruct (check_loop_spec checks repo acc p) as (rs & p' & ? & ? & _).
    by exists rs, p'.
  - intros. by apply http_check_catches.
  - intros. apply http_loop_goes_on.
Qed.

End BackendProperties.

Section EngineSample.
Import TaskTemplates Db Evaluate Sample.

(** The round-1 checks of the calculator template. *)
Definition calculator_checks : list dict := default [] (checks calculator_round1).

(** Three of these six checks are of type [click_sequence], which
    neither backend knows: the static loop, the interactive loop and the
    engine as a whole return three results for the six descriptors. *)
Lemma one_result_per_check_counterexample :
  length calculator_checks = 6%nat /\
  length (snd (http_loop page_soup calculator_checks calc_repo [])) = 3%nat /\
  length (snd (fst (check_loop calculator_checks calc_repo [] loaded))) = 3%nat /\
  length (run_playwright_checks graded_db calc_repo (repo_pages_url calc_repo)) = 3%nat.
Proof. vm_compute. repeat split. Qed.

Definition responsive_check : dict :=
  dict_lit [("type", VStr "responsive_check");
            ("breakpoints", VList [VInt 768; VInt 1024])].

(** The static backend on a [responsive_check]. *)
Lemma one_result_per_known_check_witness :
  exists r,
    _http_run_single_check page_soup responsive_check calc_repo = Ok (Some r) /\
    r_score r = (1 # 2)%Q.
Proof.
  apply (proj1 (proj2 (proj2 (one_result_per_known_check calc_repo [])))).
  reflexivity.
Defined.

(** A check whose selector is a number: the page refuses it, and the
    handler of [_check_element_exists] raises in turn when it slices
    the selector for the name of the result. *)
Definition number_selector : dict :=
  dict_lit [("type", VStr "element_exists"); ("selector", VInt 5)].

(** A responsive check whose first breakpoint is not a number: the
    page refuses it as a width. *)
Definition named_breakpoint : dict :=
  dict_lit [("type", VStr "responsive_check");
            ("breakpoints", VList [VStr "wide"; VInt 1024])].

Lemma check_errors_are_isolated_witness :
  (exists r,
      _run_single_check number_selector calc_repo loaded = (Ok (Some r), loaded) /\
      r_score r = 0%Q /\
      r_reason r = "Error: 'int' object is not subscriptable") /\
  (exists r,
      _run_single_check named_breakpoint calc_repo loaded = (Ok (Some r), loaded) /\
      r_check r = "responsive_design" /\ r_score r = 0%Q /\
      r_reason r = "Error: viewport_size.width: expected integer").
Proof.
  pose proof (check_errors_are_isolated calc_repo)
    as (_ & Hdispatch & _ & _ & _ & Hresponsive & _).
  split.
  - apply (Hdispatch number_selector loaded
             "'int' object is not subscriptable" loaded).
    reflexivity.
  - apply (Hresponsive named_breakpoint loaded
             "viewport_size.width: expected integer" loaded); reflexivity.
Defined.

End EngineSample.

(** * Further properties *)

(** ** The notifier, for every sequence of outcomes *)

Section NotifierRuns.
Import Requests Evaluator.

(** One turn of the loop leaves it with the attempt counted, or goes on
    with one more sleep. *)
Lemma notify_loop_step (post : nat -> outcome) a rest slept :
  (attempts (fst (notify_loop post (a :: rest) slept)) = (a + 1)%nat /\
   posts (snd (notify_loop post (a :: rest) slept)) = (a + 1)%nat /\
   sleeps (snd (notify_loop post (a :: rest) slept)) = slept) \/
  ((max_retries <=? a)%nat = false /\
   notify_loop post (a :: rest) slept
   = notify_loop post rest (slept ++ [delay a])).
Proof.
  cbn [notify_loop].
  destruct (post a) as [st text| |e|e|e];
    [destruct (st =? 200)%Z; [by left|]| | | |];
    (destruct (max_retries <=? a)%nat; [by left | by right]).
Qed.

Lemma notify_loop_run (post : nat -> outcome) k :
  forall a slept,
    (a + k = 8)%nat -> (0 < k)%nat ->
    exists n,
      attempts (fst (notify_loop post (seq a k) slept)) = n /\
      posts (snd (notify_loop post (seq a k) slept)) = n /\
      (a < n <= 8)%nat /\
      sleeps (snd (notify_loop post (seq a k) slept))
        = slept ++ map delay (seq a (n - 1 - a)).
Proof.
  induction k as [|k IH]; intros a slept Hak Hk; [lia|].
  cbn [seq].
  destruct (notify_loop_step post a (seq (S a) k) slept)
    as [(Ha & Hp & Hs) | [Hlt Heq]].
  - exists (a + 1)%nat. rewrite Ha, Hp, Hs.
    replace (a + 1 - 1 - a)%nat with 0%nat by lia.
    cbn [seq map]. rewrite app_nil_r. repeat split; lia.
  - rewrite Heq. apply Nat.leb_gt in Hlt. unfold max_retries in Hlt.
    destruct (IH (S a) (slept ++ [delay a])) as (n & Ha & Hp & Hb & Hs); [lia..|].
    exists n. rewrite Ha, Hp, Hs. repeat split; try lia.
    rewrite <- app_assoc. f_equal.
    replace (n - 1 - a)%nat with (S (n - 1 - S a)) by lia.
    done.
Qed.

(** The eight attempts of [notify]. *)
Lemma notify_attempts (post : nat -> outcome) :
  notify post = notify_loop post (seq 0 8) [].
Proof. reflexivity. Qed.

Lemma delays_total n : (n <= 7)%nat -> (0 <= sum_Z (map delay (seq 0 n)) <= 127)%Z.
Proof.
  intros Hn.
  do 8 (destruct n as [|n]; [vm_compute; split; discriminate|]). lia.
Qed.

(** Whatever the POSTs do, [notify] makes between 1 and 8 attempts, one
    POST for each; before attempt number [n + 1] it has slept
    [2 ** 0, ..., 2 ** (n - 1)] seconds, so a run with [k] attempts has
    slept [k - 1] times, for 127 seconds at most in all. *)
Theorem notify_backoff_schedule (post : nat -> outcome) :
  posts (snd (notify post)) = attempts (fst (notify post)) /\
  (1 <= attempts (fst (notify post)) <= 8)%nat /\
  sleeps (snd (notify post))
    = map delay (seq 0 (attempts (fst (notify post)) - 1)) /\
  (0 <= sum_Z (sleeps (snd (notify post))) <= 127)%Z.
Proof.
  rewrite notify_attempts.
  destruct (notify_loop_run post 8 0 []) as (n & Ha & Hp & Hb & Hs); [done|lia|].
  rewrite Ha, Hp, Hs, Nat.sub_0_r. cbn [app].
  repeat split; try lia; apply delays_total; lia.
Qed.

Lemma notify_loop_finds_200 (post : nat -> outcome) k :
  forall a slept i text,
    (a + k = 8)%nat -> (a <= i < a + k)%nat -> post i = Response 200 text ->
    success (fst (notify_loop post (seq a k) slept)) = true.
Proof.
  induction k as [|k IH]; intros a slept i text Hak Hi Hp; [lia|].
  cbn [seq notify_loop].
  assert (Hrec : (a < i)%nat ->
                 success (fst (notify_loop post (seq (S a) k) (slept ++ [delay a])))
                 = true).
  { intros Hlt. apply (IH (S a) _ i text); [lia | lia | done]. }
  destruct (decide (i = a)) as [-> | Hne].
  - rewrite Hp. done.
  - assert (Hlt : (a < i)%nat) by lia.
    assert (Hle : (max_retries <=? a)%nat = false)
      by (apply Nat.leb_gt; unfold max_retries; lia).
    destruct (post a) as [st t| |e|e|e]; rewrite ?Hle; auto.
    destruct (st =? 200)%Z; auto.
Qed.

(** [notify] reports success exactly when one of the eight attempts it
    may make gets status 200: no failure before it, of any kind, ends
    the run early. *)
Theorem notify_succeeds_iff (post : nat -> outcome) :
  success (fst (notify post)) = true <->
  exists i text, (i < 8)%nat /\ post i = Response 200 text.
Proof.
  split.
  - intros Hs. rewrite notify_attempts in Hs.
    destruct (notify_loop_success _ _ _ Hs) as (i & text & Hi & Hp & _).
    exists i, text. split; [|done]. apply elem_of_seq in Hi. cbn in Hi. lia.
  - intros (i & text & Hi & Hp). rewrite notify_attempts.
    apply (notify_loop_finds_200 post 8 0 [] i text); [done | lia | done].
Qed.

End NotifierRuns.

(** ** The ledger: what an insert leaves behind *)

Section LedgerFacts.
Import Db.

(** The row [insert_task] writes for a task dictionary. *)
Definition task_row (t : task_data) : TaskRow :=
  {| task_timestamp := td_timestamp t; task_email := td_email t;
     task_task := td_task t; task_round := td_round t;
     task_nonce := td_nonce t; task_brief := td_brief t;
     task_attachments := td_attachments t; task_checks := td_checks t;
     task_evaluation_url := td_evaluation_url t;
     task_endpoint := td_endpoint t;
     task_statuscode := td_statuscode t; task_error := td_error t |}.

Lemma find_snoc {A} (f : A -> bool) (l : list A) (x : A) :
  existsb f l = false -> f x = true -> find f (l ++ [x]) = Some x.
Proof.
  induction l as [|y l IH]; cbn; intros Hl Hx.
  - by rewrite Hx.
  - apply orb_false_iff in Hl as [-> Hl]. by apply IH.
Qed.

Lemma task_key_refl (r : TaskRow) :
  task_key (task_email r) (task_task r) (task_round r) r = true.
Proof. unfold task_key. by rewrite !String.eqb_refl, Z.eqb_refl. Qed.

Lemma repo_key_refl (r : RepoRow) :
  repo_key (repo_email r) (repo_task r) (repo_round r) r = true.
Proof. unfold repo_key. by rewrite !String.eqb_refl, Z.eqb_refl. Qed.

Lemma insert_task_ok db t id db' :
  insert_task db t = Ok (id, db') ->
  nonce_used db (td_nonce t) = false /\
  task_exists db (td_email t) (td_task t) (td_round t) = false /\
  id = Z.of_nat (S (length (tasks db))) /\
  db' = set_tasks db (tasks db ++ [task_row t]).
Proof.
  unfold insert_task.
  destruct (task_exists db _ _ _); [discriminate|].
  destruct (nonce_used db (td_nonce t)); [discriminate|].
  by intros [= <- <-].
Qed.

(** A task that [insert_task] has stored is found again: by its nonce,
    as the row written, and by its (email, task, round); the id
    returned is the number of rows, and the other two tables are not
    touched. *)
Theorem insert_task_then_lookup (db : Database) (t : task_data) (id : Z)
    (db' : Database) :
  insert_task db t = Ok (id, db') ->
  get_task_by_nonce db' (td_nonce t) = Some (task_row t) /\
  task_exists db' (td_email t) (td_task t) (td_round t) = true /\
  id = Z.of_nat (length (tasks db')) /\
  repos db' = repos db /\ results db' = results db.
Proof.
  intros (Hn & _ & -> & ->)%insert_task_ok. cbn [tasks set_tasks repos results].
  split; [|split; [|split]].
  - unfold get_task_by_nonce. cbn [tasks set_tasks]. apply find_snoc; [exact Hn|].
    apply String.eqb_refl.
  - unfold task_exists. cbn [tasks set_tasks].
    rewrite filter_app, length_app, filter_cons_True.
    + apply Nat.ltb_lt. cbn [length]. lia.
    + apply (task_key_refl (task_row t)).
  - rewrite length_app. cbn. f_equal. lia.
  - done.
Qed.

(** The two [UNIQUE] constraints of [tasks], as a property of the
    table. *)
Definition tasks_unique (db : Database) : Prop :=
  NoDup (map task_nonce (tasks db)) /\
  NoDup (map (fun r => (task_email r, task_task r, task_round r)) (tasks db)).

Lemma nonce_unused_not_in db nonce :
  nonce_used db nonce = false -> nonce ∉ map task_nonce (tasks db).
Proof.
  unfold nonce_used. intros Hn Hin.
  apply list_elem_of_fmap in Hin as (r & -> & Hr).
  assert (existsb (fun r0 => String.eqb (task_nonce r0) (task_nonce r)) (tasks db)
          = true); [|congruence].
  apply existsb_exists. exists r. split; [by apply list_elem_of_In|].
  apply String.eqb_refl.
Qed.

Lemma task_absent_not_in db email task round :
  task_exists db email task round = false ->
  (email, task, round)
    ∉ map (fun r => (task_email r, task_task r, task_round r)) (tasks db).
Proof.
  unfold task_exists. intros Hn Hin.
  apply list_elem_of_fmap in Hin as (r & [= -> -> ->] & Hr).
  apply Nat.ltb_ge in Hn.
  assert (r ∈ filter (fun r0 => task_key (task_email r) (task_task r)
                                   (task_round r) r0 = true) (tasks db)) as Hf.
  { apply list_elem_of_filter. split; [apply task_key_refl | done]. }
  destruct (filter _ (tasks db)); [by apply elem_of_nil in Hf | cbn in Hn; lia].
Qed.

Lemma NoDup_snoc {A} (l : list A) (x : A) : NoDup l -> x ∉ l -> NoDup (l ++ [x]).
Proof.
  intros Hl Hx. apply NoDup_app. split; [done|]. split.
  - intros y Hy ->%list_elem_of_singleton. done.
  - apply NoDup_singleton.
Qed.

(** [insert_task] keeps them: it never writes a second row with a nonce
    or an (email, task, round) already in the table. *)
Theorem insert_task_keeps_unique (db : Database) (t : task_data) (id : Z)
    (db' : Database) :
  tasks_unique db -> insert_task db t = Ok (id, db') -> tasks_unique db'.
Proof.
  intros [Hn Hk] (Hnonce & Hkey & _ & ->)%insert_task_ok.
  unfold tasks_unique. cbn [tasks set_tasks]. rewrite !map_app. cbn [map].
  split; apply NoDup_snoc; try done.
  - by apply nonce_unused_not_in.
  - by apply (task_absent_not_in db).
Qed.

End LedgerFacts.

Section LedgerSample.
Import Db Sample.

(** A task for b@x.com, not yet in the sample database. *)
Definition second_task : task_data :=
  {| td_timestamp := "2025-10-16T14:06:00"; td_email := "b@x.com";
     td_task := "todo-list-ab12c"; td_round := 1; td_nonce := "uuid-1";
     td_brief := TaskTemplates.brief TaskTemplates.todo_list_round1;
     td_attachments := []; td_checks := [];
     td_evaluation_url := Round1.EVALUATION_URL;
     td_endpoint := "http://b/endpoint"; td_secret := "b-s3cret-value";
     td_statuscode := Some 200%Z; td_error := None |}.

Lemma insert_task_then_lookup_witness :
  get_task_by_nonce
    (set_tasks graded_db (tasks graded_db ++ [task_row second_task])) "uuid-1"
  = Some (task_row second_task).
Proof.
  apply (insert_task_then_lookup graded_db second_task 2%Z
           (set_tasks graded_db (tasks graded_db ++ [task_row second_task]))).
  reflexivity.
Defined.

Lemma insert_task_keeps_unique_witness :
  tasks_unique (set_tasks graded_db (tasks graded_db ++ [task_row second_task])).
Proof.
  apply (insert_task_keeps_unique graded_db second_task 2%Z).
  - split; cbn; apply NoDup_singleton.
  - reflexivity.
Defined.

End LedgerSample.

(** ** The submission endpoint: every answer *)

Section EndpointFacts.
Import Db ApiServer.

(** The row the endpoint writes for a request. *)
Definition repo_row (now : string) (request : EvaluationRequest) : RepoRow :=
  {| repo_timestamp := now; repo_email := email request;
     repo_task := task request; repo_round := round request;
     repo_nonce := nonce request; repo_repo_url := repo_url request;
     repo_commit_sha := commit_sha request; repo_pages_url := pages_url request |}.

(** The nonce of the request resolves to a task with its email, task id
    and round. *)
Definition matches_task (db : Database) (request : EvaluationRequest) : Prop :=
  exists t, get_task_by_nonce db (nonce request) = Some t /\
            task_email t = email request /\ task_task t = task request /\
            task_round t = round request.

Lemma repo_exists_after db r :
  repo_exists (set_repos db (repos db ++ [r]))
              (repo_email r) (repo_task r) (repo_round r) = true.
Proof.
  unfold repo_exists. cbn [repos set_repos].
  rewrite filter_app, length_app, filter_cons_True by apply repo_key_refl.
  apply Nat.ltb_lt. cbn [length]. lia.
Qed.

(** The endpoint answers in one of two ways: it accepts, and then the
    request matched its task, had not been submitted before, and
    exactly its row was appended to [repos]; or it answers 400 and
    leaves the database as it was.  It never answers 500: the insert
    cannot fail after the test for a duplicate. *)
Theorem submission_outcomes (now : string) (request : EvaluationRequest)
    (db : Database) :
  (fst (evaluation_endpoint now request db)
     = Success (Z.of_nat (S (length (repos db)))) /\
   snd (evaluation_endpoint now request db)
     = set_repos db (repos db ++ [repo_row now request]) /\
   matches_task db request /\
   repo_exists db (email request) (task request) (round request) = false) \/
  (exists detail,
      fst (evaluation_endpoint now request db) = HTTPException 400 detail /\
      snd (evaluation_endpoint now request db) = db).
Proof.
  unfold evaluation_endpoint, matches_task.
  destruct (get_task_by_nonce db (nonce request)) as [t|]; [|right; by eexists].
  destruct (String.eqb (task_email t) (email request)) eqn:E1; cbn [negb];
    [|right; by eexists].
  destruct (String.eqb (task_task t) (task request)) eqn:E2; cbn [negb];
    [|right; by eexists].
  destruct (task_round t =? round request)%Z eqn:E3; cbn [negb];
    [|right; by eexists].
  destruct (repo_exists db (email request) (task request) (round request)) eqn:E4;
    [right; by eexists|].
  left. unfold insert_repo. cbn [repo_email repo_task repo_round]. rewrite E4.
  apply String.eqb_eq in E1, E2. apply Z.eqb_eq in E3.
  repeat split; eauto.
Qed.

(** A submission that was accepted is refused when it is sent again:
    400, and nothing is written. *)
Theorem resubmission_refused (now now' : string) (request : EvaluationRequest)
    (db : Database) (id : Z) :
  fst (evaluation_endpoint now request db) = Success id ->
  evaluation_endpoint now' request (snd (evaluation_endpoint now request db))
  = (HTTPException 400
       "Repository has already been submitted for this task and round.",
     snd (evaluation_endpoint now request db)).
Proof.
  intros Hs.
  destruct (submission_outcomes now request db)
    as [(_ & -> & (t & Ht & He & Hk & Hr) & _) | (detail & Hd & _)];
    [|rewrite Hd in Hs; discriminate].
  unfold evaluation_endpoint at 1.
  change (get_task_by_nonce (set_repos db _) (nonce request))
    with (get_task_by_nonce db (nonce request)).
  rewrite Ht, He, Hk, Hr, !String.eqb_refl, Z.eqb_refl. cbn [negb].
  pose proof (repo_exists_after db (repo_row now request)) as Hex.
  cbn [repo_row repo_email repo_task repo_round] in Hex. by rewrite Hex.
Qed.

(** At most one submission for an (email, task, round). *)
Definition repos_unique (db : Database) : Prop :=
  NoDup (map (fun r => (repo_email r, repo_task r, repo_round r)) (repos db)).

Lemma repo_absent_not_in db email task round :
  repo_exists db email task round = false ->
  (email, task, round)
    ∉ map (fun r => (repo_email r, repo_task r, repo_round r)) (repos db).
Proof.
  unfold repo_exists. intros Hn Hin.
  apply list_elem_of_fmap in Hin as (r & [= -> -> ->] & Hr).
  apply Nat.ltb_ge in Hn.
  assert (r ∈ filter (fun r0 => repo_key (repo_email r) (repo_task r)
                                   (repo_round r) r0 = true) (repos db)) as Hf.
  { apply list_elem_of_filter. split; [apply repo_key_refl | done]. }
  destruct (filter _ (repos db)); [by apply elem_of_nil in Hf | cbn in Hn; lia].
Qed.

(** The endpoint keeps that property of [repos], whatever it is sent. *)
Theorem endpoint_keeps_unique (now : string) (request : EvaluationRequest)
    (db : Database) :
  repos_unique db -> repos_unique (snd (evaluation_endpoint now request db)).
Proof.
  intros Hu.
  destruct (submission_outcomes now request db)
    as [(_ & -> & _ & Hr) | (detail & _ & ->)]; [|done].
  unfold repos_unique. cbn [repos set_repos]. rewrite map_app. cbn [map].
  apply NoDup_snoc; [done|]. by apply (repo_absent_not_in db).
Qed.

End EndpointFacts.

Section EndpointFactsSample.
Import Db ApiServer Sample.

(** The task of a@x.com has been dispatched; nothing is submitted yet. *)
Definition dispatched_db : Database :=
  {| tasks := [calc_task]; repos := []; results := [] |}.

Definition honest : EvaluationRequest :=
  {| email := "a@x.com"; task := "calculator-ab12c"; round := 1;
     nonce := "uuid-0"; repo_url := "https://github.com/a/calculator-ab12c";
     commit_sha := "0123abc"; pages_url := "https://a.github.io/calculator-ab12c/" |}.

Lemma resubmission_refused_witness :
  evaluation_endpoint "2025-10-16T15:01:00" honest
    (snd (evaluation_endpoint "2025-10-16T15:00:00" honest dispatched_db))
  = (HTTPException 400
       "Repository has already been submitted for this task and round.",
     snd (evaluation_endpoint "2025-10-16T15:00:00" honest dispatched_db)).
Proof.
  apply (resubmission_refused "2025-10-16T15:00:00" "2025-10-16T15:01:00"
           honest dispatched_db 1%Z).
  reflexivity.
Defined.

Lemma endpoint_keeps_unique_witness :
  repos_unique (snd (evaluation_endpoint "2025-10-16T15:00:00" honest dispatched_db)).
Proof.
  apply (endpoint_keeps_unique "2025-10-16T15:00:00" honest dispatched_db).
  apply NoDup_nil_2.
Defined.

End EndpointFactsSample.

(** ** The round-1 batch *)

Section BatchFacts.
Context `{Builtins} `{Hashlib} `{Random} `{World.Env}.
Import Requests World TaskTemplates Db Round1.

(** The submissions counted so far. *)
Definition total (c : counts) : nat := (processed c + skipped c + failed c)%nat.

(** What a turn may do to the ledger: append one task row at most, and
    nothing else. *)
Definition appends_tasks (db db' : Database) (n : nat) : Prop :=
  exists new, tasks db' = tasks db ++ new /\ (length new <= n)%nat /\
              repos db' = repos db /\ results db' = results db.

Lemma appends_tasks_refl db n : appends_tasks db db n.
Proof. exists []. rewrite app_nil_r. repeat split. cbn. lia. Qed.

Lemma appends_tasks_trans db1 db2 db3 n m :
  appends_tasks db1 db2 n -> appends_tasks db2 db3 m ->
  appends_tasks db1 db3 (n + m).
Proof.
  intros (l1 & E1 & L1 & R1 & S1) (l2 & E2 & L2 & R2 & S2).
  exists (l1 ++ l2). rewrite E2, E1, <- app_assoc, length_app.
  repeat split; [lia | congruence | congruence].
Qed.

Lemma appends_tasks_insert db t id db' :
  insert_task db t = Ok (id, db') -> appends_tasks db db' 1.
Proof.
  intros (_ & _ & _ & ->)%insert_task_ok. exists [task_row t]. by repeat split.
Qed.

(** A turn that goes on counts its submission once and appends at most
    one task row; a turn that aborts leaves the ledger as it was. *)
Lemma process_one_cases sub round (st : state) c :
  match process_one sub round st c with
  | Next st' c' => total c' = S (total c) /\ appends_tasks (db st) (db st') 1
  | Abort _ st' => db st' = db st
  end.
Proof.
  unfold process_one.
  destruct (generate_task _ _ _ _ _) as [[task|e] g]; [|done].
  destruct (task_exists _ _ _ _).
  { split; [unfold total; cbn; lia | apply appends_tasks_refl]. }
  destruct (post_task_to_student _) as [[[code err]|e] tr]; [|done].
  destruct (insert_task _ _) as [[id d]|e] eqn:Hi; [|done].
  split.
  - destruct (code =? 200)%Z; unfold total; cbn; lia.
  - cbn [db]. by eapply appends_tasks_insert.
Qed.

Lemma process_loop_facts subs round : forall (st : state) c,
  appends_tasks (db st) (db (snd (process_loop subs round st c))) (length subs) /\
  match fst (process_loop subs round st c) with
  | Ok c' => total c' = (total c + length subs)%nat
  | Raise _ => True
  end.
Proof.
  induction subs as [|sub rest IH]; intros st c; cbn [process_loop length].
  - split; [apply appends_tasks_refl | cbn; lia].
  - pose proof (process_one_cases sub round st c) as Hone.
    destruct (process_one sub round st c) as [st' c'|e st'].
    + destruct Hone as [Ht Ha]. destruct (IH st' c') as [IHa IHc].
      split; [exact (appends_tasks_trans _ _ _ 1 (length rest) Ha IHa)|].
      destruct (fst (process_loop rest round st' c')); [lia|done].
    + cbn [fst snd]. rewrite Hone. split; [apply appends_tasks_refl | done].
Qed.

(** When [process_submissions] returns, every submission has been
    counted once: processed, skipped and failed add up to the number of
    submissions given. *)
Theorem process_submissions_counts (subs : list submission) (round : Z)
    (st : state) :
  match fst (process_submissions subs round st) with
  | Ok c => (processed c + skipped c + failed c)%nat = length subs
  | Raise _ => True
  end.
Proof.
  unfold process_submissions.
  destruct (process_loop_facts subs round st
              {| processed := 0; skipped := 0; failed := 0 |}) as [_ Hc].
  destruct (fst (process_loop _ _ _ _)); [|done].
  unfold total in Hc. cbn in Hc. lia.
Qed.

(** The batch only appends to [tasks]: the rows it found are still
    there, in place, followed by at most one new row for each
    submission; [repos] and [results] are as they were.  This holds
    also for a batch that an exception ends. *)
Theorem process_submissions_appends (subs : list submission) (round : Z)
    (st : state) :
  exists new,
    tasks (db (snd (process_submissions subs round st))) = tasks (db st) ++ new /\
    (length new <= length subs)%nat /\
    repos (db (snd (process_submissions subs round st))) = repos (db st) /\
    results (db (snd (process_submissions subs round st))) = results (db st).
Proof.
  unfold process_submissions.
  destruct (process_loop_facts subs round st
              {| processed := 0; skipped := 0; failed := 0 |}) as [Ha _].
  exact Ha.
Qed.

End BatchFacts.

Section RedispatchFacts.
Context `{Builtins} `{Hashlib} `{Random} `{World.Env}.
Import Requests World TaskTemplates Db Round1.

(** The task id depends on the email and the hour only, in any round. *)
Lemma generate_task_same_id sub round dt1 dt2 nonce1 nonce2 (g1 g2 : rng_state) task g :
  strftime_hour dt2 = strftime_hour dt1 ->
  generate_task sub round dt1 nonce1 g1 = (Ok task, g) ->
  exists task',
    generate_task sub round dt2 nonce2 g2 = (Ok task', g) /\
    td_task task' = td_task task.
Proof.
  intros Hh. unfold generate_task. rewrite Hh.
  rewrite (get_random_template_reseeds _ g2 g1).
  destruct (get_random_template _ g1) as [[t|e] g0]; [|discriminate].
  destruct (generate t round _ _ g0) as [[tc|e] g']; [|discriminate].
  intros [= <- <-]. eexists. split; reflexivity.
Qed.

Lemma generate_task_fields sub round dt nonce (g0 : rng_state) task g :
  generate_task sub round dt nonce g0 = (Ok task, g) ->
  td_email task = s_email sub /\ td_round task = round.
Proof.
  unfold generate_task.
  destruct (get_random_template _ _) as [[t|e] g1]; [|discriminate].
  destruct (generate _ _ _ _ _) as [[tc|e] g2]; [|discriminate].
  by intros [= <- _].
Qed.

Lemma task_exists_after_insert db t id db' :
  insert_task db t = Ok (id, db') ->
  task_exists db' (td_email t) (td_task t) (td_round t) = true.
Proof.
  intros (_ & _ & _ & ->)%insert_task_ok. unfold task_exists.
  cbn [tasks set_tasks].
  rewrite filter_app, length_app, filter_cons_True
    by apply (task_key_refl (task_row t)).
  apply Nat.ltb_lt. cbn [length]. lia.
Qed.

(** After a turn for a submission, a second turn for it in the same
    hour is skipped: the task generated has the same id, which is now
    in the ledger, so nothing is posted, nothing is slept and no row is
    written. *)
Theorem redispatch_is_skipped (sub : submission) (round : Z) (st st1 : state)
    (c c1 : counts) :
  process_one sub round st c = Next st1 c1 ->
  strftime_hour (utcnow (clock st1)) = strftime_hour (utcnow (clock st)) ->
  exists st2,
    process_one sub round st1 c1
    = Next st2 {| processed := processed c1; skipped := S (skipped c1);
                  failed := failed c1 |} /\
    db st2 = db st1 /\ net st2 = net st1 /\ slept st2 = slept st1.
Proof.
  intros Hone Hh. unfold process_one in Hone.
  destruct (generate_task sub round (utcnow (clock st)) (uuid4 (uuids st)) (rng st))
    as [[task|e] g] eqn:Hg; [|discriminate].
  destruct (generate_task_same_id sub round _ (utcnow (clock st1))
              _ (uuid4 (uuids st1)) _ (rng st1) task g Hh Hg) as (task' & Hg' & Hid).
  destruct (generate_task_fields _ _ _ _ _ _ _ Hg) as [He Hr].
  assert (Hex : task_exists (db st1) (s_email sub) (td_task task') round = true).
  { rewrite Hid.
    destruct (task_exists (db st) (s_email sub) (td_task task) round) eqn:Hex.
    - injection Hone as <- _. exact Hex.
    - destruct (post_task_to_student _) as [[[code err]|e] tr]; [|discriminate].
      destruct (insert_task (db st) _) as [[id d]|e] eqn:Hi; [|discriminate].
      injection Hone as <- _. cbn [db].
      apply task_exists_after_insert in Hi.
      cbn [td_email td_task td_round] in Hi. by rewrite He, Hr in Hi. }
  unfold process_one. rewrite Hg', Hex. eexists. split; [reflexivity|]. done.
Qed.

(** An exception of a POST that is not one of [requests], at whichever
    attempt it comes, leaves [post_task_to_student] after that POST. *)
Lemma post_loop_foreign (post : nat -> outcome) (k : nat) (e : string) :
  (k < MAX_RETRIES)%nat ->
  (forall j, (j < k)%nat -> retried (post j)) ->
  post k = OtherException e ->
  fst (post_task_to_student post) = Raise e /\
  posts (snd (post_task_to_student post)) = S k /\
  sleeps (snd (post_task_to_student post)) = take k RETRY_DELAYS.
Proof.
  unfold MAX_RETRIES. intros Hk Hbefore Hp.
  assert (Hstep : forall j, (j < k)%nat ->
            match post j with
            | Response status_code _ => (status_code =? 200)%Z = false
            | OtherException _ => False
            | _ => True
            end).
  { intros j Hj. specialize (Hbefore j Hj). unfold retried in Hbefore.
    destruct (post j); try done. by apply Z.eqb_neq. }
  unfold post_task_to_student. cbn [seq MAX_RETRIES].
  destruct k as [|[|[|k]]]; [| | |lia].
  - cbn [post_loop]. rewrite Hp. done.
  - pose proof (Hstep 0%nat ltac:(lia)) as Hp0.
    cbn [post_loop]. destruct (post 0%nat); try done;
      rewrite ?Hp0; cbn; rewrite Hp; done.
  - pose proof (Hstep 0%nat ltac:(lia)) as Hp0.
    pose proof (Hstep 1%nat ltac:(lia)) as Hp1.
    cbn [post_loop].
    destruct (post 0%nat); try done; rewrite ?Hp0; cbn;
      (destruct (post 1%nat); try done; rewrite ?Hp1; cbn; rewrite Hp; done).
Qed.

(** An exception of a POST that is not one of [requests] is not caught,
    at the first attempt or at a later one, after failures that were
    tried again: it ends the batch there.  The participant it was for
    gets no row, those after it are not reached, and the POSTs and the
    sleeps made up to the exception are the only ones. *)
Theorem foreign_exception_ends_batch (sub : submission) (rest : list submission)
    (round : Z) (st : state) (c : counts) task g e (k : nat) :
  generate_task sub round (utcnow (clock st)) (uuid4 (uuids st)) (rng st)
    = (Ok task, g) ->
  task_exists (db st) (s_email sub) (td_task task) round = false ->
  (k < MAX_RETRIES)%nat ->
  (forall j, (j < k)%nat ->
     retried (http_post (net st + j) (td_endpoint task) (payload_of task))) ->
  http_post (net st + k) (td_endpoint task) (payload_of task) = OtherException e ->
  fst (process_loop (sub :: rest) round st c) = Raise e /\
  db (snd (process_loop (sub :: rest) round st c)) = db st /\
  net (snd (process_loop (sub :: rest) round st c)) = (net st + S k)%nat /\
  slept (snd (process_loop (sub :: rest) round st c))
  = slept st ++ take k RETRY_DELAYS.
Proof.
  intros Hg Hex Hk Hbefore Hp. cbn [process_loop]. unfold process_one.
  rewrite Hg, Hex.
  destruct (post_loop_foreign
              (fun n => http_post (net st + n) (td_endpoint task) (payload_of task))
              k e Hk Hbefore Hp) as (Hr & Hn & Hs).
  destruct (post_task_to_student _) as [r tr]. cbn [fst snd] in Hr, Hn, Hs.
  subst r. cbn [fst snd db net slept]. rewrite Hn, Hs, app_nil_r. done.
Qed.

(** The id of a generated task leads back to its template: the lookup
    of round 2 finds a template of the catalog for it. *)
Theorem generated_task_resolves (sub : submission) (round : Z) (dt : datetime)
    (nonce : string) (g0 g : rng_state) (task : task_data) :
  generate_task sub round dt nonce g0 = (Ok task, g) ->
  exists t,
    Round2.get_template_from_task_id (td_task task) = Some t /\
    get_template (template_id t) = Some t.
Proof.
  unfold generate_task, get_random_template, choice.
  destruct (map snd TEMPLATES) as [|t0 ts] eqn:Hl; [discriminate|].
  destruct (randbelow _ _) as [i g1].
  destruct ((t0 :: ts) !! i) as [t|] eqn:Hi; [|discriminate].
  apply list_elem_of_lookup_2 in Hi. rewrite <- Hl in Hi.
  assert (Ht : get_template (template_id t) = Some t).
  { unfold TEMPLATES in Hi. cbn [map snd] in Hi.
    repeat (apply elem_of_cons in Hi as [-> | Hi]; [reflexivity|]).
    by apply elem_of_nil in Hi. }
  destruct (generate t round _ _ g1) as [[tc|e'] g2]; [|discriminate].
  intros [= <- _]. exists t. cbn [td_task].
  by rewrite template_id_read_back.
Qed.

End RedispatchFacts.

Section BatchFactsSample.
Import Requests World TaskTemplates Db Round1 Sample.

Definition no_counts : counts := {| processed := 0; skipped := 0; failed := 0 |}.

(** The state after the turn of the sample participant. *)
Definition after_first : state :=
  match process_one participant 1 start no_counts with
  | Next st _ => st
  | Abort _ st => st
  end.

Lemma redispatch_is_skipped_witness :
  exists st2,
    process_one participant 1 after_first
      {| processed := 0; skipped := 0; failed := 1 |}
    = Next st2 {| processed := 0; skipped := 1; failed := 1 |} /\
    db st2 = db after_first /\ net st2 = net after_first /\
    slept st2 = slept after_first.
Proof.
  apply (redispatch_is_skipped participant 1 start after_first no_counts
           {| processed := 0; skipped := 0; failed := 1 |});
    vm_compute; reflexivity.
Defined.

(** A server that answers 500 to the first POST and makes the client
    raise a [ValueError] at the second. *)
Definition raising_env : Env :=
  {| utcnow := utcnow; uuid4 := uuid4;
     http_post := fun n _ _ =>
       match n with
       | O => Response 500 "down"
       | S _ => OtherException "Invalid header value"
       end |}.

Lemma foreign_exception_ends_batch_witness :
  fst (@process_loop builtins hashlib random raising_env
         [participant; participant] 1 start no_counts)
  = Raise "Invalid header value" /\
  db (snd (@process_loop builtins hashlib random raising_env
             [participant; participant] 1 start no_counts)) = db start /\
  net (snd (@process_loop builtins hashlib random raising_env
              [participant; participant] 1 start no_counts)) = 2%nat /\
  slept (snd (@process_loop builtins hashlib random raising_env
                [participant; participant] 1 start no_counts)) = [60%Z].
Proof.
  refine (@foreign_exception_ends_batch builtins hashlib random raising_env
            participant [participant] 1 start no_counts _ _
            "Invalid header value" 1 _ _ _ _ _).
  - vm_compute. reflexivity.
  - vm_compute. reflexivity.
  - unfold MAX_RETRIES. lia.
  - intros [|j] Hj; [cbn; lia | lia].
  - reflexivity.
Defined.

Lemma generated_task_resolves_witness :
  exists t,
    Round2.get_template_from_task_id "quiz-app-ab12c" = Some t /\
    get_template (template_id t) = Some t.
Proof.
  destruct (generate_task participant 1 (utcnow 0) "uuid-0" fresh_rng)
    as [[task|e] g] eqn:Hg; [|vm_compute in Hg; discriminate].
  pose proof (generated_task_resolves participant 1 (utcnow 0) "uuid-0"
                fresh_rng g task Hg) as Ht.
  assert (Hid : td_task task = "quiz-app-ab12c")
    by (vm_compute in Hg; injection Hg as <- _; reflexivity).
  rewrite Hid in Ht. exact Ht.
Defined.

End BatchFactsSample.

(** ** The lookup of round 2, for any task id *)

Section LineageFacts.
Import TaskTemplates.

(** A task id [tid-h], where [h] holds no ['-'], is looked up as [tid],
    whatever stands for the hash; a task id without any ['-'] finds no
    template. *)
Theorem lineage_lookup_law :
  (forall tid h,
      has_char "-" h = false ->
      Round2.get_template_from_task_id (tid +:+ "-" +:+ h) = get_template tid) /\
  (forall task_id,
      has_char "-" task_id = false ->
      Round2.get_template_from_task_id task_id = None).
Proof.
  split.
  - intros tid h Hh. unfold Round2.get_template_from_task_id.
    change (tid +:+ "-" +:+ h) with (tid +:+ String "-" h).
    rewrite split_app_sep by done.
    unfold init. rewrite removelast_last, length_app, join_split.
    pose proof (split_nonempty "-" tid).
    destruct (split "-" tid); [done|]. cbn [length].
    replace (2 <=? S (length l) + 1)%nat with true; [done|].
    symmetry. apply Nat.leb_le. lia.
  - intros task_id Hd. unfold Round2.get_template_from_task_id.
    by rewrite split_no_sep.
Qed.

End LineageFacts.

(** ** The engine, however the page load goes *)

Section EngineRuns.
Context `{Builtins} `{Evaluate.Playwright} `{Evaluate.Http}.
Import Db Evaluate.

(** The single result of a load that failed. *)
Definition load_failure (rs : list result) : Prop :=
  exists r, rs = [r] /\ r_score r = 0%Q /\
            (r_check r = "page_load" \/ r_check r = "http_fallback").

Lemma load_failure_score rs : load_failure rs -> Forall score_ok rs.
Proof.
  intros (r & -> & Hs & _). apply Forall_singleton. unfold score_ok.
  rewrite Hs. split; unfold Qle; cbn; lia.
Qed.

Lemma http_fallback_runs url checks repo :
  (length (_http_fallback_checks url checks repo) = supported_count checks /\
   Forall score_ok (_http_fallback_checks url checks repo)) \/
  load_failure (_http_fallback_checks url checks repo).
Proof.
  unfold _http_fallback_checks.
  destruct (http_get url) as [[st s]|e].
  - destruct (st =? 200)%Z; cbn [negb].
    + left. destruct (http_loop_spec s checks repo []) as (rs & -> & ? & ?). done.
    + right. eexists. split; [reflexivity|]. split; [done | by left].
  - right. eexists. split; [reflexivity|]. split; [done | by right].
Qed.

(** A run of the engine never raises, every score it gives is between
    0 and 1, and how it ends is settled by the task lookup and the page
    load.  No task for the nonce of the repo: no result.  Under the
    browser: a page that loads gives one result for each check of a
    known type; a [goto] that times out or fails gives the single
    result [page_load] with score 0, however many checks there were.
    Under the static backend, which runs when the browser is not there
    or does not start: a fetch that answers 200 gives one result for
    each check of a known type; any other status gives the single
    result [page_load], and an exception of the fetch the single result
    [http_fallback], both with score 0. *)
Theorem engine_runs (db : Database) (repo : RepoRow) (url : string) :
  Forall score_ok (run_playwright_checks db repo url) /\
  match get_task_by_nonce db (repo_nonce repo) with
  | None => run_playwright_checks db repo url = []
  | Some task =>
      (forall p0,
          PLAYWRIGHT_AVAILABLE = true -> launch = Ok p0 ->
          match goto url p0 with
          | (GotoOk, _) =>
              length (run_playwright_checks db repo url)
              = supported_count (task_checks task)
          | (GotoTimeout, _) =>
              run_playwright_checks db repo url = [page_load_failed repo "timeout"] /\
              load_failure (run_playwright_checks db repo url)
          | (GotoError e, _) =>
              run_playwright_checks db repo url = [page_load_failed repo e] /\
              load_failure (run_playwright_checks db repo url)
          end) /\
      (PLAYWRIGHT_AVAILABLE = false \/ (exists e, launch = Raise e) ->
       match http_get url with
       | Ok (status_code, _) =>
           if (status_code =? 200)%Z then
             length (run_playwright_checks db repo url)
             = supported_count (task_checks task)
           else
             run_playwright_checks db repo url
             = [_create_result repo "page_load" 0
                  ("HTTP " +:+ str_of_Z status_code) EmptyString] /\
             load_failure (run_playwright_checks db repo url)
       | Raise e =>
           run_playwright_checks db repo url = [http_fallback_error repo e] /\
           load_failure (run_playwright_checks db repo url)
       end)
  end.
Proof.
  unfold run_playwright_checks.
  destruct (get_task_by_nonce db (repo_nonce repo)) as [task|]; [|by split].
  assert (Hone : forall r, r_score r = 0%Q ->
                   r_check r = "page_load" \/ r_check r = "http_fallback" ->
                   load_failure [r]) by (intros r ? ?; by exists r).
  assert (Hstatic :
            Forall score_ok (_http_fallback_checks url (task_checks task) repo) /\
            match http_get url with
            | Ok (status_code, _) =>
                if (status_code =? 200)%Z then
                  length (_http_fallback_checks url (task_checks task) repo)
                  = supported_count (task_checks task)
                else
                  _http_fallback_checks url (task_checks task) repo
                  = [_create_result repo "page_load" 0
                       ("HTTP " +:+ str_of_Z status_code) EmptyString] /\
                  load_failure (_http_fallback_checks url (task_checks task) repo)
            | Raise e =>
                _http_fallback_checks url (task_checks task) repo
                = [http_fallback_error repo e] /\
                load_failure (_http_fallback_checks url (task_checks task) repo)
            end).
  { unfold _http_fallback_checks. destruct (http_get url) as [[st s]|e].
    - destruct (st =? 200)%Z; cbn [negb].
      + destruct (http_loop_spec s (task_checks task) repo []) as (rs & -> & ? & ?).
        done.
      + split; [apply load_failure_score|split; [done|]]; apply Hone; auto.
    - split; [apply load_failure_score|split; [done|]]; apply Hone; auto. }
  destruct Hstatic as [Hscore Hends].
  destruct PLAYWRIGHT_AVAILABLE.
  2: { split; [exact Hscore|]. split; [discriminate | intros _; exact Hends]. }
  destruct launch as [p0|e0].
  2: { split; [exact Hscore|]. split; [discriminate | intros _; exact Hends]. }
  split.
  - destruct (goto url p0) as [[| |e] p1].
    + destruct (check_loop_spec (task_checks task) repo [] p1)
        as (rs & p' & -> & ? & ?). done.
    + apply load_failure_score, Hone; auto.
    + apply load_failure_score, Hone; auto.
  - split.
    + intros p _ [= <-]. destruct (goto url p0) as [[| |e] p1].
      * destruct (check_loop_spec (task_checks task) repo [] p1)
          as (rs & p' & -> & ? & ?). done.
      * split; [done | apply Hone; auto].
      * split; [done | apply Hone; auto].
    + intros [Hf | [e He]]; discriminate.
Qed.

End EngineRuns.

(** ** The static backend on buttons *)

Section StaticButtons.
Context `{Builtins}.
Import Db Evaluate.

(** Some option occurs, once both are in lower case, in the text of
    some button. *)
Definition some_button_matches (texts btns : list string) : bool :=
  existsb (fun t => existsb (fun b => contains (lower t) (lower b)) btns) texts.

Lemma any_button_strings t btns :
  any_button (VStr t) btns = Ok (existsb (fun b => contains (lower t) (lower b)) btns).
Proof.
  induction btns as [|b rest IH]; cbn [any_button existsb]; [done|].
  unfold mbind, exc_bind. cbn [lower_of].
  destruct (contains (lower t) (lower b)); [done | exact IH].
Qed.

Lemma find_text_strings texts btns :
  find_text (map VStr texts) btns = Ok (some_button_matches texts btns).
Proof.
  induction texts as [|t rest IH]; cbn [map find_text]; [done|].
  rewrite any_button_strings. unfold mbind, exc_bind.
  unfold some_button_matches. cbn [existsb].
  destruct (existsb _ btns); [done | exact IH].
Qed.

(** Under the static backend a [button_exists] check with a list of
    strings gets the score 1 exactly when one of the strings, put in
    lower case by [str.lower], occurs in the text of a button or input
    of the page, put in lower case likewise, and the score 0
    otherwise; it never fails. *)
Theorem static_button_exists (s : soup) (check : dict) (repo : RepoRow)
    (texts : list string) :
  dict_get check "type" = Some (VStr "button_exists") ->
  dict_get check "text" = Some (VList (map VStr texts)) ->
  exists r,
    _http_run_single_check s check repo = Ok (Some r) /\
    r_check r = "button_check" /\
    r_score r = (if some_button_matches texts (button_texts s) then 1 else 0)%Q.
Proof.
  intros Hty Htx. unfold _http_run_single_check, http_dispatch, dict_get_default.
  rewrite Hty, Htx.
  change (is_type (VStr "button_exists") "element_exists") with false.
  change (is_type (VStr "button_exists") "button_exists") with true.
  cbv iota. cbn [as_options iter]. unfold mbind, exc_bind at 1.
  rewrite find_text_strings. unfold mbind, exc_bind, try_except, mret, exc_ret.
  eexists. split; [reflexivity|]. done.
Qed.

End StaticButtons.

Section StaticButtonsSample.
Import TaskTemplates Db Evaluate Sample.

(** The calculator's check for a clear button, on the sample page whose
    buttons read "Clear" and "=". *)
Definition clear_button : dict :=
  dict_lit [("type", VStr "button_exists");
            ("text", VList [VStr "C"; VStr "Clear"; VStr "AC"])].

Lemma static_button_exists_witness :
  exists r,
    _http_run_single_check page_soup clear_button calc_repo = Ok (Some r) /\
    r_check r = "button_check" /\ r_score r = 1%Q.
Proof.
  destruct (static_button_exists page_soup clear_button calc_repo
              ["C"; "Clear"; "AC"] eq_refl eq_refl) as (r & Hr & Hc & Hs).
  exists r. split; [exact Hr|]. split; [exact Hc | exact Hs].
Defined.

End StaticButtonsSample.

(** ** The round-2 batch *)

Section Round2Facts.
Context `{Builtins} `{Hashlib} `{Random} `{World.Env}.
Import Requests World TaskTemplates Db Round2 Round2Batch.

(** No column of [tasks] is named [secret]. *)
Lemma getitem_secret row : getitem row "secret" = Raise "'secret'".
Proof. reflexivity. Qed.

Lemma getitem_endpoint row : getitem row "endpoint" = Ok (task_endpoint row).
Proof. reflexivity. Qed.

(** The ledger, the network and the sleeps as a call found them. *)
Definition untouched (st st' : Round1.state) : Prop :=
  Round1.db st' = Round1.db st /\ Round1.net st' = Round1.net st /\
  Round1.slept st' = Round1.slept st.

Lemma untouched_refl st : untouched st st.
Proof. by repeat split. Qed.

Lemma untouched_trans st1 st2 st3 :
  untouched st1 st2 -> untouched st2 st3 -> untouched st1 st3.
Proof.
  intros (? & ? & ?) (? & ? & ?). repeat split; congruence.
Qed.

(** What the turn of the loop needs of [generate_round2_task]. *)
Lemma generate_round2_task_gives_none (repo : RepoRow) (st : Round1.state) :
  untouched st (snd (generate_round2_task repo st)) /\
  match fst (generate_round2_task repo st) with
  | Ok (Some _) => False
  | _ => True
  end.
Proof.
  unfold generate_round2_task. cbv zeta.
  destruct (get_template_from_task_id (repo_task repo)); [|done].
  destruct (generate _ 2 _ _ _) as [[content|e] g]; [|done].
  destruct (get_task_by_nonce _ _); [|done].
  by rewrite getitem_endpoint, getitem_secret.
Qed.

(** [generate_round2_task] never returns a task.  It returns [None]
    when the task id of the repo names no template or the ledger has no
    task for the repo's nonce; otherwise it raises: the [KeyError] of
    [original_task['secret']], the table having no such column, unless
    [template.generate] raised before. *)
Theorem round2_task_is_never_built (repo : RepoRow) (st : Round1.state) :
  untouched st (snd (generate_round2_task repo st)) /\
  match fst (generate_round2_task repo st) with
  | Ok (Some _) => False
  | Ok None =>
      get_template_from_task_id (repo_task repo) = None \/
      get_task_by_nonce (Round1.db st) (repo_nonce repo) = None
  | Raise e =>
      exists template,
        get_template_from_task_id (repo_task repo) = Some template /\
        (e = "'secret'" \/
         fst (generate template 2 (repo_email repo)
                (strftime_hour (utcnow (Round1.clock st))) (Round1.rng st))
         = Raise e)
  end.
Proof.
  unfold generate_round2_task. cbv zeta.
  destruct (get_template_from_task_id (repo_task repo)) as [template|];
    [|by split; [|left]].
  destruct (generate template 2 _ _ _) as [[content|e] g] eqn:Hg.
  - destruct (get_task_by_nonce _ _) as [original|]; [|by split; [|right]].
    rewrite getitem_endpoint, getitem_secret. cbn.
    split; [done|]. exists template. split; [done | by left].
  - split; [done|]. exists template. split; [done | right; by rewrite Hg].
Qed.

Lemma round2_turn_cases repo (st : Round1.state) c :
  match process_one repo st c with
  | Next st' c' =>
      untouched st st' /\ Round1.processed c' = Round1.processed c /\
      (Round1.skipped c' + Round1.failed c'
       = S (Round1.skipped c + Round1.failed c))%nat
  | Abort _ st' => untouched st st'
  end.
Proof.
  unfold process_one.
  destruct (should_generate_round2 repo (Round1.db st)); cbn [negb];
    [|split; [apply untouched_refl | cbn; lia]].
  pose proof (generate_round2_task_gives_none repo st) as [Hu Hr].
  destruct (generate_round2_task repo st) as [[[task|]|e] st1];
    cbn [fst snd] in Hu, Hr; [done | | done].
  split; [done | cbn; lia].
Qed.

Lemma round2_loop_facts repos : forall (st : Round1.state) c,
  untouched st (snd (process_loop repos st c)) /\
  match fst (process_loop repos st c) with
  | Ok c' =>
      Round1.processed c' = Round1.processed c /\
      (Round1.skipped c' + Round1.failed c'
       = Round1.skipped c + Round1.failed c + length repos)%nat
  | Raise _ => True
  end.
Proof.
  induction repos as [|repo rest IH]; intros st c; cbn [process_loop length].
  - split; [apply untouched_refl | cbn; lia].
  - pose proof (round2_turn_cases repo st c) as Hone.
    destruct (process_one repo st c) as [st' c'|e st'].
    + destruct Hone as (Hu & Hp & Hs). destruct (IH st' c') as [IHu IHc].
      split; [by eapply untouched_trans|].
      destruct (fst (process_loop rest st' c')); [lia | done].
    + by split.
Qed.

(** [process_repos] sends nothing and records nothing: whatever the
    ledger holds, it leaves every table as it found it, makes no POST
    and does not sleep.  When it returns, nothing was processed, and
    every round-1 repo was counted as skipped or as failed. *)
Theorem process_repos_sends_nothing (st : Round1.state) :
  Round1.db (snd (process_repos st)) = Round1.db st /\
  Round1.net (snd (process_repos st)) = Round1.net st /\
  Round1.slept (snd (process_repos st)) = Round1.slept st /\
  match fst (process_repos st) with
  | Ok c =>
      Round1.processed c = 0%nat /\
      (Round1.skipped c + Round1.failed c)%nat
      = length (get_repos_to_evaluate (Round1.db st) (Some 1%Z))
  | Raise _ => True
  end.
Proof.
  unfold process_repos.
  destruct (round2_loop_facts (get_repos_to_evaluate (Round1.db st) (Some 1%Z)) st
              {| Round1.processed := 0; Round1.skipped := 0; Round1.failed := 0 |})
    as [(Hd & Hn & Hs) Hc].
  repeat split; [done | done | done |].
  destruct (fst (process_loop _ _ _)); [|done].
  cbn in Hc. destruct Hc as [Hp Hsum]. split; [exact Hp | exact Hsum].
Qed.

(** A round-1 repo that is eligible for round 2, whose task id names a
    template, whose round-2 content is generated and whose round-1
    task is in the ledger, ends the run when it comes first: the
    [KeyError] of ['secret'] leaves [process_repos], and the repos after
    it are not looked at. *)
Theorem eligible_repo_ends_round2 (st : Round1.state) (repo : RepoRow)
    (rest : list RepoRow) (template : TaskTemplate) (content : content)
    (g : rng_state) (original : TaskRow) :
  get_repos_to_evaluate (Round1.db st) (Some 1%Z) = repo :: rest ->
  should_generate_round2 repo (Round1.db st) = true ->
  get_template_from_task_id (repo_task repo) = Some template ->
  generate template 2 (repo_email repo)
    (strftime_hour (utcnow (Round1.clock st))) (Round1.rng st) = (Ok content, g) ->
  get_task_by_nonce (Round1.db st) (repo_nonce repo) = Some original ->
  fst (process_repos st) = Raise "'secret'".
Proof.
  intros Hrepos Hshould Htemplate Hgen Horiginal.
  unfold process_repos. rewrite Hrepos. cbn [process_loop].
  unfold process_one. rewrite Hshould. cbn [negb].
  unfold generate_round2_task. cbv zeta. rewrite Htemplate, Hgen, Horiginal.
  reflexivity.
Qed.

End Round2Facts.

Section Round2Sample.
Import Requests World TaskTemplates Db Round2 Round2Batch Sample.

(** The ledger after round 1: the task sent, the repo submitted, and
    no result yet. *)
Definition submitted_db : Database :=
  {| tasks := [calc_task]; repos := [calc_repo]; results := [] |}.

Definition round2_start : Round1.state :=
  {| Round1.db := submitted_db; Round1.rng := fresh_rng; Round1.clock := 0;
     Round1.uuids := 0; Round1.net := 0; Round1.slept := [] |}.

Lemma eligible_repo_ends_round2_witness :
  fst (process_repos round2_start) = Raise "'secret'".
Proof.
  destruct (generate calculator 2 (repo_email calc_repo)
              (strftime_hour (utcnow 0)) fresh_rng) as [[content|e] g] eqn:Hg;
    [|vm_compute in Hg; discriminate].
  apply (eligible_repo_ends_round2 round2_start calc_repo [] calculator content g
           calc_task); [vm_compute; reflexivity .. | exact Hg | vm_compute; reflexivity].
Defined.

End Round2Sample.

(** ** The checks of a repository and the evaluation loop *)

Section LicenseFacts.
Context `{Builtins} `{EvaluateRepo.Web}.
Import Db Evaluate EvaluateRepo.

Lemma startswith_app p q s : startswith (p +:+ q) s = true -> startswith p s = true.
Proof.
  revert s. induction p as [|a p IH]; intros s; [by destruct s|].
  destruct s as [|b s]; [done|].
  change (String a p +:+ q) with (String a (p +:+ q)). cbn [startswith].
  destruct (Ascii.eqb a b); [apply IH | done].
Qed.

Lemma contains_app p q s : contains (p +:+ q) s = true -> contains p s = true.
Proof.
  induction s as [|b s IH].
  - cbn [contains]. rewrite !orb_false_r. apply startswith_app.
  - cbn [contains]. intros [Hs|Hc]%orb_true_iff; apply orb_true_iff.
    + left. by eapply startswith_app.
    + right. by apply IH.
Qed.

(** [check_mit_license] gives score 1 exactly when the fetch of
    [LICENSE] answers 200 and the letters [mit] occur in a row, in any
    case, somewhere in the text; in every other case, an exception of
    the fetch included, it gives score 0.  The result is always named
    [mit_license]. *)
Theorem mit_license_score (repo_url commit_sha : string) :
  v_check (check_mit_license repo_url commit_sha) = "mit_license" /\
  (v_score (check_mit_license repo_url commit_sha) = 1%Q <->
   exists text,
     get (license_url repo_url commit_sha) = Ok (200%Z, text) /\
     contains "mit" (lower text) = true) /\
  (v_score (check_mit_license repo_url commit_sha) = 1%Q \/
   v_score (check_mit_license repo_url commit_sha) = 0%Q).
Proof.
  unfold check_mit_license.
  destruct (get (license_url repo_url commit_sha)) as [[status text]|e].
  2: { split; [done|]. split; [|by right].
       split; [done | by intros (? & ? & ?)]. }
  destruct (status =? 200)%Z eqn:Hs.
  2: { split; [done|]. split; [|by right]. split; [done|].
       intros (text' & [= -> _] & _). done. }
  apply Z.eqb_eq in Hs as ->.
  destruct (contains "mit license" (lower text)) eqn:Hl.
  { apply (contains_app "mit" " license") in Hl. cbn [orb].
    split; [done|]. split; [|by left]. split; [by exists text | done]. }
  cbn [orb]. destruct (contains "mit" (lower text)) eqn:Hm.
  - split; [done|]. split; [|by left]. split; [by exists text | done].
  - split; [done|]. split; [|by right]. split; [done|].
    intros (text' & [= <-] & Hc). congruence.
Qed.

End LicenseFacts.

Section LoopFacts.
Context `{Builtins} `{Evaluate.Playwright} `{Evaluate.Http} `{EvaluateRepo.Web}
        `{Db.Sqlite}.
Import Db Evaluate EvaluateRepo.

Variable created_after_task : TaskRow -> RepoRow -> bool * string.
Variable evaluate_readme evaluate_code_quality : string -> string -> verdict.
Variable stamp : nat -> string.
Variable now : string.

(** [main] of evaluate.py, run on the checks of that file. *)
Definition evaluation (round_filter : option Z) (db : Database) : Database * tally :=
  main (evaluate_repo created_after_task evaluate_readme evaluate_code_quality stamp)
       now round_filter db.

(** The row a dictionary of [check_repo_creation_time] makes. *)
Definition creation_row (repo : RepoRow) (db : Database) : ResultRow :=
  let r := check_repo_creation_time created_after_task repo db in
  {| res_timestamp := stamp 0; res_email := r_email r; res_task := r_task r;
     res_round := r_round r; res_repo_url := r_repo_url r;
     res_commit_sha := r_commit_sha r; res_pages_url := r_pages_url r;
     res_check := r_check r; res_score := Some (r_score r);
     res_reason := Some (r_reason r); res_logs := Some (r_logs r) |}.

Lemma creation_row_check repo db : res_check (creation_row repo db) = "repo_creation_time".
Proof.
  unfold creation_row, check_repo_creation_time.
  destruct (get_task_by_nonce db (repo_nonce repo)); [|done].
  by destruct (created_after_task _ _).
Qed.

(** A dictionary of four keys is refused: it has no ['email']. *)
Lemma insert_bare db v : insert_result now db (bare v) = Raise "'email'".
Proof. reflexivity. Qed.

Lemma insert_creation repo db :
  insert_result now db
    (full (stamp 0) (check_repo_creation_time created_after_task repo db))
  = if bare_check_is_column
    then Ok (Z.of_nat (S (length (results db))),
             set_results db (results db ++ [creation_row repo db]))
    else Raise ("near " +:+ dq +:+ "check" +:+ dq +:+ ": syntax error").
Proof. reflexivity. Qed.

(** Saving the results of a repository stops at the first or at the
    second dictionary: the statement is rejected, or the second
    dictionary has no ['email']. *)
Lemma save_results_stops repo db :
  exists e,
    match evaluate_repo created_after_task evaluate_readme evaluate_code_quality
            stamp repo db with
    | Ok rs =>
        save_results now rs db =
        (Raise e,
         if bare_check_is_column
         then set_results db (results db ++ [creation_row repo db])
         else db)
    | Raise _ => False
    end.
Proof.
  unfold evaluate_repo. cbv zeta. cbn [save_results].
  rewrite insert_creation.
  destruct bare_check_is_column; [|by eexists].
  rewrite insert_bare. by eexists.
Qed.

(** What the loop has done to the ledger: rows of [repo_creation_time]
    appended to [results], nothing else. *)
Definition only_creation_rows (db db' : Database) (n : nat) : Prop :=
  tasks db' = tasks db /\ repos db' = repos db /\
  exists rows,
    results db' = results db ++ rows /\
    Forall (fun r => res_check r = "repo_creation_time") rows /\
    length rows = if bare_check_is_column then n else 0%nat.

Lemma evaluate_one_fails repo db t :
  let out :=
    evaluate_one
      (evaluate_repo created_after_task evaluate_readme evaluate_code_quality stamp)
      now repo db t in
  evaluated (snd out) = evaluated t /\
  only_creation_rows db (fst out) (failed (snd out) - failed t).
Proof.
  unfold evaluate_one. cbv zeta.
  destruct (result_exists db _ _ _).
  { cbn [fst snd]. split; [done|]. repeat split. exists [].
    rewrite app_nil_r, Nat.sub_diag. by destruct bare_check_is_column. }
  destruct (save_results_stops repo db) as [e He].
  destruct (evaluate_repo _ _ _ _ repo db) as [rs|]; [|done].
  rewrite He. cbn [fst snd evaluated failed]. split; [done|].
  replace (S (failed t) - failed t)%nat with 1%nat by lia.
  unfold only_creation_rows.
  destruct bare_check_is_column; cbn [tasks repos results set_results].
  - repeat split. exists [creation_row repo db].
    split; [done|]. split; [|done].
    apply Forall_singleton, creation_row_check.
  - repeat split. exists []. by rewrite app_nil_r.
Qed.

Lemma evaluate_one_failed_grows repo db t :
  (failed t <= failed (snd (evaluate_one
      (evaluate_repo created_after_task evaluate_readme evaluate_code_quality stamp)
      now repo db t)))%nat.
Proof.
  unfold evaluate_one. destruct (result_exists db _ _ _); [done|].
  destruct (evaluate_repo _ _ _ _ repo db) as [rs|]; [|cbn; lia].
  destruct (save_results now rs db) as [[|] ?]; cbn; lia.
Qed.

Lemma only_creation_rows_trans db1 db2 db3 n m :
  only_creation_rows db1 db2 n -> only_creation_rows db2 db3 m ->
  only_creation_rows db1 db3 (n + m).
Proof.
  intros (T1 & R1 & l1 & E1 & F1 & L1) (T2 & R2 & l2 & E2 & F2 & L2).
  split; [congruence|]. split; [congruence|].
  exists (l1 ++ l2). rewrite E2, E1, <- app_assoc, length_app, L1, L2.
  split; [done|]. split; [by apply Forall_app|].
  by destruct bare_check_is_column.
Qed.

Lemma evaluate_all_fails repos : forall db t,
  let out :=
    evaluate_all
      (evaluate_repo created_after_task evaluate_readme evaluate_code_quality stamp)
      now repos db t in
  evaluated (snd out) = evaluated t /\ (failed t <= failed (snd out))%nat /\
  only_creation_rows db (fst out) (failed (snd out) - failed t).
Proof.
  induction repos as [|repo rest IH]; intros db t; cbn [evaluate_all]; cbv zeta.
  - cbn [fst snd]. split; [done|]. split; [done|]. repeat split. exists [].
    rewrite app_nil_r, Nat.sub_diag. by destruct bare_check_is_column.
  - pose proof (evaluate_one_fails repo db t) as [He Ho].
    pose proof (evaluate_one_failed_grows repo db t) as Hg.
    destruct (evaluate_one _ now repo db t) as [db' t']. cbn [fst snd] in He, Ho, Hg.
    destruct (IH db' t') as (IHe & IHg & IHo).
    split; [congruence|]. split; [lia|].
    replace (failed (snd (evaluate_all _ now rest db' t')) - failed t)%nat
      with ((failed t' - failed t)
            + (failed (snd (evaluate_all
                 (evaluate_repo created_after_task evaluate_readme
                    evaluate_code_quality stamp) now rest db' t')) - failed t'))%nat
      by lia.
    by eapply only_creation_rows_trans.
Qed.

(** *** The count of the failures *)

(** The repositories of a list that have no result in the ledger. *)
Definition pending (db : Database) (rs : list RepoRow) : list RepoRow :=
  filter (fun r => result_exists db (repo_email r) (repo_task r) (repo_round r) = false)
         rs.

Definition repo_id (r : RepoRow) : string * string * Z :=
  (repo_email r, repo_task r, repo_round r).

Lemma creation_row_key repo db :
  res_email (creation_row repo db) = repo_email repo /\
  res_task (creation_row repo db) = repo_task repo /\
  res_round (creation_row repo db) = repo_round repo.
Proof.
  unfold creation_row, check_repo_creation_time.
  destruct (get_task_by_nonce db (repo_nonce repo)); [|done].
  by destruct (created_after_task _ _).
Qed.

(** A row appended for one repository is not a result of another. *)
Lemma result_exists_other db repo other :
  repo_id other <> repo_id repo ->
  result_exists (set_results db (results db ++ [creation_row repo db]))
    (repo_email other) (repo_task other) (repo_round other)
  = result_exists db (repo_email other) (repo_task other) (repo_round other).
Proof.
  intros Hne. unfold result_exists. cbn [results set_results].
  rewrite filter_app, length_app.
  rewrite filter_cons_False; [by rewrite Nat.add_0_r|].
  destruct (creation_row_key repo db) as (He & Ht & Hr).
  unfold result_key. rewrite He, Ht, Hr. intros Hk.
  apply andb_true_iff in Hk as [[Hk1 Hk2]%andb_true_iff Hk3].
  apply String.eqb_eq in Hk1, Hk2. apply Z.eqb_eq in Hk3.
  apply Hne. unfold repo_id. congruence.
Qed.

(** One turn of the loop: a repository with a result is passed over;
    any other is counted as failed, and the ledger has at most got its
    row of [repo_creation_time]. *)
Lemma evaluate_one_counts repo db t :
  let out :=
    evaluate_one
      (evaluate_repo created_after_task evaluate_readme evaluate_code_quality stamp)
      now repo db t in
  if result_exists db (repo_email repo) (repo_task repo) (repo_round repo)
  then out = (db, t)
  else failed (snd out) = S (failed t) /\
       fst out = if bare_check_is_column
                 then set_results db (results db ++ [creation_row repo db])
                 else db.
Proof.
  unfold evaluate_one. cbv zeta.
  destruct (result_exists db _ _ _); [done|].
  destruct (save_results_stops repo db) as [e He].
  destruct (evaluate_repo _ _ _ _ repo db) as [rs|]; [|done].
  rewrite He. done.
Qed.

(** The loop counts as failed every repository of its list that had no
    result at the start, when the engine rejects the statement of
    [insert_result], and also when it takes it, if no two repositories
    of the list are for the same (email, task, round). *)
Lemma evaluate_all_counts rs : forall db0 db t,
  bare_check_is_column = false \/ NoDup (map repo_id rs) ->
  (forall r, r ∈ rs ->
     result_exists db (repo_email r) (repo_task r) (repo_round r)
     = result_exists db0 (repo_email r) (repo_task r) (repo_round r)) ->
  failed (snd (evaluate_all
                 (evaluate_repo created_after_task evaluate_readme
                    evaluate_code_quality stamp) now rs db t))
  = (failed t + length (pending db0 rs))%nat.
Proof.
  induction rs as [|repo rest IH]; intros db0 db t Hcase Hsame;
    cbn [evaluate_all]; cbv zeta.
  - cbn. lia.
  - pose proof (evaluate_one_counts repo db t) as Hone. cbv zeta in Hone.
    pose proof (Hsame repo ltac:(by left)) as Hhead.
    assert (Hrest : bare_check_is_column = false \/ NoDup (map repo_id rest)).
    { destruct Hcase as [Hb|Hn]; [by left|]. right.
      cbn [map] in Hn. by apply NoDup_cons_1_2 in Hn. }
    unfold pending. rewrite filter_cons. fold (pending db0 rest).
    destruct (evaluate_one _ now repo db t) as [db' t'].
    rewrite Hhead in Hone.
    destruct (result_exists db0 (repo_email repo) (repo_task repo) (repo_round repo)).
    + injection Hone as -> ->. rewrite decide_False by done.
      apply IH; [exact Hrest|]. intros r Hr. apply Hsame. by right.
    + cbn [fst snd] in Hone. destruct Hone as [Hf Hdb].
      rewrite decide_True by done. cbn [length].
      rewrite (IH db0 db' t' Hrest); [lia|].
      intros r Hr. rewrite <- (Hsame r) by (by right). subst db'.
      destruct Hcase as [Hb|Hn]; [by rewrite Hb|].
      destruct bare_check_is_column; [|done].
      apply result_exists_other. cbn [map] in Hn.
      apply NoDup_cons_1_1 in Hn. intros Heq. apply Hn.
      rewrite <- Heq. apply list_elem_of_fmap. by exists r.
Qed.

(** The list [main] goes through. *)
Definition selected (round_filter : option Z) (db : Database) : list RepoRow :=
  match round_filter with
  | Some r =>
      if (r =? 0)%Z then get_repos_to_evaluate db None
      else get_repos_without_results db r
  | None => get_repos_to_evaluate db None
  end.

Lemma selected_sublist round_filter db : selected round_filter db `sublist_of` repos db.
Proof.
  unfold selected, get_repos_to_evaluate, get_repos_without_results.
  destruct round_filter as [r|]; [|done].
  destruct (r =? 0)%Z; [done | apply sublist_filter].
Qed.

(** [main] never counts a repository as evaluated.  Each repository
    of its list that has no result yet is counted as failed: the
    statement of [insert_result] is rejected, or else the first
    dictionary is stored and the second, of [check_mit_license], has no
    ['email'].  So the run leaves [tasks] and [repos] as they were and
    adds to [results] nothing but rows of [repo_creation_time], one for
    each failure if the engine takes the statement and none if it does
    not; and the failures counted are the repositories of the list
    without a result, when the engine rejects the statement and also
    when it takes it, given the [UNIQUE] constraint of [repos]. *)
Theorem main_counts_no_evaluation (round_filter : option Z) (db : Database) :
  evaluated (snd (evaluation round_filter db)) = 0%nat /\
  tasks (fst (evaluation round_filter db)) = tasks db /\
  repos (fst (evaluation round_filter db)) = repos db /\
  (exists rows,
    results (fst (evaluation round_filter db)) = results db ++ rows /\
    Forall (fun r => res_check r = "repo_creation_time") rows /\
    length rows = if bare_check_is_column
                  then failed (snd (evaluation round_filter db))
                  else 0%nat) /\
  (bare_check_is_column = false \/ repos_unique db ->
   failed (snd (evaluation round_filter db))
   = length (pending db (selected round_filter db))).
Proof.
  assert (Hcount : bare_check_is_column = false \/ repos_unique db ->
            failed (snd (evaluation round_filter db))
            = length (pending db (selected round_filter db))).
  { intros Hcase. unfold evaluation, main. fold (selected round_filter db).
    rewrite (evaluate_all_counts (selected round_filter db) db db); [done| |done].
    destruct Hcase as [Hb|Hu]; [by left|]. right.
    eapply sublist_NoDup; [exact Hu|].
    apply fmap_sublist, selected_sublist. }
  revert Hcount. unfold evaluation, main. intros Hcount.
  match goal with
  | |- context [evaluate_all _ now ?rs db ?t0] =>
      destruct (evaluate_all_fails rs db t0) as (He & _ & Ht & Hr & rows & E & F & L)
  end.
  cbn [evaluated failed] in He, L. rewrite Nat.sub_0_r in L.
  split; [exact He|]. split; [exact Ht|]. split; [exact Hr|].
  split; [by exists rows | exact Hcount].
Qed.

End LoopFacts.

(** ** Secrets and the validation of build requests *)

Section SecretFacts.
Context `{Hashlib}.
Import SecretManager.

(** A secret that [register_secret] took is verified afterwards; any
    other text is verified for that email only if its salted digest is
    the same; and what is verified for the other emails is as before. *)
Theorem registered_secret_verifies (email secret : string) (s s' : secrets) :
  register_secret email secret s = (true, s') ->
  verify_secret email secret s' = true /\
  (forall x, verify_secret email x s' = true <->
             _hash_secret x email = _hash_secret secret email) /\
  (forall other x, other <> email ->
                   verify_secret other x s' = verify_secret other x s).
Proof.
  unfold register_secret. cbv zeta.
  destruct (String.eqb email EmptyString || String.eqb secret EmptyString); [done|].
  destruct (len secret <? 8)%nat; [done|].
  intros [= <-]. unfold verify_secret, secrets in *. split; [|split].
  - rewrite lookup_insert_eq. apply String.eqb_refl.
  - intros x. rewrite lookup_insert_eq. apply String.eqb_eq.
  - intros other x Hne. by rewrite lookup_insert_ne.
Qed.

End SecretFacts.

Section SecretSample.
Import SecretManager Sample.

Lemma registered_secret_verifies_witness :
  verify_secret "student@example.com" "test-secret-12345"
    (snd (register_secret "student@example.com" "test-secret-12345" ∅)) = true.
Proof.
  refine (proj1 (registered_secret_verifies "student@example.com"
                   "test-secret-12345" ∅
                   (snd (register_secret "student@example.com" "test-secret-12345" ∅))
                   _)).
  vm_compute. reflexivity.
Defined.

End SecretSample.

Section ValidatorFacts.
Import RequestValidator.
Variable EMAIL_PATTERN : string -> bool.

Lemma nonempty_of_length (s : string) (n : nat) :
  (len s <? S n)%nat = false -> String.eqb s EmptyString = false.
Proof. by destruct s. Qed.

(** The secret check of [validate_revision_request] never fails:
    [validate_request] has just stored the secret of the request under
    its task id, so the stored secret is there and is the one
    provided.  A revision request is accepted exactly when the same
    request is accepted as a build request, with the same message and
    the same stored secrets, and no exception is raised. *)
Theorem revision_check_is_vacuous (request : request_data) (s : stored_secrets) :
  validate_revision_request EMAIL_PATTERN request s
  = (Ok (fst (validate_request EMAIL_PATTERN request s)),
     snd (validate_request EMAIL_PATTERN request s)).
Proof.
  unfold validate_revision_request, validate_request, required.
  unfold stored_secrets in *.
  destruct request as [[e|] [sec|] [t|] [r|] [n|] [b|] [c|] [u|]];
    cbv beta iota; cbn [email secret task round nonce brief checks evaluation_url];
    cbv beta iota; try done.
  destruct (EMAIL_PATTERN e); cbn [negb]; [|done].
  destruct (String.eqb sec EmptyString) eqn:Hs; cbn [orb]; [done|].
  destruct (len sec <? 8)%nat; [done|].
  destruct (String.eqb t EmptyString || (len t <? 3)%nat); [done|].
  destruct (r <? 1)%Z; [done|].
  destruct (String.eqb n EmptyString); [done|].
  destruct (String.eqb b EmptyString || (len b <? 10)%nat); [done|].
  destruct (length c =? 0)%nat; [done|].
  destruct (negb (startswith "http://" u) && negb (startswith "https://" u)); [done|].
  cbn [negb fst snd Db.item mbind exc_bind mret exc_ret].
  rewrite lookup_insert_eq, Hs, String.eqb_refl. done.
Qed.

(** [validate_request] stores the secret under the task id as soon as
    the fields are there and the email and the secret have passed,
    before the other fields are looked at: whatever the verdict on
    these, the stored secret of the task has been replaced. *)
Theorem secret_stored_before_verdict (e sec t n b u : string) (r : Z)
    (c : list string) (s : stored_secrets) :
  EMAIL_PATTERN e = true ->
  (8 <= len sec)%nat ->
  snd (validate_request EMAIL_PATTERN
         {| email := Some e; secret := Some sec; task := Some t;
            round := Some r; nonce := Some n; brief := Some b;
            checks := Some c; evaluation_url := Some u |} s)
  = <[t := sec]> s.
Proof.
  intros He Hlen. unfold validate_request, required.
  cbn [email secret task round nonce brief checks evaluation_url].
  cbv beta iota. rewrite He.
  assert (Hl : (len sec <? 8)%nat = false) by (apply Nat.ltb_ge; lia).
  rewrite (nonempty_of_length sec 7 Hl), Hl. cbn [negb orb].
  repeat match goal with |- context [if ?x then _ else _] => destruct x end; done.
Qed.

(** A request that [BuildRequest] admits passes every test of
    [validate_request] but that of the email: the verdict is that of
    [EMAIL_PATTERN] on the email. *)
Theorem admitted_request_validates (request : request_data) (e : string)
    (s : stored_secrets) :
  BuildRequest request = true ->
  email request = Some e ->
  fst (validate_request EMAIL_PATTERN request s)
  = if EMAIL_PATTERN e then (true, EmptyString)
    else (false, "Invalid email format").
Proof.
  unfold BuildRequest, validate_request, required.
  destruct request as [[e'|] [sec|] [t|] [r|] [n|] [b|] [c|] [u|]];
    cbn [email secret task round nonce brief checks evaluation_url];
    cbv beta iota; try done.
  intros Hb [= ->].
  apply andb_prop in Hb as [Hb Hu]. apply andb_prop in Hb as [Hb Hc1].
  apply andb_prop in Hb as [Hb Hb1]. apply andb_prop in Hb as [Hb Hn1].
  apply andb_prop in Hb as [Hb Hr1]. apply andb_prop in Hb as [Hs1 Ht1].
  destruct (EMAIL_PATTERN e); cbn [negb]; [|done].
  assert (Hsec : (len sec <? 8)%nat = false)
    by (apply Nat.ltb_ge; by apply Nat.leb_le).
  assert (Ht : (len t <? 3)%nat = false)
    by (apply Nat.ltb_ge; by apply Nat.leb_le).
  assert (Hbr : (len b <? 10)%nat = false)
    by (apply Nat.ltb_ge; by apply Nat.leb_le).
  assert (Hn : (len n <? 1)%nat = false)
    by (apply Nat.ltb_ge; by apply Nat.leb_le).
  assert (Hr : (r <? 1)%Z = false) by (apply Z.ltb_ge; by apply Z.leb_le).
  assert (Hc : (length c =? 0)%nat = false)
    by (apply Nat.eqb_neq; assert (1 <= length c)%nat by (by apply Nat.leb_le); lia).
  rewrite (nonempty_of_length sec 7 Hsec), Hsec. cbn [orb].
  rewrite (nonempty_of_length t 2 Ht), Ht. cbn [orb].
  rewrite Hr, (nonempty_of_length n 0 Hn), (nonempty_of_length b 9 Hbr), Hbr.
  cbn [orb]. rewrite Hc.
  by destruct (startswith "http://" u), (startswith "https://" u).
Qed.

End ValidatorFacts.

Section ValidatorSample.
Import RequestValidator.

(** A stand-in for the pattern: the text has an [@]. *)
Definition has_at (s : string) : bool := contains "@" s.

(** A request whose brief is too short. *)
Definition short_brief : request_data :=
  {| email := Some "student@example.com"; secret := Some "another-secret";
     task := Some "calculator-ab12c"; round := Some 1%Z; nonce := Some "uuid-0";
     brief := Some "Too short"; checks := Some ["Has a button"];
     evaluation_url := Some "http://localhost:8000/api/evaluation" |}.

Definition full_brief : request_data :=
  {| email := Some "student@example.com"; secret := Some "another-secret";
     task := Some "calculator-ab12c"; round := Some 1%Z; nonce := Some "uuid-0";
     brief := Some "Build a calculator"; checks := Some ["Has a button"];
     evaluation_url := Some "http://localhost:8000/api/evaluation" |}.

Definition one_secret : stored_secrets := {[ "calculator-ab12c" := "first-secret" ]}.

(** A secret of seven characters, two of them accented: nine bytes. *)
Definition accented_secret : request_data :=
  {| email := Some "student@example.com"; secret := Some "sécrèt7";
     task := Some "calculator-ab12c"; round := Some 1%Z; nonce := Some "uuid-0";
     brief := Some "Build a calculator"; checks := Some ["Has a button"];
     evaluation_url := Some "http://localhost:8000/api/evaluation" |}.

(** It is too short for [BuildRequest] and for [validate_request],
    which stores nothing. *)
Lemma accented_secret_is_short :
  BuildRequest accented_secret = false /\
  validate_request has_at accented_secret one_secret
  = ((false, "Secret must be at least 8 characters long"), one_secret).
Proof. split; reflexivity. Qed.

Lemma secret_stored_before_verdict_witness :
  fst (validate_request has_at short_brief one_secret)
  = (false, "Brief must be at least 10 characters long") /\
  snd (validate_request has_at short_brief one_secret)
  = <["calculator-ab12c" := "another-secret"]> one_secret.
Proof.
  split; [reflexivity|].
  apply (secret_stored_before_verdict has_at "student@example.com" "another-secret"
           "calculator-ab12c" "uuid-0" "Too short"
           "http://localhost:8000/api/evaluation" 1 ["Has a button"] one_secret).
  - reflexivity.
  - apply Nat.leb_le. reflexivity.
Defined.

Lemma admitted_request_validates_witness :
  fst (validate_request has_at full_brief one_secret) = (true, EmptyString).
Proof.
  apply (admitted_request_validates has_at full_brief "student@example.com" one_secret);
    reflexivity.
Defined.

End ValidatorSample.

(** ** The briefs of the catalog *)

Section CatalogFacts.
Context `{Builtins} `{Hashlib} `{Random}.
Import TaskTemplates.

Lemma choice_elem_of {A} (options : list A) (g g' : rng_state) (v : A) :
  choice options g = (Ok v, g') -> v ∈ options.
Proof.
  unfold choice. destruct options as [|o os]; [discriminate|].
  destruct (randbelow _ g) as [i g1].
  destruct ((o :: os) !! i) as [x|] eqn:Hi; [|discriminate].
  intros [= <- _]. by eapply list_elem_of_lookup_2.
Qed.

(** Every brief the loop of [generate] can arrive at, one for each way
    of choosing among the options. *)
Fixpoint all_briefs (ps : list (string * list pyval)) (b : string) : list string :=
  match ps with
  | [] => [b]
  | (key, options) :: rest =>
      flat_map (fun value => all_briefs rest (replace ("{" +:+ key +:+ "}") (str value) b))
               options
  end.

Lemma parametrize_in_all_briefs ps : forall b (g g' : rng_state) b',
  parametrize ps b g = (Ok b', g') -> b' ∈ all_briefs ps b.
Proof.
  induction ps as [|[key options] rest IH]; intros b g g' b'; cbn [parametrize all_briefs].
  - intros [= <- _]. apply list_elem_of_singleton. done.
  - destruct (choice options g) as [[value|e] g1] eqn:Hc; [|discriminate].
    intros Hp. apply list_elem_of_In, in_flat_map. exists value. split.
    + apply list_elem_of_In. by eapply choice_elem_of.
    + apply list_elem_of_In. by eapply IH.
Qed.

(** The briefs of one round of a template. *)
Definition briefs_of (config : RoundConfig) : list string :=
  match params config with
  | Some ps => all_briefs ps (brief config)
  | None => [brief config]
  end.

(** No brace is left in any of them. *)
Definition filled (b : string) : bool :=
  negb (has_char "{" b) && negb (has_char "}" b).

Lemma get_template_in tid t : get_template tid = Some t -> In (tid, t) TEMPLATES.
Proof.
  unfold get_template. generalize TEMPLATES.
  induction l as [|[k t'] l IH]; cbn; [discriminate|].
  destruct (String.eqb k tid) eqn:Hk.
  - intros [= ->]. apply String.eqb_eq in Hk as ->. by left.
  - intros Ht. right. by apply IH.
Qed.

Lemma template_filled tid t :
  In (tid, t) TEMPLATES ->
  forallb filled (briefs_of (round1 t)) = true /\
  forallb filled (briefs_of (round2 t)) = true.
Proof.
  unfold TEMPLATES. cbn [In].
  intros [Hin|[Hin|[Hin|[Hin|[Hin|[]]]]]]; injection Hin as _ <-;
    split; vm_compute; reflexivity.
Qed.

Lemma generate_in_briefs_of t round email timestamp (g0 g : rng_state) c :
  generate t round email timestamp g0 = (Ok c, g) ->
  c_brief c ∈ briefs_of (if (round =? 1)%Z then round1 t else round2 t).
Proof.
  unfold generate, briefs_of. cbv zeta.
  destruct (params (if (round =? 1)%Z then round1 t else round2 t)) as [ps|].
  - destruct (parametrize ps _ _) as [[b|e] g1] eqn:Hp; [|discriminate].
    cbn. intros [= <- _]. cbn [c_brief]. by eapply parametrize_in_all_briefs.
  - cbn. intros [= <- _]. cbn [c_brief]. by apply list_elem_of_singleton.
Qed.

(** A brief generated from a template of the catalog is filled in: no
    placeholder is left, indeed no brace, whatever the round, the
    participant, the hour and the draws of the generator. *)
Theorem generated_brief_is_filled (tid : string) (t : TaskTemplate) (round : Z)
    (email timestamp : string) (g0 g : rng_state) (c : content) :
  get_template tid = Some t ->
  generate t round email timestamp g0 = (Ok c, g) ->
  has_char "{" (c_brief c) = false /\ has_char "}" (c_brief c) = false.
Proof.
  intros Ht Hg. apply generate_in_briefs_of in Hg.
  destruct (template_filled tid t (get_template_in tid t Ht)) as [Hr1 Hr2].
  rewrite forallb_forall in Hr1, Hr2.
  assert (Hf : filled (c_brief c) = true).
  { apply list_elem_of_In in Hg. destruct (round =? 1)%Z; [by apply Hr1 | by apply Hr2]. }
  unfold filled in Hf. apply andb_prop in Hf as [Ho Hc].
  split; by apply negb_true_iff.
Qed.

End CatalogFacts.

Section CatalogSample.
Import TaskTemplates Sample.

Lemma generated_brief_is_filled_witness :
  forallb (fun b => negb (has_char "{" b) && negb (has_char "}" b))
    (match generate calculator 2 "a@x.com" "2025-10-16-14" fresh_rng with
     | (Ok c, _) => [c_brief c]
     | (Raise _, _) => []
     end) = true.
Proof.
  destruct (generate calculator 2 "a@x.com" "2025-10-16-14" fresh_rng)
    as [[c|e] g] eqn:Hg; [|reflexivity].
  destruct (generated_brief_is_filled "calculator" calculator 2 "a@x.com"
              "2025-10-16-14" fresh_rng g c eq_refl Hg) as [Ho Hc].
  cbn [forallb]. by rewrite Ho, Hc.
Defined.

End CatalogSample.

(** ** From the dispatch to the submission *)

Section FlowFacts.
Context `{Builtins} `{Hashlib} `{Random} `{World.Env}.
Import Requests World TaskTemplates Db Round1 ApiServer.

(** A submission that names a task by its id, round and nonce, from
    the address [from], as validation has left it. *)
Definition submission_for (task : task_data) (from : string)
    (repo_url commit_sha pages_url : string) : EvaluationRequest :=
  {| email := from; task := td_task task; round := td_round task;
     nonce := td_nonce task; repo_url := repo_url; commit_sha := commit_sha;
     pages_url := pages_url |}.

(** The row the endpoint writes for a submission. *)
Definition submitted_row (now : string) (request : EvaluationRequest) : RepoRow :=
  {| repo_timestamp := now; repo_email := email request;
     repo_task := task request; repo_round := round request;
     repo_nonce := nonce request; repo_repo_url := repo_url request;
     repo_commit_sha := commit_sha request;
     repo_pages_url := pages_url request |}.

(** A turn that did not skip has written the row of the task it
    generated, with the status of the dispatch. *)
Lemma process_one_writes sub round (st st' : state) c c' task g :
  generate_task sub round (utcnow (clock st)) (uuid4 (uuids st)) (rng st)
  = (Ok task, g) ->
  process_one sub round st c = Next st' c' ->
  skipped c' = skipped c ->
  exists status error,
    nonce_used (db st) (td_nonce task) = false /\
    db st' =
    set_tasks (db st)
      (tasks (db st) ++
       [{| task_timestamp := td_timestamp task; task_email := td_email task;
           task_task := td_task task; task_round := td_round task;
           task_nonce := td_nonce task; task_brief := td_brief task;
           task_attachments := td_attachments task;
           task_checks := td_checks task;
           task_evaluation_url := td_evaluation_url task;
           task_endpoint := td_endpoint task;
           task_statuscode := Some status; task_error := error |}]).
Proof.
  intros Hg. unfold process_one. rewrite Hg.
  destruct (task_exists _ _ _ _).
  { intros [= _ <-]. cbn. lia. }
  destruct (post_task_to_student _) as [[[status error]|e] tr]; [|discriminate].
  destruct (insert_task _ _) as [[id d]|e] eqn:Hi; [|discriminate].
  intros [= <- _] _. apply insert_task_ok in Hi as (Hn & _ & _ & ->).
  exists status, error. by split.
Qed.

(** A task that the round-1 batch has dispatched can be submitted,
    whatever the dispatch came to, a 200 or a failure after the last
    attempt, and by no other address than the one of the CSV.  For a
    validated request that carries the id, the round and the nonce of
    the task, and with no repo stored for that task before: if its
    email, as [EmailStr] has left it, is the email the task was stored
    with, the endpoint accepts the submission and stores exactly its
    row; if it is another text, be it the same address in another
    spelling, the endpoint answers 400 and stores nothing. *)
Theorem dispatched_task_is_submittable (sub : submission) (round : Z)
    (st st' : state) (c c' : counts) (task : task_data) (g : rng_state)
    (now from repo_url commit_sha pages_url : string) :
  generate_task sub round (utcnow (clock st)) (uuid4 (uuids st)) (rng st)
  = (Ok task, g) ->
  process_one sub round st c = Next st' c' ->
  skipped c' = skipped c ->
  repo_exists (db st) (s_email sub) (td_task task) (td_round task) = false ->
  td_email task = s_email sub /\
  evaluation_endpoint now (submission_for task from repo_url commit_sha pages_url)
    (db st')
  = if String.eqb (s_email sub) from then
      (Success (Z.of_nat (S (length (repos (db st'))))),
       set_repos (db st')
         (repos (db st') ++
          [submitted_row now
             (submission_for task from repo_url commit_sha pages_url)]))
    else (HTTPException 400 "Email does not match the task record.", db st').
Proof.
  intros Hg Hone Hskip Hrepo.
  destruct (process_one_writes sub round st st' c c' task g Hg Hone Hskip)
    as (status & error & Hn & ->).
  assert (He : td_email task = s_email sub).
  { revert Hg. unfold generate_task.
    destruct (get_random_template _ _) as [[t|?] g1]; [|discriminate].
    destruct (generate _ _ _ _ _) as [[tc|?] g2]; [|discriminate].
    by intros [= <- _]. }
  split; [exact He|].
  unfold evaluation_endpoint, get_task_by_nonce.
  cbn [tasks set_tasks submission_for ApiServer.nonce ApiServer.email
       ApiServer.task ApiServer.round].
  rewrite (find_snoc _ _ _ Hn) by apply String.eqb_refl.
  cbn [task_email task_task task_round]. rewrite He.
  destruct (String.eqb (s_email sub) from) eqn:Hfrom; cbn [negb]; [|done].
  apply String.eqb_eq in Hfrom as <-.
  rewrite !String.eqb_refl, Z.eqb_refl. cbn [negb].
  unfold repo_exists in *. cbn [repos set_tasks] in *. rewrite Hrepo.
  unfold insert_repo, repo_exists. cbn [repos set_tasks repo_email repo_task repo_round].
  rewrite Hrepo. reflexivity.
Qed.

End FlowFacts.

Section FlowSample.
Import Requests World TaskTemplates Db Round1 ApiServer Sample.

(** The task of the sample participant, whose server answers 500. *)
Definition sample_task : task_data :=
  match generate_task participant 1 (utcnow 0) (uuid4 0) fresh_rng with
  | (Ok task, _) => task
  | (Raise _, _) => second_task
  end.

Definition after_dispatch : state :=
  match process_one participant 1 start no_counts with
  | Next st _ => st
  | Abort _ st => st
  end.

(** The sample participant, a@x.com, submits under that address and
    is accepted; the same submission from A@x.com is refused. *)
Lemma dispatched_task_is_submittable_witness :
  task_statuscode <$> last (tasks (db after_dispatch)) = Some (Some 500%Z) /\
  fst (evaluation_endpoint "2025-10-16T15:00:00"
         (submission_for sample_task "a@x.com"
            "https://github.com/a/quiz-app-ab12c" "0123abc"
            "https://a.github.io/quiz-app-ab12c/")
         (db after_dispatch))
  = Success 1 /\
  evaluation_endpoint "2025-10-16T15:00:00"
    (submission_for sample_task "A@x.com"
       "https://github.com/a/quiz-app-ab12c" "0123abc"
       "https://a.github.io/quiz-app-ab12c/")
    (db after_dispatch)
  = (HTTPException 400 "Email does not match the task record.", db after_dispatch).
Proof.
  pose proof (fun from =>
    dispatched_task_is_submittable participant 1 start after_dispatch
      no_counts {| processed := 0; skipped := 0; failed := 1 |}
      sample_task (snd (generate_task participant 1 (utcnow 0) (uuid4 0) fresh_rng))
      "2025-10-16T15:00:00" from "https://github.com/a/quiz-app-ab12c" "0123abc"
      "https://a.github.io/quiz-app-ab12c/") as Hsub.
  split; [vm_compute; reflexivity|]. split.
  - destruct (Hsub "a@x.com") as [_ ->]; vm_compute; reflexivity.
  - destruct (Hsub "A@x.com") as [_ ->]; vm_compute; reflexivity.
Defined.

End FlowSample.

